(** * OutlookAutomation: mail fetcher and attachment classifier

    A shallow embedding of [OutlookAutomation.py].  Python strings are
    [string], integers are [Z], dictionaries are association lists kept in
    insertion order (the order in which [dict.items()] iterates), JSON
    documents are values of [json], and the mutable world (dictionaries,
    local variables that loops reassign, the staging directory, the mail
    server) is threaded through a state-and-exception monad in which a
    raised exception keeps every mutation made before it. *)

From Stdlib Require Import ZArith List String Ascii Bool Lia DecimalString.
Import ListNotations.
Local Open Scope string_scope.

(* ===================================================================== *)
(** ** Python string operations *)
(* ===================================================================== *)

(** [s.startswith(t)] *)
Definition startswith (s t : string) : bool := String.prefix t s.

(** The scan behind [s.find(sub)]: lowest index at which [sub] occurs in
    [s], counted from [i]; [-1] when there is none. *)
Fixpoint find_from (sub s : string) (i : Z) : Z :=
  if String.prefix sub s then i
  else match s with
       | EmptyString => (-1)%Z
       | String _ s' => find_from sub s' (i + 1)%Z
       end.

(** [s.find(sub)] *)
Definition str_find (s sub : string) : Z := find_from sub s 0%Z.

(** [sub in s] on two strings: substring containment. *)
Definition str_in (sub s : string) : bool := negb (str_find s sub =? -1)%Z.

(** [s.rfind(c)] for a one-character [c]: highest index, [-1] when absent. *)
Fixpoint rfind_from (c : ascii) (s : string) (i last : Z) : Z :=
  match s with
  | EmptyString => last
  | String a s' => rfind_from c s' (i + 1)%Z (if Ascii.eqb a c then i else last)
  end.

Definition str_rfind (s : string) (c : ascii) : Z := rfind_from c s 0%Z (-1)%Z.

(** [s[i]] for an index inside the string. *)
Definition char_at (s : string) (i : Z) : option ascii := String.get (Z.to_nat i) s.

(** [s[:i]] and [s[i:]] for [0 <= i]. *)
Definition slice_to (s : string) (i : Z) : string := substring 0 (Z.to_nat i) s.
Definition slice_from (s : string) (i : Z) : string :=
  substring (Z.to_nat i) (String.length s - Z.to_nat i) s.

(** The [while filenameIndex < dotIndex] loop of [genericpath._splitext]:
    the extension is split off as soon as a character other than a dot is
    seen before the last dot. *)
Fixpoint splitext_scan (p : string) (dotIndex filenameIndex : Z) (steps : nat)
  : string * string :=
  match steps with
  | O => (p, "")
  | S steps' =>
      if (filenameIndex <? dotIndex)%Z then
        match char_at p filenameIndex with
        | Some c =>
            if Ascii.eqb c "."%char
            then splitext_scan p dotIndex (filenameIndex + 1)%Z steps'
            else (slice_to p dotIndex, slice_from p dotIndex)
        | None => (p, "")
        end
      else (p, "")
  end.

(** [os.path.splitext(p)] (posixpath: separator [/], extension separator [.]). *)
Definition splitext (p : string) : string * string :=
  let sepIndex := str_rfind p "/"%char in
  let dotIndex := str_rfind p "."%char in
  if (dotIndex >? sepIndex)%Z
  then splitext_scan p dotIndex (sepIndex + 1)%Z (String.length p)
  else (p, "").

(** [c.lower()] on an ASCII letter. *)
Definition lower_char (c : ascii) : ascii :=
  let n := nat_of_ascii c in
  if ((65 <=? n) && (n <=? 90))%nat then ascii_of_nat (n + 32) else c.

(** [s.lower()] *)
Fixpoint lower (s : string) : string :=
  match s with
  | EmptyString => EmptyString
  | String c s' => String (lower_char c) (lower s')
  end.

(** Whitespace, as [str.strip()] understands it.  A [string] holds the
    UTF-8 encoding of a Python [str], one [ascii] per byte, which is also
    how a string literal of this file is read; the operations above give
    the same answers on the encoding as Python gives on the text.  The
    characters that [str.strip()] removes are those of
    [_PyUnicode_IsWhitespace]: U+0009 to U+000D, U+001C to U+0020, U+0085,
    U+00A0, U+1680, U+2000 to U+200A, U+2028, U+2029, U+202F, U+205F and
    U+3000.  They are encoded in one, two or three bytes. *)
Definition is_ascii_space (c : ascii) : bool :=
  let n := nat_of_ascii c in
  (((9 <=? n) && (n <=? 13)) || ((28 <=? n) && (n <=? 32)))%nat.

(** U+0085 is [C2 85] and U+00A0 is [C2 A0]. *)
Definition is_space2 (c1 c2 : ascii) : bool :=
  let a := nat_of_ascii c1 in
  let b := nat_of_ascii c2 in
  ((a =? 194) && ((b =? 133) || (b =? 160)))%nat.

(** U+1680 is [E1 9A 80]; U+2000 to U+200A are [E2 80 80] to [E2 80 8A];
    U+2028, U+2029 and U+202F are [E2 80 A8], [E2 80 A9] and [E2 80 AF];
    U+205F is [E2 81 9F]; U+3000 is [E3 80 80]. *)
Definition is_space3 (c1 c2 c3 : ascii) : bool :=
  let a := nat_of_ascii c1 in
  let b := nat_of_ascii c2 in
  let c := nat_of_ascii c3 in
  (((a =? 225) && (b =? 154) && (c =? 128))
   || ((a =? 226) && (b =? 128)
       && (((128 <=? c) && (c <=? 138)) || (c =? 168) || (c =? 169) || (c =? 175)))
   || ((a =? 226) && (b =? 129) && (c =? 159))
   || ((a =? 227) && (b =? 128) && (c =? 128)))%nat.

(** [w] is the encoding of one whitespace character. *)
Definition is_space_char (w : string) : bool :=
  match w with
  | String c EmptyString => is_ascii_space c
  | String c1 (String c2 EmptyString) => is_space2 c1 c2
  | String c1 (String c2 (String c3 EmptyString)) => is_space3 c1 c2 c3
  | _ => false
  end.

(** [s.lstrip()]: whitespace characters are dropped from the front until
    the text starts with something else. *)
Fixpoint lstrip (s : string) : string :=
  match s with
  | EmptyString => EmptyString
  | String c1 s1 =>
      if is_ascii_space c1 then lstrip s1
      else
        match s1 with
        | EmptyString => s
        | String c2 s2 =>
            if is_space2 c1 c2 then lstrip s2
            else
              match s2 with
              | EmptyString => s
              | String c3 s3 => if is_space3 c1 c2 c3 then lstrip s3 else s
              end
        end
  end.

(** The text is made of whitespace characters only. *)
Definition all_space (s : string) : bool := String.eqb (lstrip s) "".

(** [s.rstrip()]: the text is cut where what follows is whitespace only. *)
Fixpoint rstrip (s : string) : string :=
  match s with
  | EmptyString => EmptyString
  | String c s' => if all_space s then EmptyString else String c (rstrip s')
  end.

(** [s.strip()] *)
Definition strip (s : string) : string := rstrip (lstrip s).

(* ===================================================================== *)
(** ** Dictionaries in insertion order *)
(* ===================================================================== *)

Section Dict.
Context {V : Type}.

(** [d.get(k)] *)
Fixpoint dict_get (d : list (string * V)) (k : string) : option V :=
  match d with
  | [] => None
  | (k', v) :: d' => if String.eqb k' k then Some v else dict_get d' k
  end.

(** [d[k] = v]: an existing key keeps its position, a new key goes last. *)
Fixpoint dict_set (d : list (string * V)) (k : string) (v : V) : list (string * V) :=
  match d with
  | [] => [(k, v)]
  | (k', v') :: d' =>
      if String.eqb k' k then (k', v) :: d' else (k', v') :: dict_set d' k v
  end.

(** [del d[k]] *)
Fixpoint dict_del (d : list (string * V)) (k : string) : list (string * V) :=
  match d with
  | [] => []
  | (k', v') :: d' =>
      if String.eqb k' k then dict_del d' k else (k', v') :: dict_del d' k
  end.

(** [k in d] *)
Definition dict_mem (d : list (string * V)) (k : string) : bool :=
  match dict_get d k with Some _ => true | None => false end.

Definition dict_keys (d : list (string * V)) : list string := map fst d.
End Dict.

(* ===================================================================== *)
(** ** JSON values and exceptions *)
(* ===================================================================== *)

#[local] Unset Elimination Schemes.
Inductive json : Type :=
| JNull
| JBool (b : bool)
| JNum (n : Z)
| JStr (s : string)
| JArr (items : list json)
| JObj (fields : list (string * json)).
#[local] Set Elimination Schemes.

(** The exceptions the program can meet.  [RequestException] stands for
    every subclass of [requests.exceptions.RequestException]
    ([ConnectionError], [HTTPError] from [raise_for_status], the
    [JSONDecodeError] of [response.json()], the errors of an unusable URL).
    [Unsupported] and [OutOfFuel] are not Python exceptions and nothing
    catches them: [Unsupported] ends a run that leaves what the model
    covers (a message or attachment id that is not a JSON string),
    [OutOfFuel] a run cut off by the
    model's bound on the number of pages. *)
Inductive exn : Type :=
| RequestException
| KeyError
| TypeError
| AttributeError
| FileNotFoundError
| FileExistsError
| IsADirectoryError
| NotADirectoryError
| JSONDecodeError
| ShutilError
| Unsupported
| OutOfFuel.

Inductive outcome (A : Type) : Type :=
| Ok (a : A)
| Raise (e : exn).
Arguments Ok {A} a.
Arguments Raise {A} e.

(** [j[k]] with a string key. *)
Definition getitem (j : json) (k : string) : outcome json :=
  match j with
  | JObj fields =>
      match dict_get fields k with
      | Some v => Ok v
      | None => Raise KeyError
      end
  | _ => Raise TypeError
  end.

(** [j.get(k, default)] *)
Definition json_get (j : json) (k : string) (default : json) : outcome json :=
  match j with
  | JObj fields =>
      match dict_get fields k with
      | Some v => Ok v
      | None => Ok default
      end
  | _ => Raise AttributeError
  end.

Fixpoint chars (s : string) : list json :=
  match s with
  | EmptyString => []
  | String c s' => JStr (String c EmptyString) :: chars s'
  end.

(** What [for x in j] iterates over. *)
Definition json_iter (j : json) : outcome (list json) :=
  match j with
  | JArr items => Ok items
  | JObj fields => Ok (map (fun kv => JStr (fst kv)) fields)
  | JStr s => Ok (chars s)
  | _ => Raise TypeError
  end.

(** Truth value of a JSON value in a condition. *)
Definition json_truthy (j : json) : bool :=
  match j with
  | JNull => false
  | JBool b => b
  | JNum n => negb (n =? 0)%Z
  | JStr s => negb (String.eqb s "")
  | JArr items => match items with [] => false | _ => true end
  | JObj fields => match fields with [] => false | _ => true end
  end.

Definition json_eqb_str (j : json) (s : string) : bool :=
  match j with
  | JStr s' => String.eqb s' s
  | _ => false
  end.

(* ===================================================================== *)
(** ** The state-and-exception monad *)
(* ===================================================================== *)

(** A computation over a mutable world [St]: it ends normally with a value
    or raises, and in both cases hands back the world as it left it. *)
Definition M (St A : Type) : Type := St -> outcome A * St.

Definition ret {St A} (a : A) : M St A := fun st => (Ok a, st).

Definition bind {St A B} (m : M St A) (f : A -> M St B) : M St B :=
  fun st =>
    match m st with
    | (Ok a, st') => f a st'
    | (Raise e, st') => (Raise e, st')
    end.

Definition raise {St A} (e : exn) : M St A := fun st => (Raise e, st).

(** A step that cannot touch the world. *)
Definition lift {St A} (o : outcome A) : M St A := fun st => (o, st).

Definition get_state {St} : M St St := fun st => (Ok st, st).
Definition put_state {St} (st : St) : M St unit := fun _ => (Ok tt, st).
Definition modify {St} (f : St -> St) : M St unit := fun st => (Ok tt, f st).

Declare Scope monad_scope.
Delimit Scope monad_scope with monad.
Notation "x <- m ;; k" := (bind m (fun x => k))
  (at level 61, m at next level, right associativity) : monad_scope.
Notation "m ;; k" := (bind m (fun _ => k))
  (at level 61, right associativity) : monad_scope.
Local Open Scope monad_scope.

(** [for x in xs: body(x)] *)
Fixpoint for_each {St A} (xs : list A) (body : A -> M St unit) : M St unit :=
  match xs with
  | [] => ret tt
  | x :: xs' => body x ;; for_each xs' body
  end.

(* ===================================================================== *)
(** ** The file system *)
(* ===================================================================== *)

Definition bytes : Type := list Byte.byte.

(** An entry of the staging directory: a regular file or a directory. *)
#[local] Unset Elimination Schemes.
Inductive node : Type :=
| File (content : bytes)
| Dir (entries : list (string * node)).
#[local] Set Elimination Schemes.

(** What is found at [os.path.join(os.getcwd(), "Attachments")]. *)
Inductive dir_state : Type :=
| NoEntry
| RegularFile
| Directory (entries : list (string * node)).

(** What is found at [PortfoliosPath.json]. *)
Inductive config_file : Type :=
| Missing
| Invalid
| Parsed (data : json).

(** The part of the file system the program reads and writes.  File names
    are single path components, as [os.listdir] returns them.  A
    destination directory is known by the path string the configuration
    gives for it; destination directories lie outside the staging tree and
    two different strings name two different directories. *)
Record filesystem : Type := mkFs {
  staging : dir_state;
  portfolios : config_file;
  dests : list (string * list (string * bytes))
}.

Definition set_staging (fs : filesystem) (d : dir_state) : filesystem :=
  mkFs d (portfolios fs) (dests fs).

Definition set_dests (fs : filesystem) (ds : list (string * list (string * bytes)))
  : filesystem :=
  mkFs (staging fs) (portfolios fs) ds.

(** [os.listdir(path)] on the staging directory. *)
Definition os_listdir : M filesystem (list string) :=
  fun fs =>
    match staging fs with
    | Directory entries => (Ok (dict_keys entries), fs)
    | NoEntry => (Raise FileNotFoundError, fs)
    | RegularFile => (Raise NotADirectoryError, fs)
    end.

(** [os.rmdir(path)] on the staging directory, reached only when it was
    just listed as empty. *)
Definition os_rmdir : M filesystem unit :=
  fun fs =>
    match staging fs with
    | Directory [] => (Ok tt, set_staging fs NoEntry)
    | Directory _ => (Raise FileExistsError, fs)
    | NoEntry => (Raise FileNotFoundError, fs)
    | RegularFile => (Raise NotADirectoryError, fs)
    end.

(** [with open('PortfoliosPath.json') as file: data = json.load(file)] *)
Definition load_portfolios : M filesystem json :=
  fun fs =>
    match portfolios fs with
    | Parsed data => (Ok data, fs)
    | Missing => (Raise FileNotFoundError, fs)
    | Invalid => (Raise JSONDecodeError, fs)
    end.

(** [os.makedirs(destination_path, exist_ok=True)] *)
Definition makedirs_dest (destination_path : json) : M filesystem string :=
  fun fs =>
    match destination_path with
    | JStr p =>
        if String.eqb p "" then (Raise FileNotFoundError, fs)
        else if dict_mem (dests fs) p then (Ok p, fs)
        else (Ok p, set_dests fs (dict_set (dests fs) p []))
    | _ => (Raise TypeError, fs)
    end.

(** [shutil.copy(os.path.join(path, attachment), destination_path)]: the
    source is opened first, then the file of the same name in the
    destination directory is written (replacing one that is there). *)
Definition shutil_copy (attachment p : string) : M filesystem unit :=
  fun fs =>
    match staging fs with
    | Directory entries =>
        match dict_get entries attachment with
        | Some (File content) =>
            match dict_get (dests fs) p with
            | Some files =>
                (Ok tt, set_dests fs (dict_set (dests fs) p (dict_set files attachment content)))
            | None => (Raise FileNotFoundError, fs)
            end
        | Some (Dir _) => (Raise IsADirectoryError, fs)
        | None => (Raise FileNotFoundError, fs)
        end
    | _ => (Raise FileNotFoundError, fs)
    end.

(** [os.remove(os.path.join(path, attachment))] *)
Definition os_remove (attachment : string) : M filesystem unit :=
  fun fs =>
    match staging fs with
    | Directory entries =>
        match dict_get entries attachment with
        | Some (File _) => (Ok tt, set_staging fs (Directory (dict_del entries attachment)))
        | Some (Dir _) => (Raise IsADirectoryError, fs)
        | None => (Raise FileNotFoundError, fs)
        end
    | _ => (Raise FileNotFoundError, fs)
    end.

(** [os.makedirs(unclassified_path, exist_ok=True)] *)
Definition makedirs_unclassified : M filesystem unit :=
  fun fs =>
    match staging fs with
    | Directory entries =>
        match dict_get entries "Unclassified" with
        | Some (Dir _) => (Ok tt, fs)
        | Some (File _) => (Raise FileExistsError, fs)
        | None => (Ok tt, set_staging fs (Directory (dict_set entries "Unclassified" (Dir []))))
        end
    | _ => (Raise FileNotFoundError, fs)
    end.

(** [shutil.move(os.path.join(path, attachment), unclassified_path)] with
    the destination an existing directory: moving the directory onto
    itself changes nothing; a name already present in the destination is
    refused; otherwise the entry is renamed into the directory, which fails
    when the source is gone. *)
Definition shutil_move_unclassified (attachment : string) : M filesystem unit :=
  fun fs =>
    match staging fs with
    | Directory entries =>
        match dict_get entries "Unclassified" with
        | Some (Dir children) =>
            if String.eqb attachment "Unclassified" then (Ok tt, fs)
            else if dict_mem children attachment then (Raise ShutilError, fs)
            else
              match dict_get entries attachment with
              | Some n =>
                  (Ok tt,
                   set_staging fs
                     (Directory
                        (dict_set (dict_del entries attachment) "Unclassified"
                           (Dir (dict_set children attachment n)))))
              | None => (Raise FileNotFoundError, fs)
              end
        | _ => (Raise FileNotFoundError, fs)
        end
    | _ => (Raise FileNotFoundError, fs)
    end.

(** Whether [os.path.join(path, name)] is the entry [name] of the staging
    directory itself: [name] is a single path component, that is, it has
    no separator and no NUL, is not empty, [.] or [..], and is not longer
    than the 255 bytes that a file name may have. *)
Definition plain_name (name : string) : bool :=
  negb (str_in "/" name)
  && negb (str_in (String Ascii.zero "") name)
  && negb (String.eqb name "")
  && negb (String.eqb name ".")
  && negb (String.eqb name "..")
  && (String.length name <=? 255)%nat.

(** Where a path can lead: to a place below the staging directory, given
    by the names from the staging directory down to the file ([[]] is the
    staging directory itself); to the file [name] of the destination
    directory known as [p]; or to a place that is none of these, where
    opening the file for writing has the given result and the directories
    of [filesystem] are not touched. *)
Inductive target : Type :=
| InStaging (path : list string)
| InDest (p name : string)
| Elsewhere (result : outcome unit).

(** [open(..., "wb")] and [f.write(data)] below a directory with the given
    entries: the file is created, or replaced when it is there; every
    directory on the way has to be there, and the path must not end at a
    directory. *)
Fixpoint write_at (path : list string) (data : bytes) (entries : list (string * node))
  : outcome (list (string * node)) :=
  match path with
  | [] => Raise IsADirectoryError
  | [name] =>
      match dict_get entries name with
      | Some (Dir _) => Raise IsADirectoryError
      | _ => Ok (dict_set entries name (File data))
      end
  | d :: rest =>
      match dict_get entries d with
      | Some (Dir children) =>
          match write_at rest data children with
          | Ok children' => Ok (dict_set entries d (Dir children'))
          | Raise e => Raise e
          end
      | Some (File _) => Raise NotADirectoryError
      | None => Raise FileNotFoundError
      end
  end.

(** [with open(attachment_path, "wb") as f: f.write(data)] for a path that
    leads to [t]. *)
Definition open_write (t : target) (data : bytes) : M filesystem unit :=
  fun fs =>
    match t with
    | InStaging path =>
        match staging fs with
        | Directory entries =>
            match write_at path data entries with
            | Ok entries' => (Ok tt, set_staging fs (Directory entries'))
            | Raise e => (Raise e, fs)
            end
        | NoEntry => (Raise FileNotFoundError, fs)
        | RegularFile => (Raise NotADirectoryError, fs)
        end
    | InDest p name =>
        match dict_get (dests fs) p with
        | Some files =>
            (Ok tt, set_dests fs (dict_set (dests fs) p (dict_set files name data)))
        | None => (Raise FileNotFoundError, fs)
        end
    | Elsewhere result => (result, fs)
    end.

(* ===================================================================== *)
(** ** The classifier: [filter_office365_attachments] *)
(* ===================================================================== *)

(** A value of [mail_dict]: the four fields the fetcher stores, each as
    the JSON value the server sent (the body possibly as extracted text). *)
Record mail_info : Type := mkMail {
  sender : json;
  date : json;
  subject : json;
  body : json
}.

Definition Subject_filter : list (string * string) :=
  [ ("[Not Virus Scanned] Ahli Bank -  Statement , Portfolio ", "Ahli");
    ("[Not Virus Scanned] WOQOD - Fahes - Account Statement & Portfolio", "Fahes");
    ("[Not Virus Scanned] Ahli Brokerage - Ardh Al Khaleej", "Waqod") ].

Definition BodyTitle_filter : list (string * string) :=
  [ ("CIVIL FUND - QINVEST", "Civil I");
    ("GIRAFFA QIC", "Giraffa");
    ("OQIC", "Oman");
    ("MILITARY FUND - QINVEST / N", "Military I");
    ("QATAR INSURANCE COMPANY S.A.Q", "QIC");
    ("RASLAFFAN OPERATING COMPANY WLL", "QEWC") ].

Definition DocName_filter : list (string * string) :=
  [ ("170792", "Pension C");
    ("170793", "Pension M") ].

(** [any(attachment in string for string in value)] *)
Definition any_contains (attachment : string) (value : list string) : bool :=
  existsb (fun string => str_in attachment string) value.

(** The keys collected by the loop over [attachment_dict.items()]. *)
Fixpoint matching_keys (attachment : string) (attachment_dict : list (string * list string))
  : list string :=
  match attachment_dict with
  | [] => []
  | (key, value) :: rest =>
      if any_contains attachment value
      then key :: matching_keys attachment rest
      else matching_keys attachment rest
  end.

(** The loop of [subjectCheck]: [None] is the [False] it returns when no
    key is found.  [mail_dict[key]] is looked up at every turn. *)
Fixpoint subjectCheck_scan (mail_dict : list (string * mail_info)) (key : string)
    (subjects : list string) : outcome (option string) :=
  match subjects with
  | [] => Ok None
  | s :: rest =>
      match dict_get mail_dict key with
      | None => Raise KeyError
      | Some m =>
          match subject m with
          | JStr text =>
              if negb (str_find text s =? -1)%Z then Ok (Some s)
              else subjectCheck_scan mail_dict key rest
          | _ => Raise AttributeError
          end
      end
  end.

Definition subjectCheck (mail_dict : list (string * mail_info)) (key : string)
  : outcome (option string) :=
  subjectCheck_scan mail_dict key (dict_keys Subject_filter).

(** The loop of [bodyTitleCheck]. *)
Fixpoint bodyTitleCheck_scan (mail_dict : list (string * mail_info)) (key : string)
    (titles : list string) : outcome (option string) :=
  match titles with
  | [] => Ok None
  | t :: rest =>
      match dict_get mail_dict key with
      | None => Raise KeyError
      | Some m =>
          match body m with
          | JStr text =>
              if startswith text t then Ok (Some t)
              else bodyTitleCheck_scan mail_dict key rest
          | _ => Raise AttributeError
          end
      end
  end.

Definition bodyTitleCheck (mail_dict : list (string * mail_info)) (key : string)
  : outcome (option string) :=
  bodyTitleCheck_scan mail_dict key (dict_keys BodyTitle_filter).

(** Truth value of a [str | bool] result: [False] and the empty string are
    false. *)
Definition truthy (r : option string) : bool :=
  match r with
  | Some s => negb (String.eqb s "")
  | None => false
  end.

(** The string of a result that counts as true. *)
Definition the_str (r : option string) : string :=
  match r with Some s => s | None => "" end.

(** [table[k]] on a rule table. *)
Definition table_item (table : list (string * string)) (k : string) : outcome string :=
  match dict_get table k with
  | Some label => Ok label
  | None => Raise KeyError
  end.

(** The body shared by the three matched branches: read the configuration,
    resolve the label, make the destination, copy, delete the original. *)
Definition route (table : list (string * string)) (k attachment : string)
  : M filesystem unit :=
  data <- load_portfolios ;;
  label <- lift (table_item table k) ;;
  destination_path <- lift (getitem data label) ;;
  p <- makedirs_dest destination_path ;;
  shutil_copy attachment p ;;
  os_remove attachment.

(** The [else] branch: move into the [Unclassified] folder. *)
Definition move_unclassified (attachment : string) : M filesystem unit :=
  makedirs_unclassified ;;
  shutil_move_unclassified attachment.

(** One turn of [for key in matching_keys]. *)
Definition classify_for_key (mail_dict : list (string * mail_info))
    (attachment key : string) : M filesystem unit :=
  sub <- lift (subjectCheck mail_dict key) ;;
  if truthy sub then route Subject_filter (the_str sub) attachment
  else
    tc <- lift (bodyTitleCheck mail_dict key) ;;
    if truthy tc then route BodyTitle_filter (the_str tc) attachment
    else
      let doc := fst (splitext attachment) in
      if dict_mem DocName_filter doc then route DocName_filter doc attachment
      else move_unclassified attachment.

(** One turn of [for attachment in os.listdir(path)]. *)
Definition classify_attachment (mail_dict : list (string * mail_info))
    (attachment_dict : list (string * list string)) (attachment : string)
  : M filesystem unit :=
  for_each (matching_keys attachment attachment_dict)
    (classify_for_key mail_dict attachment).

(** The loop over the staged files. *)
Definition classify_all (mail_dict : list (string * mail_info))
    (attachment_dict : list (string * list string)) : M filesystem unit :=
  names <- os_listdir ;;
  for_each names (classify_attachment mail_dict attachment_dict).

(** [if not os.listdir(path): os.rmdir(path)] *)
Definition remove_if_empty : M filesystem unit :=
  names <- os_listdir ;;
  match names with
  | [] => os_rmdir
  | _ => ret tt
  end.

Definition filter_office365_attachments (mail_dict : list (string * mail_info))
    (attachment_dict : list (string * list string)) : M filesystem unit :=
  classify_all mail_dict attachment_dict ;;
  remove_if_empty.

(* ===================================================================== *)
(** ** The fetcher: [download_office365_attachments] *)
(* ===================================================================== *)

(** What [requests.get] hands back when it returns. *)
Record http_response : Type := mkResp {
  status_ok : bool;          (* [raise_for_status()] passes *)
  json_body : option json;   (* [response.json()]; [None]: the body is not JSON *)
  content : bytes            (* [response.content] *)
}.

Inductive reply : Type :=
| ConnectionFailed
| Answer (r : http_response).

(** What the program sends: the URL, the bearer token and content type of
    [headers], and the [$filter] and [$top] of [params] when passed. *)
Record request : Type := mkReq {
  req_url : string;
  req_token : string;
  req_content_type : string;
  req_params : option (string * Z)
}.

(** [extract_text_from_html] over [soup_get_text], which stands for
    [BeautifulSoup(html, 'html.parser').get_text(separator=' ')]. *)
Definition extract_text_from_html (soup_get_text : string -> string) (html : string)
  : string :=
  let text := soup_get_text html in
  strip text.

Definition messages_url : string :=
  "https://graph.microsoft.com/v1.0/users/sharedmailbox@domain.com/messages".

Definition message_url (email_id : string) : string :=
  messages_url ++ "/" ++ email_id.

Definition attachment_url (email_id attachment_id : string) : string :=
  message_url email_id ++ "/attachments/" ++ attachment_id ++ "/$value".

(** A JSON value used where the model needs a string. *)
Definition as_string (j : json) : outcome string :=
  match j with
  | JStr s => Ok s
  | _ => Raise Unsupported
  end.

(** [os.path.splitext(attachment_name)[1].lower()] *)
Definition file_extension_of (attachment_name : json) : outcome string :=
  match attachment_name with
  | JStr s => Ok (lower (snd (splitext s)))
  | _ => Raise TypeError
  end.

Section Fetcher.
(** The mail server: any state, any answer to any request. *)
Variable server_state : Type.
Variable serve : server_state -> request -> reply * server_state.
Variable soup_get_text : string -> string.
(** The operating system's reading of [os.path.join(path, attachment_name)]
    for an attachment name that is more than a plain file name: a name
    with a separator leads below the staging directory, or, if it is
    absolute or climbs with [..], to any other place. *)
Variable locate : string -> filesystem -> target.

(** One entry of the history of requests: what was sent, whether it
    failed (no answer, or an answer with a bad status), and the two
    dictionaries as they were when it was sent. *)
Record exchange : Type := mkExchange {
  ex_request : request;
  ex_failed : bool;
  ex_mail_dict : list (string * mail_info);
  ex_attachment_dict : list (string * list string)
}.

(** The world of the fetcher: its two dictionaries, the local variables
    that the loops reassign ([url], [headers], [response]), the file
    system and the server.  [st_trace] and [st_processed] are history
    variables: the program never reads them.  [st_trace] lists the
    requests sent, [st_processed] the messages whose turn of the loop
    reached its end, each with its [attachments] list. *)
Record fetch_state : Type := mkFetch {
  st_mail_dict : list (string * mail_info);
  st_attachment_dict : list (string * list string);
  st_url : string;
  st_headers : string;
  st_response : option http_response;
  st_fs : filesystem;
  st_net : server_state;
  st_trace : list exchange;
  st_processed : list (string * list string)
}.

Definition set_url (u : string) : M fetch_state unit :=
  modify (fun st =>
    mkFetch (st_mail_dict st) (st_attachment_dict st) u (st_headers st)
            (st_response st) (st_fs st) (st_net st) (st_trace st) (st_processed st)).

Definition set_headers (h : string) : M fetch_state unit :=
  modify (fun st =>
    mkFetch (st_mail_dict st) (st_attachment_dict st) (st_url st) h
            (st_response st) (st_fs st) (st_net st) (st_trace st) (st_processed st)).

Definition reply_failed (r : reply) : bool :=
  match r with
  | ConnectionFailed => true
  | Answer a => negb (status_ok a)
  end.

(** [response = requests.get(url, headers=headers, ...)]: [response] is
    assigned only when the call returns. *)
Definition requests_get (access_token : string) (params : option (string * Z))
  : M fetch_state unit :=
  fun st =>
    let req := mkReq (st_url st) access_token (st_headers st) params in
    let (r, net') := serve (st_net st) req in
    let trace' :=
      (st_trace st ++
       [mkExchange req (reply_failed r) (st_mail_dict st) (st_attachment_dict st)])%list in
    match r with
    | ConnectionFailed =>
        (Raise RequestException,
         mkFetch (st_mail_dict st) (st_attachment_dict st) (st_url st) (st_headers st)
                 (st_response st) (st_fs st) net' trace' (st_processed st))
    | Answer a =>
        (Ok tt,
         mkFetch (st_mail_dict st) (st_attachment_dict st) (st_url st) (st_headers st)
                 (Some a) (st_fs st) net' trace' (st_processed st))
    end.

(** [response.raise_for_status()] *)
Definition raise_for_status : M fetch_state unit :=
  fun st =>
    match st_response st with
    | Some a => if status_ok a then (Ok tt, st) else (Raise RequestException, st)
    | None => (Raise Unsupported, st)
    end.

(** [response.json()] on the current value of [response]. *)
Definition response_json : M fetch_state json :=
  fun st =>
    match st_response st with
    | Some a =>
        match json_body a with
        | Some j => (Ok j, st)
        | None => (Raise RequestException, st)
        end
    | None => (Raise Unsupported, st)
    end.

(** [response.content] *)
Definition response_content : M fetch_state bytes :=
  fun st =>
    match st_response st with
    | Some a => (Ok (content a), st)
    | None => (Raise Unsupported, st)
    end.

(** [attachment_path = os.path.join(path, attachment_name)]: where the
    path leads. *)
Definition attachment_target (attachment_name : string) (fs : filesystem) : target :=
  if plain_name attachment_name then InStaging [attachment_name]
  else locate attachment_name fs.

Definition set_fs (st : fetch_state) (fs : filesystem) : fetch_state :=
  mkFetch (st_mail_dict st) (st_attachment_dict st) (st_url st) (st_headers st)
          (st_response st) fs (st_net st) (st_trace st) (st_processed st).

(** [with open(attachment_path, "wb") as f: f.write(...)] *)
Definition write_staged (attachment_name : string) (data : bytes) : M fetch_state unit :=
  fun st =>
    let t := attachment_target attachment_name (st_fs st) in
    let (r, fs') := open_write t data (st_fs st) in
    (r, set_fs st fs').

(** One turn of [for attachment in email_data.get("attachments", [])]:
    takes the [attachments] list and returns it as the turn leaves it. *)
Definition download_attachment (access_token email_id : string)
    (attachments : list string) (attachment : json) : M fetch_state (list string) :=
  attachment_name <- lift (getitem attachment "name") ;;
  content_type <- lift (getitem attachment "contentType") ;;
  file_extension <- lift (file_extension_of attachment_name) ;;
  if String.eqb file_extension ".pdf" then
    name <- lift (as_string attachment_name) ;;
    let attachments := (attachments ++ [name])%list in
    attachment_id_j <- lift (getitem attachment "id") ;;
    attachment_id <- lift (as_string attachment_id_j) ;;
    set_url (attachment_url email_id attachment_id) ;;
    set_headers "application/octet-stream" ;;
    requests_get access_token None ;;
    raise_for_status ;;
    data <- response_content ;;
    write_staged name data ;;
    ret attachments
  else ret attachments.

Fixpoint download_attachments (access_token email_id : string)
    (attachments : list string) (items : list json) : M fetch_state (list string) :=
  match items with
  | [] => ret attachments
  | attachment :: rest =>
      attachments <- download_attachment access_token email_id attachments attachment ;;
      download_attachments access_token email_id attachments rest
  end.

(** [mail_dict[email_id] = {...}] *)
Definition set_mail (email_id : string) (m : mail_info) : M fetch_state unit :=
  modify (fun st =>
    mkFetch (dict_set (st_mail_dict st) email_id m) (st_attachment_dict st) (st_url st)
            (st_headers st) (st_response st) (st_fs st) (st_net st) (st_trace st)
            (st_processed st)).

(** [attachment_dict[email_id] = attachments], the last statement of the
    turn, which the history records. *)
Definition set_attachments (email_id : string) (attachments : list string)
  : M fetch_state unit :=
  modify (fun st =>
    mkFetch (st_mail_dict st) (dict_set (st_attachment_dict st) email_id attachments)
            (st_url st) (st_headers st) (st_response st) (st_fs st) (st_net st)
            (st_trace st) (st_processed st ++ [(email_id, attachments)])%list).

(** [body = extract_text_from_html(body)] *)
Definition extract_body (b : json) : outcome json :=
  match b with
  | JStr html => Ok (JStr (extract_text_from_html soup_get_text html))
  | _ => Raise TypeError
  end.

(** One turn of [for message in messages]. *)
Definition process_message (access_token : string) (message : json)
  : M fetch_state unit :=
  email_id_j <- lift (getitem message "id") ;;
  email_id <- lift (as_string email_id_j) ;;
  set_url (message_url email_id) ;;
  requests_get access_token None ;;
  raise_for_status ;;
  email_data <- response_json ;;
  listed <- lift (json_get email_data "attachments" (JArr [])) ;;
  items <- lift (json_iter listed) ;;
  attachments <- download_attachments access_token email_id [] items ;;
  sender_j <- lift (getitem email_data "sender") ;;
  address_j <- lift (getitem sender_j "emailAddress") ;;
  sender <- lift (getitem address_j "address") ;;
  date <- lift (getitem email_data "receivedDateTime") ;;
  subject <- lift (getitem email_data "subject") ;;
  body_j <- lift (getitem email_data "body") ;;
  body <- lift (getitem body_j "content") ;;
  body_j' <- lift (getitem email_data "body") ;;
  body_type <- lift (getitem body_j' "contentType") ;;
  body <- (if json_eqb_str body_type "text/html"
           then lift (extract_body body) else ret body) ;;
  (match attachments with
   | [] => ret tt
   | _ => set_mail email_id (mkMail sender date subject body)
   end) ;;
  set_attachments email_id attachments.

(** The [while True] loop, at most [fuel] pages.  After the messages of
    a page, [response] is whatever was assigned to it last. *)
Fixpoint fetch_pages (fuel : nat) (access_token : string) (params : option (string * Z))
  : M fetch_state unit :=
  match fuel with
  | O => raise OutOfFuel
  | S fuel' =>
      requests_get access_token params ;;
      raise_for_status ;;
      page <- response_json ;;
      value <- lift (getitem page "value") ;;
      messages <- lift (json_iter value) ;;
      for_each messages (process_message access_token) ;;
      last <- response_json ;;
      next_link <- lift (json_get last "@odata.nextLink" JNull) ;;
      if negb (json_truthy next_link) then ret tt
      else
        match next_link with
        | JStr u => set_url u ;; fetch_pages fuel' access_token params
        | _ => raise RequestException
        end
  end.

(** [os.makedirs(path, exist_ok=True)] on the staging directory. *)
Definition makedirs_staging (fs : filesystem) : outcome filesystem :=
  match staging fs with
  | Directory _ => Ok fs
  | NoEntry => Ok (set_staging fs (Directory []))
  | RegularFile => Raise FileExistsError
  end.

Definition initial_state (fs : filesystem) (net : server_state) : fetch_state :=
  mkFetch [] [] messages_url "application/json" None fs net [] [].

Definition filter_param (start_date start_time : string) : string :=
  "receivedDateTime ge " ++ start_date ++ "T" ++ start_time ++ "Z".

(** [download_office365_attachments]: the value returned or the
    exception that leaves it, with the world at that point.
    [start_date] and [start_time] are the dates as [str] prints them. *)
Definition download_office365_attachments (fuel : nat)
    (access_token start_date start_time : string)
    (fs : filesystem) (net : server_state)
  : outcome (list (string * mail_info) * list (string * list string)) * fetch_state :=
  match makedirs_staging fs with
  | Raise e => (Raise e, initial_state fs net)
  | Ok fs' =>
      let params := Some (filter_param start_date start_time, 100%Z) in
      match fetch_pages fuel access_token params (initial_state fs' net) with
      | (Ok _, st) => (Ok (st_mail_dict st, st_attachment_dict st), st)
      | (Raise RequestException, st) => (Ok (st_mail_dict st, st_attachment_dict st), st)
      | (Raise e, st) => (Raise e, st)
      end
  end.

(** [main] after the token is obtained: fetch, then classify what was
    fetched. *)
Definition main (fuel : nat) (access_token start_date start_time : string)
    (fs : filesystem) (net : server_state) : outcome unit * filesystem :=
  match download_office365_attachments fuel access_token start_date start_time fs net with
  | (Ok (mail_dict, attachment_dict), st) =>
      filter_office365_attachments mail_dict attachment_dict (st_fs st)
  | (Raise e, st) => (Raise e, st_fs st)
  end.
End Fetcher.

Arguments mkFetch {server_state}.
Arguments st_mail_dict {server_state}.
Arguments st_attachment_dict {server_state}.
Arguments st_url {server_state}.
Arguments st_headers {server_state}.
Arguments st_response {server_state}.
Arguments st_fs {server_state}.
Arguments st_net {server_state}.
Arguments st_trace {server_state}.
Arguments st_processed {server_state}.
Arguments set_url {server_state}.
Arguments set_headers {server_state}.
Arguments requests_get {server_state}.
Arguments raise_for_status {server_state}.
Arguments response_json {server_state}.
Arguments response_content {server_state}.
Arguments set_fs {server_state}.
Arguments write_staged {server_state}.
Arguments download_attachment {server_state}.
Arguments download_attachments {server_state}.
Arguments set_mail {server_state}.
Arguments set_attachments {server_state}.
Arguments process_message {server_state}.
Arguments fetch_pages {server_state}.
Arguments initial_state {server_state}.
Arguments download_office365_attachments {server_state}.
Arguments main {server_state}.

(* ===================================================================== *)
(** ** The token: [get_access_token], and [main] from the credentials *)
(* ===================================================================== *)






(* ===================================================================== *)
(** ** Vocabulary of the statements *)
(* ===================================================================== *)


(** The staging directory is there and does not list [attachment]. *)
Definition not_staged (fs : filesystem) (attachment : string) : Prop :=
  exists entries, staging fs = Directory entries /\ dict_get entries attachment = None.

(** The computation [m], started in [st], raises. *)
Definition raises {St A} (m : M St A) (st : St) : Prop :=
  exists e st', m st = (Raise e, st').

(** [P] survives the computation [m], however [m] ends. *)
Definition preserves {St A} (P : St -> Prop) (m : M St A) : Prop :=
  forall st, P st -> P (snd (m st)).

(** The staging directory is there. *)
Definition staging_is_dir (fs : filesystem) : Prop :=
  exists entries, staging fs = Directory entries.

(** When [m] starts in a state with [P] and ends normally with [a], the
    state it leaves has [Q a]. *)
Definition ensures {St A} (P : St -> Prop) (m : M St A) (Q : A -> St -> Prop) : Prop :=
  forall st, P st ->
    match m st with
    | (Ok a, st') => Q a st'
    | (Raise _, _) => True
    end.

(** The two dictionaries and the history of processed messages have the
    given values. *)
Definition dicts_are {S} (mail_dict : list (string * mail_info))
    (attachment_dict processed : list (string * list string)) (st : fetch_state S) : Prop :=
  st_mail_dict st = mail_dict /\ st_attachment_dict st = attachment_dict /\
  st_processed st = processed.

(** [name] is a regular file of the staging directory. *)
Definition staged_file (fs : filesystem) (name : string) : Prop :=
  exists entries c, staging fs = Directory entries /\ dict_get entries name = Some (File c).

(** Every plain file name among [names] is a regular file of the staging
    directory. *)
Definition all_staged {S} (names : list string) (st : fetch_state S) : Prop :=
  forall name, In name names -> plain_name name = true -> staged_file (st_fs st) name.

(** What [m] leaves when it ends normally ([Qok]) and when it raises
    ([Qraise]), started in a state with [P]. *)
Definition outcome_spec {St A} (P : St -> Prop) (m : M St A)
    (Qok : A -> St -> Prop) (Qraise : exn -> St -> Prop) : Prop :=
  forall st, P st ->
    match m st with
    | (Ok a, st') => Qok a st'
    | (Raise e, st') => Qraise e st'
    end.

(** The turn for a message has recorded it: [attachment_dict] and the
    history have the message's entry, [mail_dict] has one when the message
    has a retained attachment and is as before when it has none, and every
    retained filename that is a plain file name is a file of the staging
    directory. *)
Definition message_recorded {S} (mail_dict : list (string * mail_info))
    (attachment_dict processed : list (string * list string)) (st : fetch_state S) : Prop :=
  exists email_id attachments,
    st_attachment_dict st = dict_set attachment_dict email_id attachments
    /\ st_processed st = (processed ++ [(email_id, attachments)])%list
    /\ match attachments with
       | [] => st_mail_dict st = mail_dict
       | _ => exists m, st_mail_dict st = dict_set mail_dict email_id m
       end
    /\ all_staged attachments st.

(** The message [id] had one turn only. *)
Definition processed_once (id : string) (processed : list (string * list string)) : Prop :=
  count_occ string_dec (map fst processed) id = 1%nat.

(** What holds of the fetcher's world at every point between two turns:
    every plain filename recorded for a processed message is a staged
    file; a key of [mail_dict] is the ID of a processed message; the keys
    of [attachment_dict] are distinct; an ID with a non-empty list in
    [attachment_dict] is a key of [mail_dict]; and a message that had one
    turn only has its own list in [attachment_dict] and is a key of
    [mail_dict] exactly when that list is not empty. *)
Definition fetch_inv {S} (st : fetch_state S) : Prop :=
  (forall id l, In (id, l) (st_processed st) -> all_staged l st)
  /\ (forall id, dict_get (st_mail_dict st) id <> None ->
                 In id (map fst (st_processed st)))
  /\ NoDup (dict_keys (st_attachment_dict st))
  /\ (forall id l, dict_get (st_attachment_dict st) id = Some l -> l <> [] ->
                   dict_get (st_mail_dict st) id <> None)
  /\ (forall id l, In (id, l) (st_processed st) ->
        processed_once id (st_processed st) ->
        dict_get (st_attachment_dict st) id = Some l
        /\ (l = [] -> dict_get (st_mail_dict st) id = None)
        /\ (l <> [] -> dict_get (st_mail_dict st) id <> None)).

(** No request sent so far has failed. *)
Definition clean {S} (st : fetch_state S) : Prop :=
  Forall (fun x => ex_failed x = false) (st_trace st).

(** The last request sent has failed, none before it has, and the two
    dictionaries are as they were when it was sent. *)
Definition failed_last {S} (st : fetch_state S) : Prop :=
  exists l x,
    st_trace st = (l ++ [x])%list
    /\ Forall (fun y => ex_failed y = false) l
    /\ ex_failed x = true
    /\ ex_mail_dict x = st_mail_dict st
    /\ ex_attachment_dict x = st_attachment_dict st.

(** Started with no failed request behind it, [m] either ends with none,
    or raises [RequestException] right at the first request that fails. *)
Definition stops_at_failure {S A} (m : M (fetch_state S) A) : Prop :=
  outcome_spec clean m (fun _ => clean)
    (fun e st => clean st \/ (e = RequestException /\ failed_last st)).

(** [attachment] is a regular file of the staging directory, with content
    [c]. *)
Definition staged_as (attachment : string) (c : bytes) (fs : filesystem) : Prop :=
  exists entries,
    staging fs = Directory entries /\ dict_get entries attachment = Some (File c).

(** The first key of a rule table that a text satisfies, in the table's
    declared order. *)
Definition first_subject_key (text : string) : option string :=
  find (fun k => str_in k text) (dict_keys Subject_filter).

Definition first_body_key (text : string) : option string :=
  find (fun t => startswith text t) (dict_keys BodyTitle_filter).

(** The rule tier that decides a file, said the way the precedence rule
    is worded: subject first, then body prefix, then filename stem, and
    unclassified when none is satisfied. *)
Inductive tier : Type :=
| BySubject (k : string)
| ByBody (t : string)
| ByName (doc : string)
| Unclassified.

Definition decide_tier (subject_text body_text attachment : string) : tier :=
  match first_subject_key subject_text with
  | Some k => BySubject k
  | None =>
      match first_body_key body_text with
      | Some t => ByBody t
      | None =>
          let doc := fst (splitext attachment) in
          if dict_mem DocName_filter doc then ByName doc else Unclassified
      end
  end.

(** What is done with the file once a tier has decided. *)
Definition act (t : tier) (attachment : string) : M filesystem unit :=
  match t with
  | BySubject k => route Subject_filter k attachment
  | ByBody t => route BodyTitle_filter t attachment
  | ByName doc => route DocName_filter doc attachment
  | Unclassified => move_unclassified attachment
  end.

(** Whether the fetcher retains an attachment of this name: its extension,
    in lower case, is [.pdf]. *)
Definition is_pdf_name (name : string) : bool :=
  String.eqb (lower (snd (splitext name))) ".pdf".

(** The names that the loop over a message's attachments retains, in the
    order of the attachments. *)
Definition retained_name (attachment : json) : list string :=
  match getitem attachment "name" with
  | Ok (JStr name) => if is_pdf_name name then [name] else []
  | _ => []
  end.

Definition retained_names (items : list json) : list string :=
  flat_map retained_name items.

(** Every filename listed in [attachment_dict] is one the fetcher
    retains. *)
Definition only_pdfs {S} (st : fetch_state S) : Prop :=
  forall id l, dict_get (st_attachment_dict st) id = Some l ->
               Forall (fun name => is_pdf_name name = true) l.

(** The keys of each dictionary are distinct and every key of [mail_dict]
    is a key of [attachment_dict]. *)
Definition keys_inv {S} (st : fetch_state S) : Prop :=
  NoDup (dict_keys (st_mail_dict st))
  /\ NoDup (dict_keys (st_attachment_dict st))
  /\ forall id, dict_get (st_mail_dict st) id <> None ->
                dict_get (st_attachment_dict st) id <> None.

(** The configuration file and the destination directories are the given
    ones. *)
Definition outside_is {S} (p : config_file) (d : list (string * list (string * bytes)))
    (st : fetch_state S) : Prop :=
  portfolios (st_fs st) = p /\ dests (st_fs st) = d.

(** Every request sent so far carried the bearer token [tok] and one of
    the two content types that the fetcher ever puts in [headers], and
    [headers] holds one of the two. *)
Definition sent_with_token {S} (tok : string) (st : fetch_state S) : Prop :=
  (st_headers st = "application/json" \/ st_headers st = "application/octet-stream")
  /\ Forall (fun x => req_token (ex_request x) = tok
                      /\ (req_content_type (ex_request x) = "application/json"
                          \/ req_content_type (ex_request x) = "application/octet-stream"))
            (st_trace st).

(** [attachment] is an entry [n] of the [Unclassified] folder of the
    staging directory. *)
Definition in_unclassified (attachment : string) (n : node) (fs : filesystem) : Prop :=
  exists entries children,
    staging fs = Directory entries
    /\ dict_get entries "Unclassified" = Some (Dir children)
    /\ dict_get children attachment = Some n.

(** [name] is a file of the destination directory [p]. *)
Definition dest_file (p name : string) (fs : filesystem) : Prop :=
  exists files c, dict_get (dests fs) p = Some files /\ dict_get files name = Some c.

(** [attachment] is a file with content [c] of some destination
    directory. *)
Definition in_some_dest (attachment : string) (c : bytes) (fs : filesystem) : Prop :=
  exists p files, dict_get (dests fs) p = Some files /\ dict_get files attachment = Some c.

(** The staging directory does not list [attachment] as a regular file. *)
Definition not_root_file (attachment : string) (fs : filesystem) : Prop :=
  forall entries c, staging fs = Directory entries ->
                    dict_get entries attachment <> Some (File c).

(** The file [attachment] with content [c] is where the classifier can
    have put it: still in the staging directory, or else in a destination
    directory or in the [Unclassified] folder. *)
Definition kept_somewhere (attachment : string) (c : bytes) (fs : filesystem) : Prop :=
  staged_as attachment c fs
  \/ (not_root_file attachment fs
      /\ (in_some_dest attachment c fs \/ in_unclassified attachment (File c) fs)).

(** The [Unclassified] folder, if there is one, is a directory without an
    entry of this name. *)
Definition unclassified_free (attachment : string) (entries : list (string * node)) : Prop :=
  match dict_get entries "Unclassified" with
  | None => True
  | Some (Dir children) => dict_get children attachment = None
  | Some (File _) => False
  end.

(** The label under which a deciding tier routes, and the directory that
    the configuration gives for a label: an entry of the configuration
    that is a non-empty string. *)
Definition tier_label (t : tier) : option string :=
  match t with
  | BySubject k => dict_get Subject_filter k
  | ByBody t => dict_get BodyTitle_filter t
  | ByName doc => dict_get DocName_filter doc
  | Unclassified => None
  end.

Definition resolved_path (fs : filesystem) (label : string) : option string :=
  match portfolios fs with
  | Parsed data =>
      match getitem data label with
      | Ok (JStr p) => if String.eqb p "" then None else Some p
      | _ => None
      end
  | _ => None
  end.

(** The destination directory [p] holds the file [attachment] with content
    [c], and the staging directory lists no regular file of that name. *)
Definition dest_holds (p attachment : string) (c : bytes) (fs : filesystem) : Prop :=
  not_root_file attachment fs
  /\ exists files, dict_get (dests fs) p = Some files /\ dict_get files attachment = Some c.

(* ===================================================================== *)
(** ** Concrete scenarios *)
(* ===================================================================== *)

(** A staged file with stem [170792] that no message owns: the only
    message of the run lists another file. *)
Definition orphan_fs : filesystem :=
  mkFs (Directory [("170792.pdf", File [])])
       (Parsed (JObj [("Pension C", JStr "/portfolios/pension_c")]))
       [].

Definition orphan_mail_dict : list (string * mail_info) :=
  [("m1", mkMail (JStr "a@b.c") (JStr "2023-06-01T10:00:00Z") (JStr "hello") (JStr "text"))].

Definition orphan_attachment_dict : list (string * list string) :=
  [("m1", ["report.pdf"])].

(** A message whose subject holds a subject-rule key and whose body starts
    with a body-rule key, owning one staged file. *)
Definition precedence_mail : mail_info :=
  mkMail (JStr "bank@example.com") (JStr "2023-06-01T10:00:00Z")
         (JStr "FW: [Not Virus Scanned] WOQOD - Fahes - Account Statement & Portfolio")
         (JStr "OQIC statement for May").

Definition precedence_mail_dict : list (string * mail_info) := [("m1", precedence_mail)].

Definition precedence_attachment_dict : list (string * list string) := [("m1", ["stmt.pdf"])].

Definition precedence_fs : filesystem :=
  mkFs (Directory [("stmt.pdf", File [Byte.x25; Byte.x50])])
       (Parsed (JObj [("Fahes", JStr "/portfolios/fahes"); ("Oman", JStr "/portfolios/oman")]))
       [].

(** One staged file listed by two messages, each with a subject that a
    subject rule matches. *)
Definition collision_fs : filesystem :=
  mkFs (Directory [("a.pdf", File [Byte.x25])])
       (Parsed (JObj [("Ahli", JStr "/portfolios/ahli"); ("Fahes", JStr "/portfolios/fahes")]))
       [].

Definition collision_attachment_dict : list (string * list string) :=
  [("m1", ["a.pdf"]); ("m2", ["a.pdf"])].

Definition collision_mail_dict : list (string * mail_info) :=
  [("m1", mkMail (JStr "x@example.com") (JStr "2023-06-01T10:00:00Z")
            (JStr "[Not Virus Scanned] Ahli Bank -  Statement , Portfolio May")
            (JStr "see attached"));
   ("m2", mkMail (JStr "y@example.com") (JStr "2023-06-01T11:00:00Z")
            (JStr "[Not Virus Scanned] WOQOD - Fahes - Account Statement & Portfolio")
            (JStr "see attached"))].

(** The same collision, the first owner matching no rule. *)
Definition collision_mail_dict' : list (string * mail_info) :=
  [("m1", mkMail (JStr "x@example.com") (JStr "2023-06-01T10:00:00Z")
            (JStr "hello") (JStr "nothing to match"));
   ("m2", mkMail (JStr "y@example.com") (JStr "2023-06-01T11:00:00Z")
            (JStr "[Not Virus Scanned] WOQOD - Fahes - Account Statement & Portfolio")
            (JStr "see attached"))].

(** The state the loop of the classifier leaves in the precedence
    scenario, and a directory in which a file stays unclassified. *)
Definition precedence_fs_sorted : filesystem :=
  mkFs (Directory [])
       (portfolios precedence_fs)
       [("/portfolios/fahes", [("stmt.pdf", [Byte.x25; Byte.x50])])].

(** A mailbox served in two pages.  The first page lists [m1] and carries
    the cursor to the second, which lists [m2]; neither message has an
    attachment.  A message resource carries no [@odata.nextLink]. *)
Definition message_json (subject_text body_type body_content : string)
    (attachments : list json) : json :=
  JObj [("sender", JObj [("emailAddress", JObj [("address", JStr "sender@example.com")])]);
        ("receivedDateTime", JStr "2023-06-01T10:00:00Z");
        ("subject", JStr subject_text);
        ("body", JObj [("contentType", JStr body_type); ("content", JStr body_content)]);
        ("attachments", JArr attachments)].

Definition json_answer (j : json) : reply := Answer (mkResp true (Some j) []).

Definition page2_url : string :=
  "https://graph.microsoft.com/v1.0/users/sharedmailbox@domain.com/messages?$skip=1".

Definition two_page_server (_ : unit) (req : request) : reply * unit :=
  let u := req_url req in
  ((if String.eqb u messages_url then
      json_answer (JObj [("value", JArr [JObj [("id", JStr "m1")]]);
                         ("@odata.nextLink", JStr page2_url)])
    else if String.eqb u (message_url "m1") then
      json_answer (message_json "first" "text" "one" [])
    else if String.eqb u page2_url then
      json_answer (JObj [("value", JArr [JObj [("id", JStr "m2")]])])
    else if String.eqb u (message_url "m2") then
      json_answer (message_json "second" "text" "two" [])
    else ConnectionFailed),
   tt).

Definition empty_fs : filesystem := mkFs NoEntry Missing [].

(** A mailbox of one page with two messages, each with one PDF: the
    content of the first is served, the request for the second fails. *)
Definition pdf_attachment (name id : string) : json :=
  JObj [("name", JStr name); ("contentType", JStr "application/pdf"); ("id", JStr id)].

Definition failing_server (_ : unit) (req : request) : reply * unit :=
  let u := req_url req in
  ((if String.eqb u messages_url then
      json_answer (JObj [("value", JArr [JObj [("id", JStr "m1")]; JObj [("id", JStr "m2")]])])
    else if String.eqb u (message_url "m1") then
      json_answer (message_json "first" "text/html" "<p>one</p>" [pdf_attachment "one.pdf" "a1"])
    else if String.eqb u (attachment_url "m1" "a1") then
      Answer (mkResp true None [Byte.x25; Byte.x50; Byte.x44; Byte.x46])
    else if String.eqb u (message_url "m2") then
      json_answer (message_json "second" "text" "two" [pdf_attachment "two.pdf" "a2"])
    else if String.eqb u (attachment_url "m2" "a2") then
      Answer (mkResp false None [])
    else ConnectionFailed),
   tt).

(** U+00A0, the no-break space that [&nbsp;] stands for, in UTF-8. *)
Definition nbsp : string := String (ascii_of_nat 194) (String (ascii_of_nat 160) "").

(** A mailbox of one page with two messages: the first has a PDF and a
    picture, and a body with no-break spaces around it; the second has no
    attachment. *)
Definition mixed_server (_ : unit) (req : request) : reply * unit :=
  let u := req_url req in
  ((if String.eqb u messages_url then
      json_answer (JObj [("value", JArr [JObj [("id", JStr "m1")]; JObj [("id", JStr "m2")]])])
    else if String.eqb u (message_url "m1") then
      json_answer (message_json "first" "text/html" (nbsp ++ " <p>one</p> " ++ nbsp)
                     [pdf_attachment "one.PDF" "a1";
                      JObj [("name", JStr "photo.png"); ("contentType", JStr "image/png");
                            ("id", JStr "a2")]])
    else if String.eqb u (attachment_url "m1" "a1") then
      Answer (mkResp true None [Byte.x25; Byte.x50; Byte.x44; Byte.x46])
    else if String.eqb u (message_url "m2") then
      json_answer (message_json "second" "text" "two" [])
    else ConnectionFailed),
   tt).

(** A stand-in for the operating system in concrete runs, for a machine
    on which the destination directories are the only directories
    outside the staging directory: an absolute name leads to the file
    that its last component names, in the directory that the part before
    it names; no other name leads anywhere. *)
Definition posix_locate (name : string) (fs : filesystem) : target :=
  let sepIndex := str_rfind name "/"%char in
  if String.prefix "/" name
  then InDest (slice_to name sepIndex) (slice_from name (sepIndex + 1)%Z)
  else Elsewhere (Raise FileNotFoundError).

(** A stand-in for the markup parser in concrete runs: it drops nothing. *)
Definition plain_text (html : string) : string := html.

Definition mixed_run :=
  download_office365_attachments mixed_server plain_text posix_locate 5 "tok" "2023-06-01" "00:00:00"
    empty_fs tt.

(** The turn for [m1] of that mailbox, with the staging directory made. *)
Definition mixed_turn_start : fetch_state unit :=
  initial_state (mkFs (Directory []) Missing []) tt.

Definition mixed_turn :=
  process_message mixed_server plain_text posix_locate "tok" (JObj [("id", JStr "m1")]) mixed_turn_start.

Definition two_page_run :=
  download_office365_attachments two_page_server plain_text posix_locate 5 "tok" "2023-06-01" "00:00:00"
    empty_fs tt.

Definition failing_run :=
  download_office365_attachments failing_server plain_text posix_locate 5 "tok" "2023-06-01" "00:00:00"
    empty_fs tt.



(** A message that no rule matches, owning one staged file whose stem is
    not a key of the filename-stem table. *)
Definition unmatched_mail_dict : list (string * mail_info) :=
  [("m1", mkMail (JStr "x@example.com") (JStr "2023-06-01T10:00:00Z")
            (JStr "hello") (JStr "nothing to match"))].

Definition unmatched_attachment_dict : list (string * list string) := [("m1", ["notes.pdf"])].

Definition unmatched_fs : filesystem :=
  mkFs (Directory [("notes.pdf", File [Byte.x25])]) Missing [].

(** The same, with a file of that name already in [Unclassified]. *)
Definition unmatched_fs_again : filesystem :=
  mkFs (Directory [("notes.pdf", File [Byte.x25]);
                   ("Unclassified", Dir [("notes.pdf", File [Byte.x26])])])
       Missing [].

(** The precedence scenario without a configuration file. *)
Definition precedence_fs_no_config : filesystem :=
  mkFs (Directory [("stmt.pdf", File [Byte.x25; Byte.x50])]) Missing [].

(** A server that answers nothing, and one whose mailbox is empty. *)
Definition dead_server (_ : unit) (_ : request) : reply * unit := (ConnectionFailed, tt).

Definition empty_mailbox_server (_ : unit) (_ : request) : reply * unit :=
  (json_answer (JObj [("value", JArr [])]), tt).

(** The precedence scenario with a file of an earlier run in the
    destination. *)
Definition precedence_fs_with_old : filesystem :=
  mkFs (Directory [("stmt.pdf", File [Byte.x25; Byte.x50])])
       (portfolios precedence_fs)
       [("/portfolios/fahes", [("old.pdf", [Byte.x4f])])].




(** A mailbox with one message whose PDF has an absolute path for a name,
    on a machine where that path is a file of a destination directory. *)
Definition absolute_name : string := "/portfolios/fahes/old.pdf".

Definition pdf_bytes : bytes := [Byte.x25; Byte.x50; Byte.x44; Byte.x46].

Definition absolute_server (_ : unit) (req : request) : reply * unit :=
  let u := req_url req in
  ((if String.eqb u messages_url then
      json_answer (JObj [("value", JArr [JObj [("id", JStr "m1")]])])
    else if String.eqb u (message_url "m1") then
      json_answer (message_json "first" "text" "one" [pdf_attachment absolute_name "a1"])
    else if String.eqb u (attachment_url "m1" "a1") then
      Answer (mkResp true None pdf_bytes)
    else ConnectionFailed),
   tt).

Definition absolute_fs : filesystem :=
  mkFs NoEntry Missing [("/portfolios/fahes", [("old.pdf", [Byte.x4f])])].

Definition absolute_run :=
  download_office365_attachments absolute_server plain_text posix_locate 5 "tok"
    "2023-06-01" "00:00:00" absolute_fs tt.

(** A mailbox whose page lists the message [m1] twice.  The server
    remembers whether the message was fetched: the first time it has a
    PDF, the second time it has none. *)
Definition twice_server (fetched : bool) (req : request) : reply * bool :=
  let u := req_url req in
  if String.eqb u messages_url then
    (json_answer (JObj [("value", JArr [JObj [("id", JStr "m1")]; JObj [("id", JStr "m1")]])]),
     fetched)
  else if String.eqb u (message_url "m1") then
    (json_answer (message_json "first" "text" "one"
                    (if fetched then [] else [pdf_attachment "one.pdf" "a1"])),
     true)
  else if String.eqb u (attachment_url "m1" "a1") then
    (Answer (mkResp true None pdf_bytes), fetched)
  else (ConnectionFailed, fetched).

Definition twice_run :=
  download_office365_attachments twice_server plain_text posix_locate 5 "tok"
    "2023-06-01" "00:00:00" empty_fs false.

(* ===================================================================== *)
(** ** Facts about strings and dictionaries *)
(* ===================================================================== *)

Lemma prefix_app (a post : string) : String.prefix a (a ++ post) = true.
Proof.
  induction a as [|c a IH]; simpl.
  - destruct post; reflexivity.
  - destruct (ascii_dec c c) as [_|n]; [exact IH | contradiction].
Qed.

Lemma prefix_inv (a b : string) :
  String.prefix a b = true -> exists post, b = a ++ post.
Proof.
  revert b; induction a as [|c a IH]; intros b H.
  - exists b; reflexivity.
  - destruct b as [|d b]; simpl in H; [discriminate|].
    destruct (ascii_dec c d) as [->|]; [|discriminate].
    destruct (IH b H) as [post ->]. exists post; reflexivity.
Qed.

Lemma find_from_found (sub s : string) (i : Z) :
  (0 <= i)%Z ->
  (find_from sub s i <> -1)%Z <-> exists pre post, s = pre ++ sub ++ post.
Proof.
  revert i; induction s as [|c s IH]; intros i Hi; cbn [find_from].
  - destruct (String.prefix sub "") eqn:E.
    + split; [intros _|lia].
      destruct (prefix_inv _ _ E) as [post Hp]. exists "", post. exact Hp.
    + split; [congruence|]. intros (pre & post & H). exfalso.
      destruct pre; [|discriminate]. simpl in H.
      rewrite H in E. rewrite prefix_app in E. discriminate.
  - destruct (String.prefix sub (String c s)) eqn:E.
    + split; [intros _|lia].
      destruct (prefix_inv _ _ E) as [post Hp]. exists "", post. exact Hp.
    + rewrite (IH (i + 1)%Z) by lia. split.
      * intros (pre & post & ->). exists (String c pre), post. reflexivity.
      * intros (pre & post & H). destruct pre as [|d pre].
        -- simpl in H. rewrite H in E. rewrite prefix_app in E. discriminate.
        -- simpl in H. injection H as _ ->. exists pre, post. reflexivity.
Qed.

(** [sub in s] holds exactly when [sub] occurs in [s] as a contiguous run. *)
Lemma str_in_spec (sub s : string) :
  str_in sub s = true <-> exists pre post, s = pre ++ sub ++ post.
Proof.
  unfold str_in, str_find.
  rewrite <- (find_from_found sub s 0) by lia.
  rewrite negb_true_iff, Z.eqb_neq. reflexivity.
Qed.

Lemma str_in_refl (s : string) : str_in s s = true.
Proof.
  apply str_in_spec. exists "", "". simpl.
  induction s as [|c s IH]; simpl; [reflexivity | now rewrite <- IH].
Qed.

Section DictFacts.
Context {V : Type}.
Implicit Types (d : list (string * V)) (k : string) (v : V).

Lemma dict_get_set_same d k v : dict_get (dict_set d k v) k = Some v.
Proof.
  induction d as [|[k' v'] d IH]; simpl.
  - now rewrite String.eqb_refl.
  - destruct (String.eqb k' k) eqn:E; simpl; rewrite E; [reflexivity | exact IH].
Qed.

Lemma dict_get_set_other d k k' v :
  k <> k' -> dict_get (dict_set d k v) k' = dict_get d k'.
Proof.
  intros Hne. induction d as [|[k0 v0] d IH]; simpl.
  - destruct (String.eqb_spec k k'); [contradiction | reflexivity].
  - destruct (String.eqb_spec k0 k) as [->|]; simpl.
    + destruct (String.eqb_spec k k'); [contradiction | reflexivity].
    + destruct (String.eqb k0 k'); [reflexivity | exact IH].
Qed.

Lemma dict_get_del_same d k : dict_get (dict_del d k) k = None.
Proof.
  induction d as [|[k' v'] d IH]; simpl; [reflexivity|].
  destruct (String.eqb k' k) eqn:E; simpl; [exact IH | now rewrite E].
Qed.

Lemma dict_get_del_other d k k' :
  k <> k' -> dict_get (dict_del d k) k' = dict_get d k'.
Proof.
  intros Hne. induction d as [|[k0 v0] d IH]; simpl; [reflexivity|].
  destruct (String.eqb_spec k0 k) as [->|]; simpl.
  - destruct (String.eqb_spec k k'); [contradiction | exact IH].
  - destruct (String.eqb k0 k'); [reflexivity | exact IH].
Qed.

End DictFacts.

(* ===================================================================== *)
(** ** The owners of a staged file *)
(* ===================================================================== *)

Lemma any_contains_spec (attachment : string) (value : list string) :
  any_contains attachment value = true <->
  exists s, In s value /\ exists pre post, s = pre ++ attachment ++ post.
Proof.
  unfold any_contains. rewrite existsb_exists.
  split; intros (s & Hin & H); exists s; (split; [exact Hin|]); now apply str_in_spec.
Qed.

Lemma matching_keys_filter (attachment : string) (attachment_dict : list (string * list string)) :
  matching_keys attachment attachment_dict =
  map fst (filter (fun kv => any_contains attachment (snd kv)) attachment_dict).
Proof.
  induction attachment_dict as [|[k v] rest IH]; simpl; [reflexivity|].
  destruct (any_contains attachment v); simpl; now rewrite IH.
Qed.

Lemma matching_keys_In (attachment : string) (attachment_dict : list (string * list string))
    (k : string) :
  In k (matching_keys attachment attachment_dict) <->
  exists v, In (k, v) attachment_dict /\ any_contains attachment v = true.
Proof.
  rewrite matching_keys_filter, in_map_iff. split.
  - intros ([k' v] & <- & H). apply filter_In in H as [Hin Hc]. now exists v.
  - intros (v & Hin & Hc). exists (k, v). split; [reflexivity|].
    apply filter_In. now split.
Qed.

(** C4, as the code has it: the owners of a staged file are, in the
    insertion order of [attachment_dict], the message IDs one of whose
    listed filenames contains the staged filename as a substring; a message
    that lists the exact filename is among them. *)
Theorem matching_keys_substring :
  forall (attachment : string) (attachment_dict : list (string * list string)),
    matching_keys attachment attachment_dict =
      map fst (filter (fun kv => any_contains attachment (snd kv)) attachment_dict)
    /\ (forall k, In k (matching_keys attachment attachment_dict) <->
                  exists v, In (k, v) attachment_dict /\
                    exists s, In s v /\ exists pre post, s = pre ++ attachment ++ post)
    /\ (forall k v, In (k, v) attachment_dict -> In attachment v ->
                    In k (matching_keys attachment attachment_dict)).
Proof.
  intros attachment attachment_dict. split; [apply matching_keys_filter|]. split.
  - intros k. rewrite matching_keys_In.
    split; intros (v & Hin & H); exists v; (split; [exact Hin|]); now apply any_contains_spec.
  - intros k v Hin Hatt. apply matching_keys_In. exists v. split; [exact Hin|].
    apply any_contains_spec. exists attachment. split; [exact Hatt|].
    apply str_in_spec, str_in_refl.
Qed.

(** C4 fails as stated: a message that lists only [xa.pdf] is computed as
    an owner of the staged file [a.pdf], whose name its list does not
    contain. *)
Lemma matching_keys_not_exact :
  matching_keys "a.pdf" [("m1", ["xa.pdf"])] = ["m1"]
  /\ existsb (String.eqb "a.pdf") ["xa.pdf"] = false.
Proof. split; reflexivity. Qed.

(* ===================================================================== *)
(** ** One turn of the classifier *)
(* ===================================================================== *)

Lemma bind_ret_tt {St} (m : M St unit) (st : St) : bind m (fun _ => ret tt) st = m st.
Proof.
  unfold bind, ret. destruct (m st) as [[[]|e] st']; reflexivity.
Qed.

Lemma subjectCheck_scan_find mail_dict key m text subjects :
  dict_get mail_dict key = Some m -> subject m = JStr text ->
  subjectCheck_scan mail_dict key subjects = Ok (find (fun k => str_in k text) subjects).
Proof.
  intros Hm Hs. induction subjects as [|k rest IH]; simpl; [reflexivity|].
  rewrite Hm, Hs. unfold str_in. destruct (negb _); [reflexivity | exact IH].
Qed.

Lemma bodyTitleCheck_scan_find mail_dict key m text titles :
  dict_get mail_dict key = Some m -> body m = JStr text ->
  bodyTitleCheck_scan mail_dict key titles = Ok (find (fun t => startswith text t) titles).
Proof.
  intros Hm Hb. induction titles as [|t rest IH]; simpl; [reflexivity|].
  rewrite Hm, Hb. destruct (startswith text t); [reflexivity | exact IH].
Qed.

(** Every key of the two scanned tables is a non-empty string, so a key
    that a scan returns counts as true. *)
Lemma first_subject_key_truthy text k :
  first_subject_key text = Some k -> truthy (Some k) = true.
Proof.
  intros H. apply find_some in H as [Hin _]. simpl in Hin.
  repeat (destruct Hin as [<-|Hin]; [reflexivity|]). contradiction.
Qed.

Lemma first_body_key_truthy text t :
  first_body_key text = Some t -> truthy (Some t) = true.
Proof.
  intros H. apply find_some in H as [Hin _]. simpl in Hin.
  repeat (destruct Hin as [<-|Hin]; [reflexivity|]). contradiction.
Qed.


Lemma classify_by_subject mail_dict attachment key m text k :
  dict_get mail_dict key = Some m -> subject m = JStr text ->
  first_subject_key text = Some k ->
  forall fs, classify_for_key mail_dict attachment key fs
             = route Subject_filter k attachment fs.
Proof.
  intros Hm Hs Hk fs. unfold classify_for_key, subjectCheck, bind at 1, lift.
  rewrite (subjectCheck_scan_find _ _ _ _ _ Hm Hs).
  fold (first_subject_key text). rewrite Hk, (first_subject_key_truthy _ _ Hk).
  reflexivity.
Qed.

Lemma classify_by_tier mail_dict attachment key m text btext :
  dict_get mail_dict key = Some m -> subject m = JStr text -> body m = JStr btext ->
  forall fs, classify_for_key mail_dict attachment key fs
             = act (decide_tier text btext attachment) attachment fs.
Proof.
  intros Hm Hs Hb fs. unfold decide_tier.
  destruct (first_subject_key text) as [k|] eqn:Hk.
  - now apply (classify_by_subject _ _ _ m text).
  - unfold classify_for_key, subjectCheck, bodyTitleCheck, bind at 1, lift.
    rewrite (subjectCheck_scan_find _ _ _ _ _ Hm Hs).
    fold (first_subject_key text). rewrite Hk. cbn [truthy].
    unfold bind at 1. rewrite (bodyTitleCheck_scan_find _ _ _ _ _ Hm Hb).
    fold (first_body_key btext).
    destruct (first_body_key btext) as [t|] eqn:Ht.
    + rewrite (first_body_key_truthy _ _ Ht). reflexivity.
    + cbn [truthy act].
      destruct (dict_mem DocName_filter (fst (splitext attachment))); reflexivity.
Qed.




(* ===================================================================== *)
(** ** A file that several messages own *)
(* ===================================================================== *)

Lemma bind_Ok_inv {St A B} (m : M St A) (f : A -> M St B) st b st' :
  bind m f st = (Ok b, st') ->
  exists a st1, m st = (Ok a, st1) /\ f a st1 = (Ok b, st').
Proof.
  unfold bind. destruct (m st) as [[a|e] st1]; [|discriminate].
  intros H. now exists a, st1.
Qed.

Lemma bind_raises {St A B} (m : M St A) (f : A -> M St B) st :
  (forall a st1, m st = (Ok a, st1) -> raises (f a) st1) ->
  raises (bind m f) st.
Proof.
  unfold raises, bind. intros H. destruct (m st) as [[a|e] st1].
  - now apply H.
  - now exists e, st1.
Qed.

Lemma os_remove_Ok attachment fs fs' :
  os_remove attachment fs = (Ok tt, fs') -> not_staged fs' attachment.
Proof.
  unfold os_remove. destruct (staging fs) as [| |entries]; try discriminate.
  destruct (dict_get entries attachment) as [[c|sub]|]; try discriminate.
  intros [= <-]. exists (dict_del entries attachment).
  split; [reflexivity | apply dict_get_del_same].
Qed.

Lemma route_Ok table k attachment fs fs' :
  route table k attachment fs = (Ok tt, fs') -> not_staged fs' attachment.
Proof.
  unfold route. intros H.
  repeat (apply bind_Ok_inv in H as (? & ? & _ & H)).
  now apply os_remove_Ok in H.
Qed.

Lemma move_unclassified_Ok attachment fs fs' :
  attachment <> "Unclassified" ->
  move_unclassified attachment fs = (Ok tt, fs') -> not_staged fs' attachment.
Proof.
  intros Hne H. unfold move_unclassified in H.
  apply bind_Ok_inv in H as (_ & fs1 & _ & H).
  unfold shutil_move_unclassified in H.
  destruct (staging fs1) as [| |entries]; try discriminate.
  destruct (dict_get entries "Unclassified") as [[c|children]|]; try discriminate.
  destruct (String.eqb_spec attachment "Unclassified"); [contradiction|].
  destruct (dict_mem children attachment); [discriminate|].
  destruct (dict_get entries attachment); [|discriminate].
  injection H as <-. eexists. split; [reflexivity|].
  rewrite dict_get_set_other by congruence. apply dict_get_del_same.
Qed.

Lemma classify_for_key_Ok mail_dict attachment key fs fs' :
  attachment <> "Unclassified" ->
  classify_for_key mail_dict attachment key fs = (Ok tt, fs') ->
  not_staged fs' attachment.
Proof.
  intros Hne H. unfold classify_for_key in H.
  apply bind_Ok_inv in H as (sub & fs1 & _ & H).
  destruct (truthy sub); [now apply route_Ok in H|].
  apply bind_Ok_inv in H as (tc & fs2 & _ & H).
  destruct (truthy tc); [now apply route_Ok in H|].
  destruct (dict_mem DocName_filter _); [now apply route_Ok in H|].
  now apply move_unclassified_Ok in H.
Qed.

Lemma lift_state {St A} (o : outcome A) (st : St) a st1 :
  lift o st = (Ok a, st1) -> st1 = st.
Proof. unfold lift. now intros [= _ <-]. Qed.

Lemma load_portfolios_state fs data fs1 :
  load_portfolios fs = (Ok data, fs1) -> fs1 = fs.
Proof.
  unfold load_portfolios. destruct (portfolios fs); try discriminate. now intros [= _ <-].
Qed.

Lemma makedirs_dest_staging destination_path fs p fs1 :
  makedirs_dest destination_path fs = (Ok p, fs1) -> staging fs1 = staging fs.
Proof.
  unfold makedirs_dest. destruct destination_path; try discriminate.
  destruct (String.eqb s ""); [discriminate|].
  destruct (dict_mem (dests fs) s); now intros [= _ <-].
Qed.

Lemma shutil_copy_missing attachment p fs :
  not_staged fs attachment -> raises (shutil_copy attachment p) fs.
Proof.
  intros (entries & Hst & Hnone). unfold raises, shutil_copy.
  rewrite Hst, Hnone. now eexists _, _.
Qed.

Lemma route_missing table k attachment fs :
  not_staged fs attachment -> raises (route table k attachment) fs.
Proof.
  intros Habs. unfold route.
  apply bind_raises; intros data fs1 H1. apply load_portfolios_state in H1 as ->.
  apply bind_raises; intros label fs2 H2. apply lift_state in H2 as ->.
  apply bind_raises; intros dest fs3 H3. apply lift_state in H3 as ->.
  apply bind_raises; intros p fs4 H4. apply makedirs_dest_staging in H4.
  apply bind_raises; intros [] fs5 H5. exfalso.
  destruct (shutil_copy_missing attachment p fs4) as (e & st' & He).
  - destruct Habs as (entries & Hst & Hnone). exists entries. now rewrite H4.
  - congruence.
Qed.

Lemma move_unclassified_missing attachment fs :
  attachment <> "Unclassified" ->
  not_staged fs attachment -> raises (move_unclassified attachment) fs.
Proof.
  intros Hne (entries & Hst & Hnone). unfold move_unclassified.
  apply bind_raises; intros [] fs1 H1.
  unfold makedirs_unclassified in H1. rewrite Hst in H1.
  unfold raises, shutil_move_unclassified.
  destruct (dict_get entries "Unclassified") as [[c|children]|] eqn:Hu.
  - discriminate.
  - injection H1 as <-. rewrite Hst, Hu.
    destruct (String.eqb_spec attachment "Unclassified"); [contradiction|].
    destruct (dict_mem children attachment); [now eexists _, _|].
    rewrite Hnone. now eexists _, _.
  - injection H1 as <-. cbn. rewrite dict_get_set_same.
    destruct (String.eqb_spec attachment "Unclassified"); [contradiction|].
    cbn. rewrite dict_get_set_other by congruence. rewrite Hnone. now eexists _, _.
Qed.

Lemma classify_for_key_missing mail_dict attachment key fs :
  attachment <> "Unclassified" ->
  not_staged fs attachment -> raises (classify_for_key mail_dict attachment key) fs.
Proof.
  intros Hne Habs. unfold classify_for_key.
  apply bind_raises; intros sub fs1 H1. apply lift_state in H1 as ->.
  destruct (truthy sub); [now apply route_missing|].
  apply bind_raises; intros tc fs2 H2. apply lift_state in H2 as ->.
  destruct (truthy tc); [now apply route_missing|].
  destruct (dict_mem DocName_filter _); [now apply route_missing|].
  now apply move_unclassified_missing.
Qed.

(** Whenever two or more messages own a staged file, the loop over the
    owners has no exit after the first turn: the second turn works on a
    file that the first one has taken away, and raises. *)
Lemma second_owner_raises mail_dict attachment_dict attachment fs k1 k2 rest :
  attachment <> "Unclassified" ->
  matching_keys attachment attachment_dict = k1 :: k2 :: rest ->
  raises (classify_attachment mail_dict attachment_dict attachment) fs.
Proof.
  intros Hne Hkeys. unfold classify_attachment. rewrite Hkeys. cbn [for_each].
  apply bind_raises; intros [] fs1 H1.
  apply bind_raises; intros [] fs2 H2. exfalso.
  apply classify_for_key_Ok in H1; [|exact Hne].
  destruct (classify_for_key_missing mail_dict attachment k2 fs1 Hne H1) as (e & st' & He).
  congruence.
Qed.

(** C3, the defect: [a.pdf] is listed by [m1] and [m2].  The turn for [m1]
    takes the file out of the staging directory (to the directory of its
    subject rule, or to [Unclassified] when [m1] matches no rule, although
    [m2] would); the loop then goes on to [m2], finds the file gone, and the
    run ends in [FileNotFoundError]. *)
Theorem collision_second_owner_crashes :
  matching_keys "a.pdf" collision_attachment_dict = ["m1"; "m2"]
  /\ filter_office365_attachments collision_mail_dict collision_attachment_dict collision_fs
     = (Raise FileNotFoundError,
        mkFs (Directory []) (portfolios collision_fs)
             [("/portfolios/ahli", [("a.pdf", [Byte.x25])]); ("/portfolios/fahes", [])])
  /\ filter_office365_attachments collision_mail_dict' collision_attachment_dict collision_fs
     = (Raise FileNotFoundError,
        mkFs (Directory [("Unclassified", Dir [("a.pdf", File [Byte.x25])])])
             (portfolios collision_fs)
             [("/portfolios/fahes", [])]).
Proof. repeat split; vm_compute; reflexivity. Qed.

(* ===================================================================== *)
(** ** Properties kept by a computation *)
(* ===================================================================== *)

Section Preserves.
Context {St : Type} (P : St -> Prop).

Lemma preserves_ret {A} (a : A) : preserves P (ret a).
Proof. intros st H. exact H. Qed.

Lemma preserves_raise {A} (e : exn) : preserves P (@raise St A e).
Proof. intros st H. exact H. Qed.

Lemma preserves_lift {A} (o : outcome A) : preserves P (lift o).
Proof. intros st H. exact H. Qed.

Lemma preserves_bind {A B} (m : M St A) (f : A -> M St B) :
  preserves P m -> (forall a, preserves P (f a)) -> preserves P (bind m f).
Proof.
  intros Hm Hf st H. unfold bind. specialize (Hm st H).
  destruct (m st) as [[a|e] st1]; cbn in *; [now apply Hf | exact Hm].
Qed.

Lemma preserves_for_each {A} (xs : list A) (body : A -> M St unit) :
  (forall x, preserves P (body x)) -> preserves P (for_each xs body).
Proof.
  intros Hb. induction xs as [|x xs IH]; cbn [for_each].
  - apply preserves_ret.
  - apply preserves_bind; [apply Hb | intros _; exact IH].
Qed.

End Preserves.

Create HintDb keep.
#[local] Hint Resolve preserves_ret preserves_raise preserves_lift : keep.

(** Walks a sequence of steps, handing each basic step to [tac]. *)
Ltac walk_keeps tac :=
  repeat first
    [ apply preserves_ret
    | apply preserves_raise
    | apply preserves_lift
    | tac
    | apply preserves_bind; [| intros ?]
    | match goal with
      | |- preserves _ (if ?b then _ else _) => destruct b
      | |- preserves _ (match ?x with _ => _ end) => destruct x
      end ].

(* ===================================================================== *)
(** ** The end of the classification *)
(* ===================================================================== *)

Ltac keep_dir :=
  let fs := fresh "fs" in
  let es := fresh "es" in
  let H := fresh "H" in
  intros fs [es H];
  repeat match goal with
    | |- context [staging ?x] => rewrite H
    | |- context [match ?x with _ => _ end] => destruct x
    end;
  cbn; unfold staging_is_dir; cbn; rewrite ?H; eexists; reflexivity.

Lemma load_portfolios_dir : preserves staging_is_dir load_portfolios.
Proof. unfold load_portfolios; keep_dir. Qed.

Lemma makedirs_dest_dir destination_path :
  preserves staging_is_dir (makedirs_dest destination_path).
Proof. unfold makedirs_dest; keep_dir. Qed.

Lemma shutil_copy_dir attachment p : preserves staging_is_dir (shutil_copy attachment p).
Proof. unfold shutil_copy; keep_dir. Qed.

Lemma os_remove_dir attachment : preserves staging_is_dir (os_remove attachment).
Proof. unfold os_remove; keep_dir. Qed.

Lemma makedirs_unclassified_dir : preserves staging_is_dir makedirs_unclassified.
Proof. unfold makedirs_unclassified; keep_dir. Qed.

Lemma shutil_move_unclassified_dir attachment :
  preserves staging_is_dir (shutil_move_unclassified attachment).
Proof. unfold shutil_move_unclassified; keep_dir. Qed.

#[local] Hint Resolve load_portfolios_dir makedirs_dest_dir shutil_copy_dir os_remove_dir
  makedirs_unclassified_dir shutil_move_unclassified_dir : keep.

Lemma route_dir table k attachment : preserves staging_is_dir (route table k attachment).
Proof. unfold route. repeat (apply preserves_bind; [auto with keep | intros ?]). auto with keep. Qed.

Lemma move_unclassified_dir attachment :
  preserves staging_is_dir (move_unclassified attachment).
Proof. unfold move_unclassified. apply preserves_bind; auto with keep. Qed.

Lemma classify_for_key_dir mail_dict attachment key :
  preserves staging_is_dir (classify_for_key mail_dict attachment key).
Proof.
  unfold classify_for_key.
  apply preserves_bind; [auto with keep | intros sub].
  destruct (truthy sub); [apply route_dir|].
  apply preserves_bind; [auto with keep | intros tc].
  destruct (truthy tc); [apply route_dir|].
  destruct (dict_mem DocName_filter _); [apply route_dir | apply move_unclassified_dir].
Qed.

Lemma classify_all_dir mail_dict attachment_dict fs fs1 :
  classify_all mail_dict attachment_dict fs = (Ok tt, fs1) -> staging_is_dir fs1.
Proof.
  unfold classify_all. intros H.
  apply bind_Ok_inv in H as (names & fs0 & Hls & H).
  assert (Hdir : staging_is_dir fs0).
  { unfold os_listdir in Hls. destruct (staging fs) as [| |es] eqn:E; try discriminate.
    injection Hls as _ <-. now exists es. }
  pose proof (preserves_for_each staging_is_dir names
                (classify_attachment mail_dict attachment_dict)) as Hp.
  specialize (Hp (fun x => preserves_for_each _ _ _
                             (classify_for_key_dir mail_dict x)) fs0 Hdir).
  now rewrite H in Hp.
Qed.

(** C9: when the loop over the staged files has run to its end, the
    staging directory is still a directory, the classification ends
    normally, and it has removed the staging directory exactly when the
    loop left it without entries; with any entry left, the [Unclassified]
    folder among them, the file system is as the loop left it. *)
Theorem staging_removed_iff_empty :
  forall (mail_dict : list (string * mail_info))
         (attachment_dict : list (string * list string)) (fs fs1 : filesystem),
    classify_all mail_dict attachment_dict fs = (Ok tt, fs1) ->
    exists entries fs2,
      staging fs1 = Directory entries
      /\ filter_office365_attachments mail_dict attachment_dict fs = (Ok tt, fs2)
      /\ (staging fs2 = NoEntry <-> entries = [])
      /\ (entries <> [] -> fs2 = fs1)
      /\ (forall n, dict_get entries "Unclassified" = Some n ->
                    staging fs2 = Directory entries)
      /\ portfolios fs2 = portfolios fs1
      /\ dests fs2 = dests fs1.
Proof.
  intros mail_dict attachment_dict fs fs1 H.
  destruct (classify_all_dir _ _ _ _ H) as [entries Hst].
  exists entries.
  unfold filter_office365_attachments, bind at 1. rewrite H.
  unfold remove_if_empty, bind, os_listdir, os_rmdir. rewrite Hst.
  destruct entries as [|[name n] rest]; cbn.
  - rewrite Hst. eexists. split; [reflexivity|]. split; [reflexivity|].
    cbn. repeat split; try tauto; discriminate.
  - exists fs1. split; [reflexivity|]. split; [reflexivity|].
    rewrite Hst. repeat split; try tauto; discriminate.
Qed.

Lemma staging_removed_iff_empty_witness :
  classify_all precedence_mail_dict precedence_attachment_dict precedence_fs
    = (Ok tt, precedence_fs_sorted)
  /\ exists entries fs2,
      staging precedence_fs_sorted = Directory entries
      /\ filter_office365_attachments precedence_mail_dict precedence_attachment_dict
           precedence_fs = (Ok tt, fs2)
      /\ (staging fs2 = NoEntry <-> entries = [])
      /\ (entries <> [] -> fs2 = precedence_fs_sorted)
      /\ (forall n, dict_get entries "Unclassified" = Some n ->
                    staging fs2 = Directory entries)
      /\ portfolios fs2 = portfolios precedence_fs_sorted
      /\ dests fs2 = dests precedence_fs_sorted.
Proof.
  split; [reflexivity|].
  apply (staging_removed_iff_empty precedence_mail_dict precedence_attachment_dict
           precedence_fs precedence_fs_sorted).
  reflexivity.
Defined.


(* ===================================================================== *)
(** ** Files that no message owns *)
(* ===================================================================== *)

Section Orphan.
Variables (attachment : string) (c : bytes).

Ltac same_entries :=
  let fs := fresh "fs" in
  let es := fresh "es" in
  let Hst := fresh "Hst" in
  let Hget := fresh "Hget" in
  intros fs (es & Hst & Hget);
  repeat match goal with
    | |- context [staging ?x] => rewrite Hst
    | |- context [match ?x with _ => _ end] => destruct x
    end;
  exists es; split; assumption.

Lemma os_listdir_keeps_file : preserves (staged_as attachment c) os_listdir.
Proof. unfold os_listdir. same_entries. Qed.

Lemma load_portfolios_keeps_file : preserves (staged_as attachment c) load_portfolios.
Proof. unfold load_portfolios. same_entries. Qed.

Lemma makedirs_dest_keeps_file destination_path :
  preserves (staged_as attachment c) (makedirs_dest destination_path).
Proof. unfold makedirs_dest. same_entries. Qed.

Lemma shutil_copy_keeps_file other p :
  preserves (staged_as attachment c) (shutil_copy other p).
Proof. unfold shutil_copy. same_entries. Qed.

Lemma os_remove_keeps_file other :
  other <> attachment -> preserves (staged_as attachment c) (os_remove other).
Proof.
  intros Hne fs (es & Hst & Hget). unfold os_remove. rewrite Hst.
  destruct (dict_get es other) as [[c'|sub]|]; cbn; try (exists es; now split).
  exists (dict_del es other). split; [reflexivity|]. now rewrite dict_get_del_other.
Qed.

Lemma makedirs_unclassified_keeps_file :
  preserves (staged_as attachment c) makedirs_unclassified.
Proof.
  intros fs (es & Hst & Hget). unfold makedirs_unclassified. rewrite Hst.
  destruct (dict_get es "Unclassified") as [[c'|sub]|] eqn:Hu; cbn;
    try (exists es; now split).
  eexists. split; [reflexivity|]. rewrite dict_get_set_other; [exact Hget|].
  intros <-. congruence.
Qed.

Lemma shutil_move_unclassified_keeps_file other :
  other <> attachment ->
  preserves (staged_as attachment c) (shutil_move_unclassified other).
Proof.
  intros Hne fs (es & Hst & Hget). unfold shutil_move_unclassified. rewrite Hst.
  destruct (dict_get es "Unclassified") as [[c'|children]|] eqn:Hu; cbn;
    try (exists es; now split).
  destruct (String.eqb other "Unclassified"); cbn; [exists es; now split|].
  destruct (dict_mem children other); cbn; [exists es; now split|].
  destruct (dict_get es other) as [n|]; cbn; [|exists es; now split].
  eexists. split; [reflexivity|].
  rewrite dict_get_set_other by (intros <-; congruence).
  now rewrite dict_get_del_other.
Qed.

Lemma route_keeps_file table k other :
  other <> attachment -> preserves (staged_as attachment c) (route table k other).
Proof.
  intros Hne. unfold route.
  walk_keeps ltac:(first [ apply load_portfolios_keeps_file | apply makedirs_dest_keeps_file
                         | apply shutil_copy_keeps_file
                         | apply os_remove_keeps_file; exact Hne ]).
Qed.

Lemma move_unclassified_keeps_file other :
  other <> attachment -> preserves (staged_as attachment c) (move_unclassified other).
Proof.
  intros Hne. unfold move_unclassified.
  apply preserves_bind; [apply makedirs_unclassified_keeps_file | intros _].
  now apply shutil_move_unclassified_keeps_file.
Qed.

Lemma classify_for_key_keeps_file mail_dict other key :
  other <> attachment ->
  preserves (staged_as attachment c) (classify_for_key mail_dict other key).
Proof.
  intros Hne. unfold classify_for_key.
  apply preserves_bind; [apply preserves_lift | intros sub].
  destruct (truthy sub); [now apply route_keeps_file|].
  apply preserves_bind; [apply preserves_lift | intros tc].
  destruct (truthy tc); [now apply route_keeps_file|].
  destruct (dict_mem DocName_filter _);
    [now apply route_keeps_file | now apply move_unclassified_keeps_file].
Qed.

(** No turn for any staged file takes away a file that no message owns. *)
Lemma classify_attachment_keeps_file mail_dict attachment_dict other :
  matching_keys attachment attachment_dict = [] ->
  preserves (staged_as attachment c) (classify_attachment mail_dict attachment_dict other).
Proof.
  intros Hnone. unfold classify_attachment.
  destruct (String.eqb_spec other attachment) as [->|Hne].
  - rewrite Hnone. apply preserves_ret.
  - apply preserves_for_each. intros key. now apply classify_for_key_keeps_file.
Qed.

Lemma remove_if_empty_keeps_file : preserves (staged_as attachment c) remove_if_empty.
Proof.
  intros fs (es & Hst & Hget). unfold remove_if_empty, bind, os_listdir, os_rmdir.
  rewrite Hst. destruct es as [|[name n] rest]; [discriminate|].
  cbn. exists ((name, n) :: rest). now split.
Qed.
End Orphan.

(** C1, as the code has it: for a staged file that no message owns the
    loop over its owners has no turn, so no tier is evaluated for it, the
    filename-stem tier included, and its turn changes nothing; and however
    the classification of the other files goes, normally or with an
    exception, the file is still in the staging directory at the end, with
    its content. *)
Theorem orphan_left_in_staging :
  forall (mail_dict : list (string * mail_info))
         (attachment_dict : list (string * list string))
         (attachment : string) (c : bytes) (fs : filesystem),
    matching_keys attachment attachment_dict = [] ->
    staged_as attachment c fs ->
    classify_attachment mail_dict attachment_dict attachment fs = (Ok tt, fs)
    /\ staged_as attachment c
         (snd (filter_office365_attachments mail_dict attachment_dict fs)).
Proof.
  intros mail_dict attachment_dict attachment c fs Hnone Hfile. split.
  - unfold classify_attachment. rewrite Hnone. reflexivity.
  - revert fs Hfile. change (preserves (staged_as attachment c)
                               (filter_office365_attachments mail_dict attachment_dict)).
    unfold filter_office365_attachments, classify_all.
    apply preserves_bind; [|intros _; apply remove_if_empty_keeps_file].
    apply preserves_bind; [apply os_listdir_keeps_file | intros names].
    apply preserves_for_each. intros other.
    now apply classify_attachment_keeps_file.
Qed.

Lemma orphan_left_in_staging_witness :
  matching_keys "170792.pdf" orphan_attachment_dict = []
  /\ staged_as "170792.pdf" [] orphan_fs
  /\ classify_attachment orphan_mail_dict orphan_attachment_dict "170792.pdf" orphan_fs
     = (Ok tt, orphan_fs)
  /\ staged_as "170792.pdf" []
       (snd (filter_office365_attachments orphan_mail_dict orphan_attachment_dict
               orphan_fs)).
Proof.
  assert (Hfile : staged_as "170792.pdf" [] orphan_fs)
    by (eexists; split; reflexivity).
  split; [reflexivity|]. split; [exact Hfile|].
  apply (orphan_left_in_staging orphan_mail_dict orphan_attachment_dict "170792.pdf" []
           orphan_fs); [reflexivity | exact Hfile].
Defined.

(** C1 fails as stated: [170792.pdf] is staged, no message owns it, its
    stem is a key of the filename-stem table with label [Pension C], the
    configuration resolves that label, and the whole classification leaves
    the file in the staging directory and creates no destination. *)
Lemma orphan_not_routed :
  matching_keys "170792.pdf" orphan_attachment_dict = []
  /\ dict_get DocName_filter (fst (splitext "170792.pdf")) = Some "Pension C"
  /\ filter_office365_attachments orphan_mail_dict orphan_attachment_dict orphan_fs
     = (Ok tt, orphan_fs)
  /\ staging orphan_fs = Directory [("170792.pdf", File [])]
  /\ dict_get (dests orphan_fs) "/portfolios/pension_c" = None.
Proof. repeat split; reflexivity. Qed.

(* ===================================================================== *)
(** ** The fetcher: what each step leaves alone *)
(* ===================================================================== *)

Lemma ensures_bind {St A B} (P : St -> Prop) (Q : A -> St -> Prop) (R : B -> St -> Prop)
    (m : M St A) (f : A -> M St B) :
  ensures P m Q -> (forall a, ensures (Q a) (f a) R) -> ensures P (bind m f) R.
Proof.
  intros Hm Hf st H. unfold bind. specialize (Hm st H).
  destruct (m st) as [[a|e] st1]; [now apply Hf | exact I].
Qed.

Lemma ensures_of_preserves {St A} (P : St -> Prop) (m : M St A) :
  preserves P m -> ensures P m (fun _ => P).
Proof.
  intros Hm st H. specialize (Hm st H). destruct (m st) as [[a|e] st1]; [exact Hm | exact I].
Qed.

Lemma ensures_ret {St A} (P : St -> Prop) (Q : A -> St -> Prop) (a : A) :
  (forall st, P st -> Q a st) -> ensures P (ret a) Q.
Proof. intros H st HP. now apply H. Qed.

Section FetcherFrame.
Context {server_state : Type}.
Variable serve : server_state -> request -> reply * server_state.
Variable soup_get_text : string -> string.
Variable locate : string -> filesystem -> target.

Section AnyProperty.
(** A property that only looks at the dictionaries, the history of
    processed messages and the file system, and that writing a staged
    file keeps. *)
Variable P : fetch_state server_state -> Prop.
Hypothesis P_local :
  forall st st',
    st_mail_dict st' = st_mail_dict st ->
    st_attachment_dict st' = st_attachment_dict st ->
    st_processed st' = st_processed st ->
    st_fs st' = st_fs st ->
    P st -> P st'.
Hypothesis P_write : forall name data, preserves P (write_staged locate name data).

Ltac local_step :=
  let st := fresh "st" in
  let H := fresh "H" in
  intros st H;
  unfold set_url, set_headers, requests_get, raise_for_status, response_json,
         response_content, modify;
  repeat match goal with
    | |- context [let (_, _) := ?x in _] => destruct x
    | |- context [match ?x with _ => _ end] => destruct x
    end;
  (exact H || (apply (P_local st); [reflexivity .. | exact H])).

Lemma set_url_keeps u : preserves P (set_url u).
Proof. local_step. Qed.

Lemma set_headers_keeps h : preserves P (set_headers h).
Proof. local_step. Qed.

Lemma requests_get_keeps tok params : preserves P (requests_get serve tok params).
Proof. local_step. Qed.

Lemma raise_for_status_keeps : preserves P raise_for_status.
Proof. local_step. Qed.

Lemma response_json_keeps : preserves P response_json.
Proof. local_step. Qed.

Lemma response_content_keeps : preserves P response_content.
Proof. local_step. Qed.

Ltac basic :=
  first [ apply set_url_keeps | apply set_headers_keeps | apply requests_get_keeps
        | apply raise_for_status_keeps | apply response_json_keeps
        | apply response_content_keeps | apply P_write ].

Lemma download_attachment_keeps tok email_id attachments attachment :
  preserves P (download_attachment serve locate tok email_id attachments attachment).
Proof. unfold download_attachment. walk_keeps basic. Qed.

Lemma download_attachments_keeps tok email_id attachments items :
  preserves P (download_attachments serve locate tok email_id attachments items).
Proof.
  revert attachments. induction items as [|item items IH]; intros attachments;
    cbn [download_attachments].
  - apply preserves_ret.
  - apply preserves_bind; [apply download_attachment_keeps | intros a; apply IH].
Qed.

(** With the two assignments to the dictionaries kept as well, a whole
    turn for a message and the loop over the pages keep [P]. *)
Hypothesis P_set_mail : forall email_id m, preserves P (set_mail email_id m).
Hypothesis P_set_attachments :
  forall email_id attachments, preserves P (set_attachments email_id attachments).

Ltac basic' :=
  first [ basic | apply download_attachments_keeps | apply P_set_mail
        | apply P_set_attachments ].

Lemma process_message_keeps tok message :
  preserves P (process_message serve soup_get_text locate tok message).
Proof. unfold process_message. walk_keeps basic'. Qed.

(** The loop over the pages keeps what every turn for a message keeps. *)
Hypothesis P_message :
  forall tok message, preserves P (process_message serve soup_get_text locate tok message).

Lemma fetch_pages_keeps fuel tok params :
  preserves P (fetch_pages serve soup_get_text locate fuel tok params).
Proof.
  induction fuel as [|fuel IH]; cbn [fetch_pages].
  - apply preserves_raise.
  - walk_keeps
      ltac:(first [ basic | exact IH
                  | apply preserves_for_each; intros ?; apply P_message ]).
Qed.
End AnyProperty.
End FetcherFrame.

(* ===================================================================== *)
(** ** The fetcher: what a turn for a message records *)
(* ===================================================================== *)

Lemma spec_bind {St A B} (P : St -> Prop) (Q1 : A -> St -> Prop) (Q : B -> St -> Prop)
    (R : exn -> St -> Prop) (m : M St A) (f : A -> M St B) :
  outcome_spec P m Q1 R -> (forall a, outcome_spec (Q1 a) (f a) Q R) ->
  outcome_spec P (bind m f) Q R.
Proof.
  intros Hm Hf st H. unfold bind. specialize (Hm st H).
  destruct (m st) as [[a|e] st1]; [now apply Hf | exact Hm].
Qed.

Lemma spec_of_preserves {St A} (P : St -> Prop) (R : exn -> St -> Prop) (m : M St A) :
  preserves P m -> (forall e st, P st -> R e st) -> outcome_spec P m (fun _ => P) R.
Proof.
  intros Hm HR st H. specialize (Hm st H).
  destruct (m st) as [[a|e] st1]; cbn in Hm; [exact Hm | now apply HR].
Qed.

Lemma spec_keep_ensures {St A} (P P' : St -> Prop) (Q : A -> St -> Prop) (m : M St A) :
  preserves P m -> ensures P' m Q ->
  outcome_spec (fun st => P st /\ P' st) m (fun a st => P st /\ Q a st) (fun _ => P).
Proof.
  intros Hm He st [H H']. specialize (Hm st H). specialize (He st H').
  destruct (m st) as [[a|e] st1]; cbn in Hm; [now split | exact Hm].
Qed.

Section FetcherRecords.
Context {server_state : Type}.
Variable serve : server_state -> request -> reply * server_state.
Variable soup_get_text : string -> string.
Variable locate : string -> filesystem -> target.
Implicit Types (st : fetch_state server_state).

Lemma dict_set_file_kept (entries : list (string * node)) name data f c :
  dict_get entries f = Some (File c) ->
  exists c', dict_get (dict_set entries name (File data)) f = Some (File c').
Proof.
  intros Hget. destruct (String.eqb_spec name f) as [->|Hne].
  - exists data. apply dict_get_set_same.
  - exists c. now rewrite dict_get_set_other.
Qed.

Lemma write_at_below d d' rest data (entries : list (string * node)) :
  write_at (d :: d' :: rest) data entries
  = match dict_get entries d with
    | Some (Dir children) =>
        match write_at (d' :: rest) data children with
        | Ok children' => Ok (dict_set entries d (Dir children'))
        | Raise e => Raise e
        end
    | Some (File _) => Raise NotADirectoryError
    | None => Raise FileNotFoundError
    end.
Proof. reflexivity. Qed.

(** A write below the staging directory leaves every regular file of
    the staging directory a regular file. *)
Lemma write_at_keeps_file path data (entries entries' : list (string * node)) f c :
  write_at path data entries = Ok entries' ->
  dict_get entries f = Some (File c) ->
  exists c', dict_get entries' f = Some (File c').
Proof.
  destruct path as [|d [|d' rest]]; [discriminate| |].
  - cbn [write_at]. destruct (dict_get entries d) as [[c0|sub]|]; try discriminate;
      intros [= <-]; apply dict_set_file_kept.
  - rewrite write_at_below.
    destruct (dict_get entries d) as [[c0|children]|] eqn:Hd; try discriminate.
    destruct (write_at (d' :: rest) data children) as [children'|e]; [|discriminate].
    intros [= <-] Hf. exists c.
    rewrite dict_get_set_other; [exact Hf | congruence].
Qed.

Lemma write_at_adds name data (entries entries' : list (string * node)) :
  write_at [name] data entries = Ok entries' ->
  dict_get entries' name = Some (File data).
Proof.
  cbn [write_at]. destruct (dict_get entries name) as [[c0|sub]|]; try discriminate;
    intros [= <-]; apply dict_get_set_same.
Qed.

(** However it ends, [open_write] takes no regular file of the staging
    directory away, and the staging directory stays a directory. *)
Lemma open_write_keeps_file t data f :
  preserves (fun fs => staged_file fs f) (open_write t data).
Proof.
  intros fs H. unfold open_write. destruct t as [path|p name|result]; cbn [snd].
  - destruct (staging fs) as [| |entries] eqn:Hst; try exact H.
    destruct (write_at path data entries) as [entries'|e] eqn:Hw; [|exact H].
    destruct H as (es & c & Hes & Hget). rewrite Hst in Hes. injection Hes as <-.
    destruct (write_at_keeps_file _ _ _ _ _ _ Hw Hget) as [c' Hc'].
    exists entries', c'. now split.
  - destruct (dict_get (dests fs) p); exact H.
  - exact H.
Qed.

Lemma open_write_keeps_dir t data : preserves staging_is_dir (open_write t data).
Proof.
  intros fs H. unfold open_write. destruct t as [path|p name|result]; cbn [snd].
  - destruct (staging fs) as [| |entries] eqn:Hst; try exact H.
    destruct (write_at path data entries) as [entries'|e]; [|exact H].
    now exists entries'.
  - destruct (dict_get (dests fs) p); exact H.
  - exact H.
Qed.

(** A write that succeeds at a plain name leaves a regular file of that
    name in the staging directory. *)
Lemma open_write_adds name data fs fs' :
  open_write (InStaging [name]) data fs = (Ok tt, fs') -> staged_file fs' name.
Proof.
  unfold open_write. destruct (staging fs) as [| |entries]; try discriminate.
  destruct (write_at [name] data entries) as [entries'|e] eqn:Hw; [|discriminate].
  intros [= <-]. exists entries', data. split; [reflexivity | exact (write_at_adds _ _ _ _ Hw)].
Qed.

(** [write_staged] is [open_write] on the file system of the fetcher's
    world, and touches nothing else. *)
Lemma write_staged_eq name data st :
  @write_staged server_state locate name data st
  = (fst (open_write (attachment_target locate name (st_fs st)) data (st_fs st)),
     set_fs st (snd (open_write (attachment_target locate name (st_fs st)) data (st_fs st)))).
Proof.
  unfold write_staged. now destruct (open_write _ data (st_fs st)).
Qed.

(** Writing an attachment keeps every staged file and, when the name is a
    plain file name, adds its own. *)
Lemma write_staged_adds names name data :
  ensures (all_staged names) (@write_staged server_state locate name data)
          (fun _ => all_staged (names ++ [name])).
Proof.
  intros st H. rewrite write_staged_eq.
  destruct (open_write _ data (st_fs st)) as [[[]|e] fs'] eqn:E; cbn [fst snd]; [|exact I].
  intros f Hf Hplain. cbn [st_fs set_fs].
  apply in_app_or in Hf as [Hf|[<-|[]]].
  - pose proof (open_write_keeps_file (attachment_target locate name (st_fs st)) data f
                  (st_fs st) (H f Hf Hplain)) as Hk.
    now rewrite E in Hk.
  - unfold attachment_target in E. rewrite Hplain in E.
    exact (open_write_adds _ _ _ _ E).
Qed.

Lemma write_staged_keeps_staged names name data :
  preserves (all_staged names) (@write_staged server_state locate name data).
Proof.
  intros st H. rewrite write_staged_eq. cbn [snd]. intros f Hf Hplain. cbn [st_fs set_fs].
  apply open_write_keeps_file. now apply H.
Qed.

Lemma all_staged_local names st st' :
  st_mail_dict st' = st_mail_dict st ->
  st_attachment_dict st' = st_attachment_dict st ->
  st_processed st' = st_processed st ->
  st_fs st' = st_fs st ->
  all_staged names st -> all_staged names st'.
Proof. intros _ _ _ Hfs H f Hf. rewrite Hfs. now apply H. Qed.

Lemma dicts_are_local mail_dict attachment_dict processed st st' :
  st_mail_dict st' = st_mail_dict st ->
  st_attachment_dict st' = st_attachment_dict st ->
  st_processed st' = st_processed st ->
  st_fs st' = st_fs st ->
  dicts_are mail_dict attachment_dict processed st ->
  dicts_are mail_dict attachment_dict processed st'.
Proof. unfold dicts_are. intros -> -> -> _ H. exact H. Qed.

Lemma write_staged_keeps_dicts mail_dict attachment_dict processed name data :
  preserves (dicts_are mail_dict attachment_dict processed)
            (@write_staged server_state locate name data).
Proof. intros st H. rewrite write_staged_eq. exact H. Qed.
End FetcherRecords.

Section FetcherTurn.
Context {server_state : Type}.
Variable serve : server_state -> request -> reply * server_state.
Variable soup_get_text : string -> string.
Variable locate : string -> filesystem -> target.
Implicit Types (st : fetch_state server_state).

Lemma download_attachment_staged tok email_id attachments attachment :
  ensures (all_staged attachments)
          (download_attachment serve locate tok email_id attachments attachment)
          (fun attachments' => @all_staged server_state attachments').
Proof.
  unfold download_attachment.
  do 3 (eapply ensures_bind;
        [apply ensures_of_preserves, preserves_lift | intros ?; cbn beta]).
  destruct (String.eqb a1 ".pdf"); [|now apply ensures_ret].
  do 3 (eapply ensures_bind;
        [apply ensures_of_preserves, preserves_lift | intros ?; cbn beta]).
  eapply ensures_bind;
    [apply ensures_of_preserves; apply set_url_keeps; apply all_staged_local | intros ?; cbn beta].
  eapply ensures_bind;
    [apply ensures_of_preserves; apply set_headers_keeps; apply all_staged_local | intros ?; cbn beta].
  eapply ensures_bind;
    [apply ensures_of_preserves; apply requests_get_keeps; apply all_staged_local | intros ?; cbn beta].
  eapply ensures_bind;
    [apply ensures_of_preserves; apply raise_for_status_keeps; apply all_staged_local
    | intros ?; cbn beta].
  eapply ensures_bind;
    [apply ensures_of_preserves; apply response_content_keeps; apply all_staged_local
    | intros ?; cbn beta].
  eapply ensures_bind; [apply write_staged_adds | intros ?; cbn beta].
  now apply ensures_ret.
Qed.

Lemma download_attachments_staged tok email_id attachments items :
  ensures (all_staged attachments)
          (download_attachments serve locate tok email_id attachments items)
          (fun attachments' => @all_staged server_state attachments').
Proof.
  revert attachments. induction items as [|item items IH]; intros attachments;
    cbn [download_attachments].
  - now apply ensures_ret.
  - eapply ensures_bind; [apply download_attachment_staged | intros a; apply IH].
Qed.

Lemma download_attachments_dicts mail_dict attachment_dict processed tok email_id
    attachments items :
  preserves (dicts_are mail_dict attachment_dict processed)
            (download_attachments serve locate tok email_id attachments items).
Proof.
  apply download_attachments_keeps.
  - apply dicts_are_local.
  - apply write_staged_keeps_dicts.
Qed.

(** A turn that ends normally has recorded its message; a turn that
    raises has left both dictionaries and the history as they were. *)
Lemma process_message_records mail_dict attachment_dict processed tok message :
  outcome_spec (dicts_are mail_dict attachment_dict processed)
               (process_message serve soup_get_text locate tok message)
               (fun _ => message_recorded mail_dict attachment_dict processed)
               (fun _ => dicts_are mail_dict attachment_dict processed).
Proof.
  set (D := dicts_are mail_dict attachment_dict processed).
  assert (HR : forall (e : exn) st, D st -> D st) by auto.
  unfold process_message.
  do 2 (eapply spec_bind;
        [apply spec_of_preserves; [apply preserves_lift | exact HR] | intros ?; cbn beta]).
  eapply spec_bind;
    [apply spec_of_preserves; [apply set_url_keeps; apply dicts_are_local | exact HR]
    | intros ?; cbn beta].
  eapply spec_bind;
    [apply spec_of_preserves; [apply requests_get_keeps; apply dicts_are_local | exact HR]
    | intros ?; cbn beta].
  eapply spec_bind;
    [apply spec_of_preserves; [apply raise_for_status_keeps; apply dicts_are_local | exact HR]
    | intros ?; cbn beta].
  eapply spec_bind;
    [apply spec_of_preserves; [apply response_json_keeps; apply dicts_are_local | exact HR]
    | intros email_data; cbn beta].
  do 2 (eapply spec_bind;
        [apply spec_of_preserves; [apply preserves_lift | exact HR] | intros ?; cbn beta]).
  eapply spec_bind with (Q1 := fun attachments st => D st /\ all_staged attachments st).
  { intros st H.
    apply (spec_keep_ensures D (all_staged []) (fun a => all_staged a)).
    - apply download_attachments_dicts.
    - apply download_attachments_staged.
    - split; [exact H | intros f []]. }
  intros attachments; cbn beta.
  assert (HR' : forall (e : exn) st, D st /\ all_staged attachments st -> D st) by tauto.
  do 9 (eapply spec_bind;
        [apply spec_of_preserves; [apply preserves_lift | exact HR'] | intros ?; cbn beta]).
  eapply spec_bind with (Q1 := fun _ st => D st /\ all_staged attachments st).
  { destruct (json_eqb_str _ _); apply spec_of_preserves;
      solve [apply preserves_lift | apply preserves_ret | exact HR']. }
  intros body'. intros st [(Hm & Ha & Hp) Hst].
  destruct attachments as [|name rest]; cbn.
  - exists a0, []. cbn. rewrite Hm, Ha, Hp. repeat split. exact Hst.
  - exists a0, (name :: rest). cbn. rewrite Hm, Ha, Hp. repeat split.
    + eexists; reflexivity.
    + exact Hst.
Qed.
End FetcherTurn.

(* ===================================================================== *)
(** ** The fetcher: the invariant of the two dictionaries *)
(* ===================================================================== *)

Lemma dict_keys_set {V} (d : list (string * V)) k v k' :
  In k' (dict_keys (dict_set d k v)) <-> k' = k \/ In k' (dict_keys d).
Proof.
  induction d as [|[k0 v0] d IH]; cbn.
  - intuition.
  - destruct (String.eqb_spec k0 k) as [->|Hne]; cbn; [intuition|].
    rewrite IH. intuition.
Qed.

Lemma dict_set_NoDup {V} (d : list (string * V)) k v :
  NoDup (dict_keys d) -> NoDup (dict_keys (dict_set d k v)).
Proof.
  induction d as [|[k0 v0] d IH]; cbn; intros H.
  - constructor; [intros [] | constructor].
  - destruct (String.eqb_spec k0 k) as [->|Hne]; cbn; [exact H|].
    inversion H as [|? ? Hnot Hd]; subst. constructor; [|now apply IH].
    fold (dict_keys (dict_set d k v)). rewrite dict_keys_set.
    intros [->|Hin]; [now apply Hne | now apply Hnot].
Qed.

Lemma dict_get_of_In {V} (d : list (string * V)) k v :
  NoDup (dict_keys d) -> In (k, v) d -> dict_get d k = Some v.
Proof.
  induction d as [|[k0 v0] d IH]; cbn; intros Hnd Hin; [contradiction|].
  inversion Hnd as [|? ? Hnot Hd]; subst.
  destruct Hin as [[= -> ->]|Hin].
  - now rewrite String.eqb_refl.
  - destruct (String.eqb_spec k0 k) as [->|_]; [|now apply IH].
    exfalso. apply Hnot. change k with (fst (k, v)). now apply in_map.
Qed.

(** A message that had one turn only, after one more turn: it is the
    message of that turn and had none before, or it is another one. *)
Lemma processed_once_app id (processed : list (string * list string)) email_id atts :
  processed_once id (processed ++ [(email_id, atts)]) ->
  (processed_once id processed /\ id <> email_id)
  \/ (~ In id (map fst processed) /\ id = email_id).
Proof.
  unfold processed_once. rewrite map_app, count_occ_app. cbn [map fst count_occ].
  destruct (string_dec email_id id) as [->|Hne]; intros H.
  - right. split; [|reflexivity]. apply (count_occ_not_In string_dec). lia.
  - left. split; [lia | congruence].
Qed.

Lemma processed_once_NoDup id (processed : list (string * list string)) :
  NoDup (map fst processed) -> In id (map fst processed) -> processed_once id processed.
Proof.
  intros Hnd Hin. unfold processed_once.
  pose proof (proj1 (NoDup_count_occ string_dec _) Hnd id) as Hle.
  pose proof (proj1 (count_occ_In string_dec _ id) Hin) as Hpos. lia.
Qed.

Section FetcherInvariant.
Context {server_state : Type}.
Variable serve : server_state -> request -> reply * server_state.
Variable soup_get_text : string -> string.
Variable locate : string -> filesystem -> target.
Implicit Types (st : fetch_state server_state).

Lemma set_mail_keeps_staged names email_id m :
  preserves (all_staged names) (@set_mail server_state email_id m).
Proof. intros st H. exact H. Qed.

Lemma set_attachments_keeps_staged names email_id attachments :
  preserves (all_staged names) (@set_attachments server_state email_id attachments).
Proof. intros st H. exact H. Qed.

(** Nothing the fetcher does takes a staged file away. *)
Lemma process_message_keeps_staged names tok message :
  preserves (all_staged names) (process_message serve soup_get_text locate tok message).
Proof.
  apply process_message_keeps.
  - apply all_staged_local.
  - apply write_staged_keeps_staged.
  - apply set_mail_keeps_staged.
  - apply set_attachments_keeps_staged.
Qed.

Lemma fetch_inv_local st st' :
  st_mail_dict st' = st_mail_dict st ->
  st_attachment_dict st' = st_attachment_dict st ->
  st_processed st' = st_processed st ->
  st_fs st' = st_fs st ->
  fetch_inv st -> fetch_inv st'.
Proof.
  unfold fetch_inv, all_staged. intros -> -> -> -> H. exact H.
Qed.

Lemma process_message_inv tok message :
  preserves fetch_inv (process_message serve soup_get_text locate tok message).
Proof.
  intros st (I1 & I3 & I4 & J & I2).
  pose proof (process_message_records serve soup_get_text locate (st_mail_dict st)
                (st_attachment_dict st) (st_processed st) tok message st
                (conj eq_refl (conj eq_refl eq_refl))) as Hrec.
  assert (Hmono : forall names, all_staged names st ->
            all_staged names (snd (process_message serve soup_get_text locate tok message st)))
    by (intros names; apply process_message_keeps_staged).
  destruct (process_message serve soup_get_text locate tok message st) as [[[]|e] st'];
    cbn [snd] in *.
  - destruct Hrec as (email_id & atts & Had & Hpr & Hmd & Hst).
    assert (Hget : forall id, id <> email_id ->
              dict_get (st_mail_dict st') id = dict_get (st_mail_dict st) id).
    { intros id Hne. destruct atts; [now rewrite Hmd|].
      destruct Hmd as [m ->]. apply dict_get_set_other. congruence. }
    assert (Hnew : atts <> [] -> dict_get (st_mail_dict st') email_id <> None).
    { intros Hne. destruct atts; [congruence|].
      destruct Hmd as [m ->]. rewrite dict_get_set_same. discriminate. }
    unfold fetch_inv. rewrite Had, Hpr. split; [|split; [|split; [|split]]].
    + intros id l Hin. apply in_app_or in Hin as [Hin|[[= <- <-]|[]]].
      * apply Hmono. now apply (I1 id).
      * exact Hst.
    + intros id Hid. rewrite map_app, in_app_iff. cbn.
      destruct (String.eqb_spec id email_id) as [->|Hne]; [now right; left|].
      left. apply I3. now rewrite <- (Hget id Hne).
    + now apply dict_set_NoDup.
    + intros id l Hl Hne.
      destruct (String.eqb_spec id email_id) as [->|Hid].
      * rewrite dict_get_set_same in Hl. injection Hl as <-. now apply Hnew.
      * rewrite dict_get_set_other in Hl by congruence.
        rewrite (Hget id Hid). now apply (J id l).
    + intros id l Hin Honce.
      destruct (processed_once_app _ _ _ _ Honce) as [[Hold Hid]|[Hfresh ->]].
      * apply in_app_or in Hin as [Hin|[[= E _]|[]]]; [|congruence].
        rewrite dict_get_set_other by congruence. rewrite (Hget id Hid).
        now apply I2.
      * apply in_app_or in Hin as [Hin|[[= <-]|[]]].
        { exfalso. apply Hfresh. change email_id with (fst (email_id, l)).
          now apply in_map. }
        split; [apply dict_get_set_same|]. split; [|exact Hnew].
        intros ->. rewrite Hmd.
        destruct (dict_get (st_mail_dict st) email_id) eqn:E; [|reflexivity].
        exfalso. apply Hfresh, I3. congruence.
  - destruct Hrec as (Hm & Ha & Hp). unfold fetch_inv. rewrite Hm, Ha, Hp.
    split; [|split; [|split; [|split]]]; try assumption.
    intros id l Hin. apply Hmono. now apply (I1 id).
Qed.

Lemma fetch_pages_inv fuel tok params :
  preserves fetch_inv (fetch_pages serve soup_get_text locate fuel tok params).
Proof.
  apply fetch_pages_keeps.
  - apply fetch_inv_local.
  - apply process_message_inv.
Qed.

Lemma initial_state_inv fs net : fetch_inv (@initial_state server_state fs net).
Proof.
  unfold fetch_inv. cbn.
  repeat split; intros; try contradiction; try congruence; constructor.
Qed.

(** However [download_office365_attachments] ends, the world it leaves
    satisfies the invariant. *)
Lemma download_inv fuel tok start_date start_time fs net :
  fetch_inv (snd (download_office365_attachments serve soup_get_text locate fuel tok
                    start_date start_time fs net)).
Proof.
  unfold download_office365_attachments.
  destruct (makedirs_staging fs) as [fs'|e]; [|apply initial_state_inv].
  pose proof (fetch_pages_inv fuel tok
                (Some (filter_param start_date start_time, 100%Z))
                (initial_state fs' net) (initial_state_inv fs' net)) as H.
  destruct (fetch_pages _ _ _ _ _ _) as [[[]|e] st]; cbn [snd] in *; [exact H|].
  destruct e; exact H.
Qed.
End FetcherInvariant.


(* ===================================================================== *)
(** ** The two indexes after the fetch *)
(* ===================================================================== *)

Lemma download_returns {server_state : Type}
    (serve : server_state -> request -> reply * server_state)
    (soup_get_text : string -> string)
         (locate : string -> filesystem -> target) fuel tok start_date start_time fs net
    mail_dict attachment_dict st :
  download_office365_attachments serve soup_get_text locate fuel tok start_date start_time fs net
    = (Ok (mail_dict, attachment_dict), st) ->
  mail_dict = st_mail_dict st /\ attachment_dict = st_attachment_dict st.
Proof.
  unfold download_office365_attachments.
  destruct (makedirs_staging fs) as [fs'|e]; [|discriminate].
  destruct (fetch_pages _ _ _ _ _ _) as [[[]|e] st1].
  - intros [= <- <- <-]. now split.
  - destruct e; try discriminate. intros [= <- <- <-]. now split.
Qed.

Lemma not_None_Some {A} (o : option A) : o <> None -> exists a, o = Some a.
Proof. destruct o as [a|]; [now exists a | congruence]. Qed.

(** C5, as stated, fails in two ways.  A retained attachment whose name
    is an absolute path is listed for its message, but the file is written
    where the path leads: the fetch completes, the staging directory is
    empty and a file of a destination directory is overwritten.  And when
    the server lists a message twice, the second time without its PDF, the
    message ends with an empty list in [attachment_dict] while it is still
    a key of [mail_dict]. *)
Lemma fetch_indexes_not_consistent :
  (fst absolute_run
   = Ok (st_mail_dict (snd absolute_run), st_attachment_dict (snd absolute_run))
   /\ st_processed (snd absolute_run) = [("m1", [absolute_name])]
   /\ dict_get (st_attachment_dict (snd absolute_run)) "m1" = Some [absolute_name]
   /\ dict_mem (st_mail_dict (snd absolute_run)) "m1" = true
   /\ staging (st_fs (snd absolute_run)) = Directory []
   /\ dests (st_fs (snd absolute_run)) = [("/portfolios/fahes", [("old.pdf", pdf_bytes)])])
  /\ (fst twice_run
      = Ok (st_mail_dict (snd twice_run), st_attachment_dict (snd twice_run))
      /\ st_processed (snd twice_run) = [("m1", ["one.pdf"]); ("m1", [])]
      /\ dict_get (st_attachment_dict (snd twice_run)) "m1" = Some []
      /\ dict_mem (st_mail_dict (snd twice_run)) "m1" = true).
Proof. vm_compute. repeat split; reflexivity. Qed.



(* ===================================================================== *)
(** ** Owners found by the classifier are in [mail_dict] *)
(* ===================================================================== *)

Lemma subjectCheck_scan_no_KeyError mail_dict key m subjects :
  dict_get mail_dict key = Some m ->
  subjectCheck_scan mail_dict key subjects <> Raise KeyError.
Proof.
  intros Hm. induction subjects as [|s rest IH]; cbn; [discriminate|].
  rewrite Hm. destruct (subject m); try discriminate.
  destruct (negb _); [discriminate | exact IH].
Qed.

Lemma bodyTitleCheck_scan_no_KeyError mail_dict key m titles :
  dict_get mail_dict key = Some m ->
  bodyTitleCheck_scan mail_dict key titles <> Raise KeyError.
Proof.
  intros Hm. induction titles as [|t rest IH]; cbn; [discriminate|].
  rewrite Hm. destruct (body m); try discriminate.
  destruct (startswith _ _); [discriminate | exact IH].
Qed.

Lemma any_contains_nonempty attachment value :
  any_contains attachment value = true -> value <> [].
Proof. destruct value; [discriminate | discriminate]. Qed.

(** C10: in the two dictionaries that the fetch returns, every message ID
    with a non-empty list in [attachment_dict] is a key of [mail_dict];
    hence every owner that the classifier finds for a staged file is a key
    of [mail_dict], and neither the subject check nor the body check for
    that owner ends in [KeyError]. *)
Theorem owners_have_mail :
  forall (server_state : Type)
         (serve : server_state -> request -> reply * server_state)
         (soup_get_text : string -> string)
         (locate : string -> filesystem -> target)
         (fuel : nat) (tok start_date start_time : string)
         (fs : filesystem) (net : server_state)
         (mail_dict : list (string * mail_info))
         (attachment_dict : list (string * list string))
         (st : fetch_state server_state),
    download_office365_attachments serve soup_get_text locate fuel tok start_date start_time fs net
      = (Ok (mail_dict, attachment_dict), st) ->
    (forall id l, dict_get attachment_dict id = Some l -> l <> [] ->
                  exists m, dict_get mail_dict id = Some m)
    /\ (forall attachment key,
          In key (matching_keys attachment attachment_dict) ->
          (exists m, dict_get mail_dict key = Some m)
          /\ subjectCheck mail_dict key <> Raise KeyError
          /\ bodyTitleCheck mail_dict key <> Raise KeyError).
Proof.
  intros server_state serve soup_get_text locate fuel tok start_date start_time fs net
         mail_dict attachment_dict st Hrun.
  pose proof (download_inv serve soup_get_text locate fuel tok start_date start_time fs net) as Hinv.
  rewrite Hrun in Hinv. cbn [snd] in Hinv.
  apply download_returns in Hrun as [-> ->].
  destruct Hinv as (_ & _ & Hnd & J & _).
  assert (Hkey : forall id l, dict_get (st_attachment_dict st) id = Some l -> l <> [] ->
                   exists m, dict_get (st_mail_dict st) id = Some m).
  { intros id l Hl Hne. apply not_None_Some. now apply (J id l). }
  split; [exact Hkey|].
  intros attachment key Hin.
  apply matching_keys_In in Hin as (v & Hv & Hany).
  destruct (Hkey key v) as [m Hm].
  - now apply dict_get_of_In.
  - now apply (any_contains_nonempty attachment).
  - split; [now exists m|]. split.
    + now apply (subjectCheck_scan_no_KeyError _ _ m).
    + now apply (bodyTitleCheck_scan_no_KeyError _ _ m).
Qed.

Lemma owners_have_mail_witness :
  (forall id l, dict_get (st_attachment_dict (snd failing_run)) id = Some l -> l <> [] ->
                exists m, dict_get (st_mail_dict (snd failing_run)) id = Some m)
  /\ (forall attachment key,
        In key (matching_keys attachment (st_attachment_dict (snd failing_run))) ->
        (exists m, dict_get (st_mail_dict (snd failing_run)) key = Some m)
        /\ subjectCheck (st_mail_dict (snd failing_run)) key <> Raise KeyError
        /\ bodyTitleCheck (st_mail_dict (snd failing_run)) key <> Raise KeyError).
Proof.
  apply (owners_have_mail unit failing_server plain_text posix_locate 5 "tok" "2023-06-01" "00:00:00"
           empty_fs tt (st_mail_dict (snd failing_run))
           (st_attachment_dict (snd failing_run)) (snd failing_run)).
  vm_compute. reflexivity.
Defined.

(* ===================================================================== *)
(** ** The fetcher: a failed request ends the fetch *)
(* ===================================================================== *)

Ltac walk_trace tac :=
  repeat first
    [ tac
    | match goal with
      | |- stops_at_failure (if ?b then _ else _) => destruct b
      | |- stops_at_failure (match ?x with _ => _ end) => destruct x
      end ].

Section FetcherTrace.
Context {server_state : Type}.
Variable serve : server_state -> request -> reply * server_state.
Variable soup_get_text : string -> string.
Variable locate : string -> filesystem -> target.
Implicit Types (st : fetch_state server_state).

Lemma stops_bind {A B} (m : M (fetch_state server_state) A)
    (f : A -> M (fetch_state server_state) B) :
  stops_at_failure m -> (forall a, stops_at_failure (f a)) -> stops_at_failure (bind m f).
Proof. intros Hm Hf. unfold stops_at_failure. eapply spec_bind; [exact Hm | exact Hf]. Qed.

Lemma stops_of_preserves {A} (m : M (fetch_state server_state) A) :
  preserves clean m -> stops_at_failure m.
Proof. intros H. apply spec_of_preserves; [exact H | now left]. Qed.

(** Steps that send nothing. *)
Ltac silent :=
  let st := fresh "st" in
  let H := fresh "H" in
  apply stops_of_preserves; intros st H;
  unfold set_url, set_headers, raise_for_status, response_json, response_content,
         write_staged, set_mail, set_attachments, modify, lift, ret, raise;
  repeat match goal with
    | |- context [match ?x with _ => _ end] => destruct x
    end;
  exact H.

Lemma stops_ret {A} (a : A) : stops_at_failure (@ret (fetch_state server_state) A a).
Proof. silent. Qed.

Lemma stops_raise {A} (e : exn) : stops_at_failure (@raise (fetch_state server_state) A e).
Proof. silent. Qed.

Lemma stops_lift {A} (o : outcome A) :
  stops_at_failure (@lift (fetch_state server_state) A o).
Proof. silent. Qed.

Lemma stops_set_url u : stops_at_failure (@set_url server_state u).
Proof. silent. Qed.

Lemma stops_set_headers h : stops_at_failure (@set_headers server_state h).
Proof. silent. Qed.

Lemma stops_response_json : stops_at_failure (@response_json server_state).
Proof. silent. Qed.

Lemma stops_response_content : stops_at_failure (@response_content server_state).
Proof. silent. Qed.

Lemma stops_write_staged name data :
  stops_at_failure (@write_staged server_state locate name data).
Proof. silent. Qed.

Lemma stops_set_mail email_id m : stops_at_failure (@set_mail server_state email_id m).
Proof. silent. Qed.

Lemma stops_set_attachments email_id attachments :
  stops_at_failure (@set_attachments server_state email_id attachments).
Proof. silent. Qed.

(** A request and the check of its status: a failure raises on the
    spot, and what follows runs only after a request that did not fail. *)
Lemma stops_get_checked {A} tok params (k : M (fetch_state server_state) A) :
  stops_at_failure k ->
  stops_at_failure (requests_get serve tok params ;; raise_for_status ;; k).
Proof.
  intros Hk st Hclean. unfold bind, requests_get, raise_for_status.
  destruct (serve (st_net st) _) as [[|a] net']; cbn.
  - right. split; [reflexivity|]. eexists _, _. cbn. repeat split; try reflexivity.
    exact Hclean.
  - destruct (status_ok a) eqn:Hok; cbn.
    + apply Hk. unfold clean; cbn. apply Forall_app. split; [exact Hclean|].
      constructor; [reflexivity | constructor].
    + right. split; [reflexivity|]. eexists _, _. cbn. repeat split; try reflexivity.
      exact Hclean.
Qed.

Ltac trace_step :=
  first [ apply stops_get_checked
        | apply stops_ret | apply stops_raise | apply stops_lift
        | apply stops_set_url | apply stops_set_headers | apply stops_response_json
        | apply stops_response_content | apply stops_write_staged
        | apply stops_set_mail | apply stops_set_attachments
        | apply stops_bind; [| intros ?] ].

Lemma stops_download_attachment tok email_id attachments attachment :
  stops_at_failure (download_attachment serve locate tok email_id attachments attachment).
Proof. unfold download_attachment. walk_trace trace_step. Qed.

Lemma stops_download_attachments tok email_id attachments items :
  stops_at_failure (download_attachments serve locate tok email_id attachments items).
Proof.
  revert attachments. induction items as [|item items IH]; intros attachments;
    cbn [download_attachments].
  - apply stops_ret.
  - apply stops_bind; [apply stops_download_attachment | intros a; apply IH].
Qed.

Lemma stops_process_message tok message :
  stops_at_failure (process_message serve soup_get_text locate tok message).
Proof.
  unfold process_message.
  walk_trace ltac:(first [ apply stops_download_attachments | trace_step ]).
Qed.

Lemma stops_for_each {A} (xs : list A) (body : A -> M (fetch_state server_state) unit) :
  (forall x, stops_at_failure (body x)) -> stops_at_failure (for_each xs body).
Proof.
  intros Hb. induction xs as [|x xs IH]; cbn [for_each].
  - apply stops_ret.
  - apply stops_bind; [apply Hb | intros _; exact IH].
Qed.

Lemma stops_fetch_pages fuel tok params :
  stops_at_failure (fetch_pages serve soup_get_text locate fuel tok params).
Proof.
  induction fuel as [|fuel IH]; cbn [fetch_pages].
  - apply stops_raise.
  - walk_trace
      ltac:(first [ exact IH
                  | apply stops_for_each; intros ?; apply stops_process_message
                  | trace_step ]).
Qed.
End FetcherTrace.

Lemma clean_no_failure {S} (st : fetch_state S) :
  clean st -> existsb ex_failed (st_trace st) = false.
Proof.
  unfold clean. induction (st_trace st) as [|x l IH]; cbn; [reflexivity|].
  intros H. inversion H as [|? ? Hx Hl]; subst. rewrite Hx. now apply IH.
Qed.

(** C7: in every run of the fetch in which some request fails (no answer,
    or an answer with a bad status), the fetch raises nothing: it returns
    its two dictionaries; the failed request is the last one sent and the
    only one that failed; the dictionaries returned are the ones at the
    moment it was sent; and [main] goes on to classify with them. *)
Theorem request_failure_returns_partial :
  forall (server_state : Type)
         (serve : server_state -> request -> reply * server_state)
         (soup_get_text : string -> string)
         (locate : string -> filesystem -> target)
         (fuel : nat) (tok start_date start_time : string)
         (fs : filesystem) (net : server_state)
         (r : outcome (list (string * mail_info) * list (string * list string)))
         (st : fetch_state server_state),
    download_office365_attachments serve soup_get_text locate fuel tok start_date start_time fs net
      = (r, st) ->
    existsb ex_failed (st_trace st) = true ->
    r = Ok (st_mail_dict st, st_attachment_dict st)
    /\ failed_last st
    /\ main serve soup_get_text locate fuel tok start_date start_time fs net
       = filter_office365_attachments (st_mail_dict st) (st_attachment_dict st) (st_fs st).
Proof.
  intros server_state serve soup_get_text locate fuel tok start_date start_time fs net r st
         Hrun Hfail.
  assert (Hboth : r = Ok (st_mail_dict st, st_attachment_dict st) /\ failed_last st).
  { revert Hrun. unfold download_office365_attachments.
    destruct (makedirs_staging fs) as [fs'|e].
    - pose proof (stops_fetch_pages serve soup_get_text locate fuel tok
                    (Some (filter_param start_date start_time, 100%Z))
                    (initial_state fs' net)) as H.
      specialize (H (Forall_nil _)).
      destruct (fetch_pages _ _ _ _ _ _) as [[[]|e] st1].
      + intros [= <- <-]. apply clean_no_failure in H. congruence.
      + destruct H as [H|[-> H]].
        * apply clean_no_failure in H.
          destruct e; intros [= <- <-]; congruence.
        * intros [= <- <-]. now split.
    - intros [= <- <-]. cbn in Hfail. discriminate. }
  destruct Hboth as [-> Hlast]. split; [reflexivity|]. split; [exact Hlast|].
  unfold main. now rewrite Hrun.
Qed.

Lemma request_failure_returns_partial_witness :
  existsb ex_failed (st_trace (snd failing_run)) = true
  /\ fst failing_run
     = Ok (st_mail_dict (snd failing_run), st_attachment_dict (snd failing_run))
  /\ failed_last (snd failing_run)
  /\ main failing_server plain_text posix_locate 5 "tok" "2023-06-01" "00:00:00" empty_fs tt
     = filter_office365_attachments (st_mail_dict (snd failing_run))
         (st_attachment_dict (snd failing_run)) (st_fs (snd failing_run)).
Proof.
  split; [vm_compute; reflexivity|].
  apply (request_failure_returns_partial unit failing_server plain_text posix_locate 5 "tok"
           "2023-06-01" "00:00:00" empty_fs tt (fst failing_run) (snd failing_run)).
  - vm_compute. reflexivity.
  - vm_compute. reflexivity.
Defined.

(* ===================================================================== *)
(** ** The body stored for a message *)
(* ===================================================================== *)

Lemma lift_Ok_inv {St A} (o : outcome A) (st st1 : St) a :
  lift o st = (Ok a, st1) -> o = Ok a /\ st1 = st.
Proof. unfold lift. intros [= -> <-]. now split. Qed.

Lemma preserves_run {St A} (P : St -> Prop) (m : M St A) st r st' :
  preserves P m -> m st = (r, st') -> P st -> P st'.
Proof. intros Hm E H. specialize (Hm st H). now rewrite E in Hm. Qed.

Ltac inv_lift H x E :=
  let s := fresh "s" in
  let Hl := fresh "Hl" in
  apply bind_Ok_inv in H as (x & s & Hl & H);
  apply lift_Ok_inv in Hl as [E ->].

(** C8: when the turn for a message ends normally, the server has answered
    the request for the message with a JSON document that has a body with
    a content and a content type, and, when the message has a retained
    attachment, the body stored for it in [mail_dict] is the output of
    [extract_text_from_html] on that content if the content type is
    [text/html], and that content unchanged otherwise. *)
Theorem stored_body_extracted_when_html :
  forall (server_state : Type)
         (serve : server_state -> request -> reply * server_state)
         (soup_get_text : string -> string)
         (locate : string -> filesystem -> target)
         (tok : string) (message : json) (id : string)
         (st st' : fetch_state server_state),
    getitem message "id" = Ok (JStr id) ->
    process_message serve soup_get_text locate tok message st = (Ok tt, st') ->
    exists a net' email_data b raw ctype,
      serve (st_net st) (mkReq (message_url id) tok (st_headers st) None) = (Answer a, net')
      /\ json_body a = Some email_data
      /\ getitem email_data "body" = Ok b
      /\ getitem b "content" = Ok raw
      /\ getitem b "contentType" = Ok ctype
      /\ forall l, dict_get (st_attachment_dict st') id = Some l -> l <> [] ->
           exists m, dict_get (st_mail_dict st') id = Some m
             /\ (json_eqb_str ctype "text/html" = true ->
                   exists html, raw = JStr html
                     /\ body m = JStr (extract_text_from_html soup_get_text html))
             /\ (json_eqb_str ctype "text/html" = false -> body m = raw).
Proof.
  intros server_state serve soup_get_text locate tok message id st st' Hid H.
  unfold process_message in H.
  inv_lift H idj E1. rewrite Hid in E1. injection E1 as <-.
  inv_lift H email_id E2. cbn in E2. injection E2 as <-.
  apply bind_Ok_inv in H as ([] & s1 & Hurl & H).
  unfold set_url, modify in Hurl. injection Hurl as <-.
  apply bind_Ok_inv in H as ([] & s2 & Hget & H).
  unfold requests_get in Hget. cbn [st_url st_net st_headers st_mail_dict st_attachment_dict st_response st_fs st_trace st_processed] in Hget.
  destruct (serve (st_net st) _) as [[|a] net'] eqn:Hserve; [discriminate|].
  injection Hget as <-.
  apply bind_Ok_inv in H as ([] & s3 & Hstatus & H).
  unfold raise_for_status in Hstatus. cbn [st_response] in Hstatus.
  destruct (status_ok a); [|discriminate]. injection Hstatus as <-.
  apply bind_Ok_inv in H as (email_data & s4 & Hjson & H).
  unfold response_json in Hjson. cbn [st_response] in Hjson.
  destruct (json_body a) as [j|] eqn:Hbody; [|discriminate].
  injection Hjson as <- <-.
  inv_lift H listed E3. inv_lift H items E4.
  apply bind_Ok_inv in H as (attachments & s5 & Hdl & H).
  pose proof (preserves_run _ _ _ _ _
                (download_attachments_dicts serve locate (st_mail_dict st) (st_attachment_dict st)
                   (st_processed st) tok id [] items)
                Hdl (conj eq_refl (conj eq_refl eq_refl))) as (Hm5 & Ha5 & _).
  clear Hdl.
  inv_lift H sender_j F1. inv_lift H address_j F2. inv_lift H sender' F3.
  inv_lift H date' F4. inv_lift H subject' F5. inv_lift H b F6. inv_lift H raw F7.
  inv_lift H b' F8. inv_lift H ctype F9.
  rewrite F6 in F8. injection F8 as <-.
  exists a, net', j, b, raw, ctype.
  split; [reflexivity|]. split; [exact Hbody|]. split; [exact F6|].
  split; [exact F7|]. split; [exact F9|].
  apply bind_Ok_inv in H as (body' & s6 & Hx & H).
  assert (Hbody' : s6 = s5
            /\ (json_eqb_str ctype "text/html" = true ->
                  exists html, raw = JStr html
                    /\ body' = JStr (extract_text_from_html soup_get_text html))
            /\ (json_eqb_str ctype "text/html" = false -> body' = raw)).
  { destruct (json_eqb_str ctype "text/html").
    - apply lift_Ok_inv in Hx as [Hx ->]. split; [reflexivity|]. split; [|discriminate].
      intros _. destruct raw; try discriminate. injection Hx as <-. now eexists.
    - injection Hx as <- <-. split; [reflexivity|]. split; [discriminate | reflexivity]. }
  destruct Hbody' as (-> & Hhtml & Hplain). clear Hx.
  apply bind_Ok_inv in H as ([] & s7 & Hmail & H).
  unfold set_attachments, modify in H. injection H as <-. cbn.
  intros l Hl Hne. rewrite dict_get_set_same in Hl. injection Hl as <-.
  destruct attachments as [|name rest]; [congruence|].
  unfold set_mail, modify in Hmail. injection Hmail as <-. cbn.
  rewrite dict_get_set_same. eexists. split; [reflexivity|]. cbn. now split.
Qed.

Lemma stored_body_extracted_when_html_witness :
  fst mixed_turn = Ok tt
  /\ dict_get (st_mail_dict (snd mixed_turn)) "m1"
     = Some (mkMail (JStr "sender@example.com") (JStr "2023-06-01T10:00:00Z")
               (JStr "first") (JStr "<p>one</p>"))
  /\ exists a net' email_data b raw ctype,
      mixed_server (st_net mixed_turn_start)
        (mkReq (message_url "m1") "tok" (st_headers mixed_turn_start) None) = (Answer a, net')
      /\ json_body a = Some email_data
      /\ getitem email_data "body" = Ok b
      /\ getitem b "content" = Ok raw
      /\ getitem b "contentType" = Ok ctype
      /\ forall l, dict_get (st_attachment_dict (snd mixed_turn)) "m1" = Some l -> l <> [] ->
           exists m, dict_get (st_mail_dict (snd mixed_turn)) "m1" = Some m
             /\ (json_eqb_str ctype "text/html" = true ->
                   exists html, raw = JStr html
                     /\ body m = JStr (extract_text_from_html plain_text html))
             /\ (json_eqb_str ctype "text/html" = false -> body m = raw).
Proof.
  split; [vm_compute; reflexivity|]. split; [vm_compute; reflexivity|].
  apply (stored_body_extracted_when_html unit mixed_server plain_text posix_locate "tok"
           (JObj [("id", JStr "m1")]) "m1" mixed_turn_start (snd mixed_turn)).
  - reflexivity.
  - vm_compute. reflexivity.
Defined.

(* ===================================================================== *)
(** ** The next-page cursor *)
(* ===================================================================== *)

(** C6, the defect: the answer to the first list request carries the
    cursor to a second page that lists [m2], but after the messages of the
    page [response] holds the answer to the request for [m1], which has no
    cursor: the loop ends there.  Two requests are sent, the second page is
    never asked for, and [m2] is in neither dictionary. *)
Theorem cursor_read_from_last_response :
  fst (two_page_server tt (mkReq messages_url "tok" "application/json"
                             (Some (filter_param "2023-06-01" "00:00:00", 100%Z))))
    = json_answer (JObj [("value", JArr [JObj [("id", JStr "m1")]]);
                         ("@odata.nextLink", JStr page2_url)])
  /\ fst (two_page_server tt (mkReq page2_url "tok" "application/json"
                                (Some (filter_param "2023-06-01" "00:00:00", 100%Z))))
     = json_answer (JObj [("value", JArr [JObj [("id", JStr "m2")]])])
  /\ fst two_page_run = Ok ([], [("m1", [])])
  /\ map (fun x => req_url (ex_request x)) (st_trace (snd two_page_run))
     = [messages_url; message_url "m1"]
  /\ st_processed (snd two_page_run) = [("m1", [])]
  /\ dict_get (st_attachment_dict (snd two_page_run)) "m2" = None.
Proof. repeat split; vm_compute; reflexivity. Qed.

(* ===================================================================== *)
(** ** Which attachments the fetcher retains *)
(* ===================================================================== *)

Section Retained.
Context {server_state : Type}.
Variable serve : server_state -> request -> reply * server_state.
Variable locate : string -> filesystem -> target.
Implicit Types (st : fetch_state server_state).

Lemma modify_Ok_inv (f : fetch_state server_state -> fetch_state server_state) st u st' :
  modify f st = (Ok u, st') -> st' = f st.
Proof. unfold modify. now intros [= _ <-]. Qed.

Lemma requests_get_trace tok params st u st' :
  requests_get serve tok params st = (Ok u, st') ->
  exists x, st_trace st' = (st_trace st ++ [x])%list
            /\ req_token (ex_request x) = tok
            /\ req_url (ex_request x) = st_url st
            /\ req_content_type (ex_request x) = st_headers st
            /\ req_params (ex_request x) = params.
Proof.
  unfold requests_get. destruct (serve _ _) as [[|a] net']; [discriminate|].
  intros [= _ <-]. cbn. eexists. split; [reflexivity|]. cbn. now repeat split.
Qed.

Lemma same_trace_step (m : M (fetch_state server_state) unit) st st' :
  (forall s, st_trace (snd (m s)) = st_trace s) ->
  m st = (Ok tt, st') -> st_trace st' = st_trace st.
Proof. intros H E. specialize (H st). now rewrite E in H. Qed.

(** One turn of the loop over the attachments of a message: a name with
    the extension [.pdf], in any case of letters, is appended and asked
    for with one request; any other attachment changes nothing at all. *)
Lemma download_attachment_retains tok email_id attachments attachment st attachments' st' :
  download_attachment serve locate tok email_id attachments attachment st = (Ok attachments', st') ->
  attachments' = (attachments ++ retained_name attachment)%list
  /\ (retained_name attachment = [] -> st' = st)
  /\ List.length (st_trace st')
     = List.length (st_trace st) + List.length (retained_name attachment).
Proof.
  intros H. unfold download_attachment in H.
  inv_lift H name_j E1. inv_lift H ctype E2. inv_lift H ext E3.
  unfold retained_name. rewrite E1.
  destruct name_j as [| | |name| |]; try discriminate. injection E3 as <-.
  unfold is_pdf_name. destruct (String.eqb (lower (snd (splitext name))) ".pdf").
  - inv_lift H name' E4. injection E4 as <-.
    inv_lift H id_j E5. inv_lift H attachment_id E6.
    apply bind_Ok_inv in H as ([] & s1 & H1 & H). apply modify_Ok_inv in H1 as ->.
    apply bind_Ok_inv in H as ([] & s2 & H2 & H). apply modify_Ok_inv in H2 as ->.
    apply bind_Ok_inv in H as ([] & s3 & H3 & H).
    apply requests_get_trace in H3 as (x & Htr & _). cbn in Htr.
    apply bind_Ok_inv in H as ([] & s4 & H4 & H).
    assert (s4 = s3) as ->.
    { unfold raise_for_status in H4. destruct (st_response s3) as [a|]; [|discriminate].
      destruct (status_ok a); [now injection H4 as <- | discriminate]. }
    apply bind_Ok_inv in H as (data & s5 & H5 & H).
    assert (s5 = s3) as ->.
    { unfold response_content in H5. destruct (st_response s3); [|discriminate].
      now injection H5 as _ <-. }
    apply bind_Ok_inv in H as ([] & s6 & H6 & H).
    assert (Htr6 : st_trace s6 = st_trace s3).
    { rewrite write_staged_eq in H6. now injection H6 as _ <-. }
    injection H as <- <-. split; [reflexivity|]. split; [discriminate|].
    rewrite Htr6, Htr, List.length_app. reflexivity.
  - injection H as <- <-. rewrite app_nil_r. split; [reflexivity|].
    split; [reflexivity | cbn; lia].
Qed.
End Retained.

Lemma download_attachments_retains {server_state : Type}
    (serve : server_state -> request -> reply * server_state)
    (locate : string -> filesystem -> target)
    tok email_id items attachments attachments' (st st' : fetch_state server_state) :
  download_attachments serve locate tok email_id attachments items st = (Ok attachments', st') ->
  attachments' = (attachments ++ retained_names items)%list
  /\ List.length (st_trace st')
     = List.length (st_trace st) + List.length (retained_names items)
  /\ (retained_names items = [] -> st' = st).
Proof.
  revert attachments attachments' st st'.
  induction items as [|item items IH]; intros attachments attachments' st st' H;
    cbn [download_attachments] in H.
  - injection H as <- <-. cbn. rewrite app_nil_r. repeat split. lia.
  - apply bind_Ok_inv in H as (mid & s1 & H1 & H).
    apply download_attachment_retains in H1 as (-> & Hsame & Hlen1).
    apply IH in H as (-> & Hlen & Hnone).
    unfold retained_names. cbn [flat_map]. fold (retained_names items).
    rewrite <- app_assoc. split; [reflexivity|]. split.
    + rewrite Hlen, Hlen1, List.length_app. lia.
    + intros Hnil. apply app_eq_nil in Hnil as [Hn1 Hn2].
      rewrite (Hnone Hn2). now apply Hsame.
Qed.



(* ===================================================================== *)
(** ** What a finished turn for a message has done *)
(* ===================================================================== *)

Lemma retained_name_pdf attachment :
  Forall (fun name => is_pdf_name name = true) (retained_name attachment).
Proof.
  unfold retained_name. destruct (getitem attachment "name") as [[| | |name| |]|e];
    try constructor.
  destruct (is_pdf_name name) eqn:E; repeat constructor. exact E.
Qed.

Lemma retained_names_pdf items :
  Forall (fun name => is_pdf_name name = true) (retained_names items).
Proof.
  induction items as [|item items IH]; cbn; [constructor|].
  apply Forall_app. split; [apply retained_name_pdf | exact IH].
Qed.

(** A turn that ends normally has read the message's ID and its list of
    attachments from the answers of the server, and has set the entry of
    [attachment_dict] for that ID to the retained names of that list. *)
Lemma process_message_Ok_inv {server_state : Type}
    (serve : server_state -> request -> reply * server_state)
    (soup_get_text : string -> string)
         (locate : string -> filesystem -> target) tok message
    (st st' : fetch_state server_state) :
  process_message serve soup_get_text locate tok message st = (Ok tt, st') ->
  exists id email_data listed items,
    getitem message "id" = Ok (JStr id)
    /\ json_get email_data "attachments" (JArr []) = Ok listed
    /\ json_iter listed = Ok items
    /\ st_attachment_dict st' = dict_set (st_attachment_dict st) id (retained_names items)
    /\ st_processed st' = (st_processed st ++ [(id, retained_names items)])%list.
Proof.
  intros H. unfold process_message in H.
  set (D := @dicts_are server_state (st_mail_dict st) (st_attachment_dict st)
              (st_processed st)).
  assert (Hd : D st) by (repeat split).
  assert (Hloc := dicts_are_local (server_state := server_state) (st_mail_dict st)
                    (st_attachment_dict st) (st_processed st)).
  fold D in Hloc.
  inv_lift H idj E1. inv_lift H eid E2.
  destruct idj as [| | |id'| |]; try discriminate. injection E2 as ->.
  apply bind_Ok_inv in H as ([] & s1 & H1 & H).
  apply (preserves_run _ _ _ _ _ (set_url_keeps D Hloc _) H1) in Hd.
  apply bind_Ok_inv in H as ([] & s2 & H2 & H).
  apply (preserves_run _ _ _ _ _ (requests_get_keeps serve D Hloc _ _) H2) in Hd.
  apply bind_Ok_inv in H as ([] & s3 & H3 & H).
  apply (preserves_run _ _ _ _ _ (raise_for_status_keeps D) H3) in Hd.
  apply bind_Ok_inv in H as (email_data & s4 & H4 & H).
  apply (preserves_run _ _ _ _ _ (response_json_keeps D) H4) in Hd.
  inv_lift H listed E3. inv_lift H items E4.
  apply bind_Ok_inv in H as (attachments & s5 & Hdl & H).
  apply (preserves_run _ _ _ _ _
           (download_attachments_dicts serve locate _ _ _ tok eid [] items) Hdl) in Hd.
  apply download_attachments_retains in Hdl as (-> & _). cbn [app] in H.
  exists eid, email_data, listed, items.
  do 3 (split; [assumption|]).
  do 9 (apply bind_Ok_inv in H as (? & ? & Hl & H); apply lift_Ok_inv in Hl as [_ ->]).
  apply bind_Ok_inv in H as (body' & s6 & Hb & H).
  assert (s6 = s5) as ->.
  { destruct (json_eqb_str _ _); [now apply lift_Ok_inv in Hb as [_ ->]|].
    now injection Hb as _ <-. }
  apply bind_Ok_inv in H as ([] & s7 & Hmail & H).
  apply modify_Ok_inv in H as ->. cbn.
  destruct Hd as (_ & Ha & Hp).
  destruct (retained_names items); cbn in Hmail.
  - injection Hmail as <-. now rewrite Ha, Hp.
  - apply modify_Ok_inv in Hmail as ->. cbn. now rewrite Ha, Hp.
Qed.

(* ===================================================================== *)
(** ** More that holds of the two dictionaries after the fetch *)
(* ===================================================================== *)

Section FetcherMore.
Context {server_state : Type}.
Variable serve : server_state -> request -> reply * server_state.
Variable soup_get_text : string -> string.
Variable locate : string -> filesystem -> target.
Implicit Types (st : fetch_state server_state).

(** What every turn for a message keeps, and the initial state has, holds
    of the world that the fetch leaves, however it ends. *)
Lemma download_keeps (P : fetch_state server_state -> Prop)
    fuel tok start_date start_time fs net :
  (forall st st',
     st_mail_dict st' = st_mail_dict st ->
     st_attachment_dict st' = st_attachment_dict st ->
     st_processed st' = st_processed st ->
     st_fs st' = st_fs st -> P st -> P st') ->
  (forall tok message, preserves P (process_message serve soup_get_text locate tok message)) ->
  P (initial_state fs net) ->
  (forall fs', makedirs_staging fs = Ok fs' -> P (initial_state fs' net)) ->
  P (snd (download_office365_attachments serve soup_get_text locate fuel tok
            start_date start_time fs net)).
Proof.
  intros Hlocal Hmessage Hinit Hmade. unfold download_office365_attachments.
  destruct (makedirs_staging fs) as [fs'|e]; [|apply Hinit].
  pose proof (fetch_pages_keeps serve soup_get_text locate P Hlocal Hmessage fuel tok
                (Some (filter_param start_date start_time, 100%Z))
                (initial_state fs' net) (Hmade fs' eq_refl)) as H.
  destruct (fetch_pages _ _ _ _ _ _) as [[[]|e] st]; cbn [snd] in *; [exact H|].
  destruct e; exact H.
Qed.

Lemma process_message_only_pdfs tok message :
  preserves only_pdfs (process_message serve soup_get_text locate tok message).
Proof.
  intros st Hinv.
  pose proof (process_message_records serve soup_get_text locate (st_mail_dict st)
                (st_attachment_dict st) (st_processed st) tok message st
                (conj eq_refl (conj eq_refl eq_refl))) as Hrec.
  destruct (process_message serve soup_get_text locate tok message st) as [[[]|e] st'] eqn:Hrun;
    cbn [snd].
  - apply process_message_Ok_inv in Hrun as (id & _ & _ & items & _ & _ & _ & Had & _).
    intros id' l Hl. rewrite Had in Hl.
    destruct (String.eqb_spec id id') as [->|Hne].
    + rewrite dict_get_set_same in Hl. injection Hl as <-. apply retained_names_pdf.
    + rewrite dict_get_set_other in Hl by exact Hne. now apply (Hinv id').
  - destruct Hrec as (_ & Ha & _). intros id' l Hl. rewrite Ha in Hl. now apply (Hinv id').
Qed.

Lemma process_message_keys tok message :
  preserves keys_inv (process_message serve soup_get_text locate tok message).
Proof.
  intros st (Hm & Ha & Hsub).
  pose proof (process_message_records serve soup_get_text locate (st_mail_dict st)
                (st_attachment_dict st) (st_processed st) tok message st
                (conj eq_refl (conj eq_refl eq_refl))) as Hrec.
  destruct (process_message serve soup_get_text locate tok message st) as [[[]|e] st'];
    cbn [snd].
  - destruct Hrec as (id & atts & Had & _ & Hmd & _).
    unfold keys_inv. rewrite Had. split; [|split].
    + destruct atts; [now rewrite Hmd|]. destruct Hmd as [m ->]. now apply dict_set_NoDup.
    + now apply dict_set_NoDup.
    + intros id' Hid'. destruct (String.eqb_spec id id') as [->|Hne].
      * rewrite dict_get_set_same. discriminate.
      * rewrite dict_get_set_other by exact Hne. apply Hsub.
        destruct atts; [now rewrite Hmd in Hid'|]. destruct Hmd as [m Hmd].
        rewrite Hmd, dict_get_set_other in Hid' by exact Hne. exact Hid'.
  - destruct Hrec as (Hm' & Ha' & _). unfold keys_inv. now rewrite Hm', Ha'.
Qed.

Lemma download_only_pdfs fuel tok start_date start_time fs net :
  only_pdfs (snd (download_office365_attachments serve soup_get_text locate fuel tok
                    start_date start_time fs net)).
Proof.
  apply download_keeps.
  - unfold only_pdfs. intros st st' _ -> _ _ H. exact H.
  - apply process_message_only_pdfs.
  - intros id l H. discriminate.
  - intros fs' _ id l H. discriminate.
Qed.

Lemma download_keys fuel tok start_date start_time fs net :
  keys_inv (snd (download_office365_attachments serve soup_get_text locate fuel tok
                   start_date start_time fs net)).
Proof.
  apply download_keeps.
  - unfold keys_inv. intros st st' -> -> _ _ H. exact H.
  - apply process_message_keys.
  - repeat split; try constructor. intros id H. now contradiction H.
  - intros fs' _. repeat split; try constructor. intros id H. now contradiction H.
Qed.
End FetcherMore.

(** X2: every filename listed in the [attachment_dict] that the fetch
    returns has the extension [.pdf], in some case of letters. *)
Theorem attachment_dict_lists_only_pdfs :
  forall (server_state : Type)
         (serve : server_state -> request -> reply * server_state)
         (soup_get_text : string -> string)
         (locate : string -> filesystem -> target)
         (fuel : nat) (tok start_date start_time : string)
         (fs : filesystem) (net : server_state)
         (mail_dict : list (string * mail_info))
         (attachment_dict : list (string * list string))
         (st : fetch_state server_state),
    download_office365_attachments serve soup_get_text locate fuel tok start_date start_time fs net
      = (Ok (mail_dict, attachment_dict), st) ->
    forall id l name,
      dict_get attachment_dict id = Some l -> In name l ->
      lower (snd (splitext name)) = ".pdf".
Proof.
  intros server_state serve soup_get_text locate fuel tok start_date start_time fs net
         mail_dict attachment_dict st Hrun id l name Hl Hin.
  pose proof (download_only_pdfs serve soup_get_text locate fuel tok start_date start_time fs net)
    as Hinv.
  rewrite Hrun in Hinv. cbn [snd] in Hinv.
  apply download_returns in Hrun as [_ ->].
  specialize (Hinv id l Hl). rewrite Forall_forall in Hinv.
  apply String.eqb_eq. now apply Hinv.
Qed.

Lemma attachment_dict_lists_only_pdfs_witness :
  dict_get (st_attachment_dict (snd mixed_run)) "m1" = Some ["one.PDF"]
  /\ lower (snd (splitext "one.PDF")) = ".pdf".
Proof.
  split; [vm_compute; reflexivity|].
  apply (attachment_dict_lists_only_pdfs unit mixed_server plain_text posix_locate 5 "tok" "2023-06-01"
           "00:00:00" empty_fs tt (st_mail_dict (snd mixed_run))
           (st_attachment_dict (snd mixed_run)) (snd mixed_run))
    with (id := "m1") (l := ["one.PDF"]).
  - vm_compute. reflexivity.
  - vm_compute. reflexivity.
  - now left.
Defined.

(** X3: in the two dictionaries that the fetch returns, whether it ended
    normally or at a failed request, no key occurs twice and every key of
    [mail_dict] is a key of [attachment_dict]; and when no message ID was
    processed twice, the list of every key of [mail_dict] is not empty. *)
Theorem mail_dict_keys_are_attachment_dict_keys :
  forall (server_state : Type)
         (serve : server_state -> request -> reply * server_state)
         (soup_get_text : string -> string)
         (locate : string -> filesystem -> target)
         (fuel : nat) (tok start_date start_time : string)
         (fs : filesystem) (net : server_state)
         (mail_dict : list (string * mail_info))
         (attachment_dict : list (string * list string))
         (st : fetch_state server_state),
    download_office365_attachments serve soup_get_text locate fuel tok start_date start_time fs net
      = (Ok (mail_dict, attachment_dict), st) ->
    NoDup (dict_keys mail_dict)
    /\ NoDup (dict_keys attachment_dict)
    /\ (forall id m, dict_get mail_dict id = Some m ->
                     exists l, dict_get attachment_dict id = Some l)
    /\ (NoDup (map fst (st_processed st)) ->
        forall id m, dict_get mail_dict id = Some m ->
                     exists l, dict_get attachment_dict id = Some l /\ l <> []).
Proof.
  intros server_state serve soup_get_text locate fuel tok start_date start_time fs net
         mail_dict attachment_dict st Hrun.
  pose proof (download_keys serve soup_get_text locate fuel tok start_date start_time fs net)
    as (Hm & Ha & Hsub).
  pose proof (download_inv serve soup_get_text locate fuel tok start_date start_time fs net)
    as (_ & I3 & _ & _ & I2).
  rewrite Hrun in *. cbn [snd] in *.
  apply download_returns in Hrun as [-> ->].
  split; [exact Hm|]. split; [exact Ha|]. split.
  - intros id m Hid. apply not_None_Some, Hsub. congruence.
  - intros Hnd id m Hid.
    assert (Hin : In id (map fst (st_processed st))) by (apply I3; congruence).
    apply in_map_iff in Hin as ([id' l] & <- & Hin). cbn in *.
    destruct (I2 id' l Hin (processed_once_NoDup _ _ Hnd (in_map fst _ _ Hin)))
      as (Hl & Hempty & _).
    exists l. split; [exact Hl|]. intros ->. rewrite (Hempty eq_refl) in Hid. discriminate.
Qed.

Lemma mail_dict_keys_are_attachment_dict_keys_witness :
  dict_keys (st_mail_dict (snd failing_run)) = ["m1"]
  /\ NoDup (dict_keys (st_mail_dict (snd failing_run)))
  /\ NoDup (dict_keys (st_attachment_dict (snd failing_run)))
  /\ (forall id m, dict_get (st_mail_dict (snd failing_run)) id = Some m ->
                   exists l, dict_get (st_attachment_dict (snd failing_run)) id = Some l)
  /\ (NoDup (map fst (st_processed (snd failing_run))) ->
      forall id m, dict_get (st_mail_dict (snd failing_run)) id = Some m ->
                   exists l, dict_get (st_attachment_dict (snd failing_run)) id = Some l
                             /\ l <> []).
Proof.
  split; [vm_compute; reflexivity|].
  apply (mail_dict_keys_are_attachment_dict_keys unit failing_server plain_text posix_locate 5 "tok"
           "2023-06-01" "00:00:00" empty_fs tt (st_mail_dict (snd failing_run))
           (st_attachment_dict (snd failing_run)) (snd failing_run)).
  vm_compute. reflexivity.
Defined.



(* ===================================================================== *)
(** ** What the fetch does to the file system *)
(* ===================================================================== *)

Section FetcherFiles.
Context {server_state : Type}.
Variable serve : server_state -> request -> reply * server_state.
Variable soup_get_text : string -> string.
Variable locate : string -> filesystem -> target.
Implicit Types (st : fetch_state server_state).

(** What [open_write] leaves alone: the configuration file, and the files
    of the destination directories, of which it can only replace one. *)
Lemma open_write_config t data p :
  preserves (fun fs => portfolios fs = p) (open_write t data).
Proof.
  intros fs H. unfold open_write. destruct t as [path|q name|result]; cbn [snd].
  - destruct (staging fs) as [| |entries]; try exact H.
    destruct (write_at path data entries); exact H.
  - destruct (dict_get (dests fs) q); exact H.
  - exact H.
Qed.

Lemma open_write_dest_file t data p name : preserves (dest_file p name) (open_write t data).
Proof.
  intros fs H. unfold open_write. destruct t as [path|q name'|result]; cbn [snd].
  - destruct (staging fs) as [| |entries]; try exact H.
    destruct (write_at path data entries); exact H.
  - destruct (dict_get (dests fs) q) as [files'|] eqn:Hq; [|exact H].
    destruct H as (files & c & Hp & Hname).
    destruct (String.eqb_spec q p) as [->|Hne].
    + rewrite Hp in Hq. injection Hq as <-.
      destruct (String.eqb_spec name' name) as [->|Hne'].
      * exists (dict_set files name data), data. cbn [snd dests set_dests].
        split; apply dict_get_set_same.
      * exists (dict_set files name' data), c. cbn [snd dests set_dests].
        split; [apply dict_get_set_same | now rewrite dict_get_set_other].
    + exists files, c. cbn [snd dests set_dests].
      split; [now rewrite dict_get_set_other | exact Hname].
  - exact H.
Qed.

Lemma open_write_dests t data d :
  (forall p name, t <> InDest p name) ->
  preserves (fun fs => dests fs = d) (open_write t data).
Proof.
  intros Ht fs H. unfold open_write. destruct t as [path|q name|result]; cbn [snd].
  - destruct (staging fs) as [| |entries]; try exact H.
    destruct (write_at path data entries); exact H.
  - now destruct (Ht q name).
  - exact H.
Qed.

(** A property of the file system that the write of an attachment keeps,
    and that the making of the staging directory establishes, holds when
    the fetch is over, however it ends. *)
Lemma download_keeps_fs (Q : filesystem -> Prop) fuel tok start_date start_time fs net :
  (forall name data fs0,
     Q fs0 -> Q (snd (open_write (attachment_target locate name fs0) data fs0))) ->
  Q fs ->
  (forall fs', makedirs_staging fs = Ok fs' -> Q fs') ->
  Q (st_fs (snd (download_office365_attachments serve soup_get_text locate fuel tok
                   start_date start_time fs net))).
Proof.
  intros Hwrite Hfs Hmade.
  apply (download_keeps serve soup_get_text locate (fun st => Q (st_fs st))).
  - intros st st' _ _ _ -> H. exact H.
  - intros tok' message. apply process_message_keeps.
    + intros st st' _ _ _ -> H. exact H.
    + intros name data st H. rewrite write_staged_eq. cbn [snd st_fs set_fs].
      now apply Hwrite.
    + intros email_id m st H. exact H.
    + intros email_id attachments st H. exact H.
  - exact Hfs.
  - exact Hmade.
Qed.

Lemma makedirs_staging_Ok fs fs' :
  makedirs_staging fs = Ok fs' ->
  staging_is_dir fs' /\ portfolios fs' = portfolios fs /\ dests fs' = dests fs
  /\ forall name, staged_file fs name -> staged_file fs' name.
Proof.
  unfold makedirs_staging. destruct (staging fs) as [| |entries] eqn:Hst; try discriminate;
    intros [= <-].
  - cbn. repeat split; [now eexists|]. intros name (es & c & Hes & _). congruence.
  - repeat split; [now exists entries | auto].
Qed.

Lemma target_not_dest name fs0 :
  (forall name' fs' p f, locate name' fs' <> InDest p f) ->
  forall p f, attachment_target locate name fs0 <> InDest p f.
Proof.
  intros Hloc p f. unfold attachment_target.
  destruct (plain_name name); [discriminate | apply Hloc].
Qed.

Lemma download_Ok_dir fuel tok start_date start_time fs net result st :
  download_office365_attachments serve soup_get_text locate fuel tok start_date start_time fs net
    = (Ok result, st) ->
  staging_is_dir (st_fs st).
Proof.
  unfold download_office365_attachments.
  destruct (makedirs_staging fs) as [fs'|e] eqn:Hmade; [|discriminate].
  apply makedirs_staging_Ok in Hmade as (Hdir & _).
  assert (Hmessage : forall tok' message,
            preserves (fun st => staging_is_dir (st_fs st))
                      (process_message serve soup_get_text locate tok' message)).
  { intros tok' message. apply process_message_keeps.
    - intros s s' _ _ _ -> H. exact H.
    - intros name data s H. rewrite write_staged_eq. cbn [snd st_fs set_fs].
      now apply open_write_keeps_dir.
    - intros email_id m s H. exact H.
    - intros email_id attachments s H. exact H. }
  pose proof (fetch_pages_keeps serve soup_get_text locate _
                (fun st st' _ _ _ (E : st_fs st' = st_fs st) (H : staging_is_dir (st_fs st)) =>
                   eq_ind_r (fun f => staging_is_dir f) H E)
                Hmessage fuel tok
                (Some (filter_param start_date start_time, 100%Z))
                (initial_state fs' net) Hdir) as H.
  destruct (fetch_pages _ _ _ _ _ _) as [[[]|e] st1]; cbn [snd] in H.
  - now intros [= _ <-].
  - destruct e; try discriminate. now intros [= _ <-].
Qed.
End FetcherFiles.

(** X5: whatever the server answers and however the fetch ends, it takes
    nothing away.  The configuration file is as it was; every file of a
    destination directory is still a file of that directory, and the
    destination directories are exactly as they were unless an attachment
    name is a path that leads into one; every regular file that was in the
    staging directory before is still a regular file of it.  And when the
    fetch returns, the staging directory exists, so that the listing with
    which the classification starts cannot fail. *)
Theorem fetch_removes_no_file :
  forall (server_state : Type)
         (serve : server_state -> request -> reply * server_state)
         (soup_get_text : string -> string)
         (locate : string -> filesystem -> target)
         (fuel : nat) (tok start_date start_time : string)
         (fs : filesystem) (net : server_state),
    portfolios (st_fs (snd (download_office365_attachments serve soup_get_text locate fuel tok
                              start_date start_time fs net))) = portfolios fs
    /\ (forall p name, dest_file p name fs ->
          dest_file p name
            (st_fs (snd (download_office365_attachments serve soup_get_text locate fuel tok
                           start_date start_time fs net))))
    /\ ((forall name fs0 p f, locate name fs0 <> InDest p f) ->
        dests (st_fs (snd (download_office365_attachments serve soup_get_text locate fuel tok
                             start_date start_time fs net))) = dests fs)
    /\ (forall name, staged_file fs name ->
          staged_file (st_fs (snd (download_office365_attachments serve soup_get_text locate fuel
                                     tok start_date start_time fs net))) name)
    /\ (forall result st,
          download_office365_attachments serve soup_get_text locate fuel tok start_date
            start_time fs net = (Ok result, st) ->
          exists names, os_listdir (st_fs st) = (Ok names, st_fs st)).
Proof.
  intros server_state serve soup_get_text locate fuel tok start_date start_time fs net.
  split; [|split; [|split; [|split]]].
  - apply (download_keeps_fs serve soup_get_text locate
             (fun fs0 => portfolios fs0 = portfolios fs)).
    + intros name data fs0. apply open_write_config.
    + reflexivity.
    + intros fs' Hmade. now apply makedirs_staging_Ok in Hmade as (_ & Hp & _).
  - intros p name Hfile.
    apply (download_keeps_fs serve soup_get_text locate (dest_file p name)).
    + intros name' data fs0. apply open_write_dest_file.
    + exact Hfile.
    + intros fs' Hmade. apply makedirs_staging_Ok in Hmade as (_ & _ & Hd & _).
      unfold dest_file. now rewrite Hd.
  - intros Hloc.
    apply (download_keeps_fs serve soup_get_text locate (fun fs0 => dests fs0 = dests fs)).
    + intros name data fs0. apply open_write_dests. now apply target_not_dest.
    + reflexivity.
    + intros fs' Hmade. now apply makedirs_staging_Ok in Hmade as (_ & _ & Hd & _).
  - intros name Hname.
    apply (download_keeps_fs serve soup_get_text locate (fun fs0 => staged_file fs0 name)).
    + intros name' data fs0. apply open_write_keeps_file.
    + exact Hname.
    + intros fs' Hmade. apply makedirs_staging_Ok in Hmade as (_ & _ & _ & Hk).
      now apply Hk.
  - intros result st Hrun.
    apply (download_Ok_dir serve soup_get_text locate) in Hrun as [entries Hst].
    unfold os_listdir. rewrite Hst. now eexists.
Qed.

Lemma fetch_removes_no_file_witness :
  dest_file "/portfolios/fahes" "old.pdf" absolute_fs
  /\ dest_file "/portfolios/fahes" "old.pdf" (st_fs (snd absolute_run))
  /\ dict_get (dests (st_fs (snd absolute_run))) "/portfolios/fahes"
     = Some [("old.pdf", pdf_bytes)].
Proof.
  assert (Hfile : dest_file "/portfolios/fahes" "old.pdf" absolute_fs).
  { exists [("old.pdf", [Byte.x4f])], [Byte.x4f]. split; reflexivity. }
  split; [exact Hfile|]. split; [|vm_compute; reflexivity].
  exact (proj1 (proj2 (fetch_removes_no_file unit absolute_server plain_text posix_locate 5
                         "tok" "2023-06-01" "00:00:00" absolute_fs tt))
           "/portfolios/fahes" "old.pdf" Hfile).
Defined.

(* ===================================================================== *)
(** ** The requests that the fetch sends *)
(* ===================================================================== *)

Section FetcherRequests.
Context {server_state : Type}.
Variable serve : server_state -> request -> reply * server_state.
Variable soup_get_text : string -> string.
Variable locate : string -> filesystem -> target.
Variable tok : string.
Implicit Types (st : fetch_state server_state).

Ltac quiet :=
  let st := fresh "st" in
  let H := fresh "H" in
  intros st H;
  unfold set_url, raise_for_status, response_json, response_content, write_staged,
         set_mail, set_attachments, modify;
  repeat match goal with
    | |- context [match ?x with _ => _ end] => destruct x
    end;
  exact H.

Lemma set_url_token u : preserves (sent_with_token tok) (@set_url server_state u).
Proof. quiet. Qed.

Lemma raise_for_status_token : preserves (sent_with_token tok) (@raise_for_status server_state).
Proof. quiet. Qed.

Lemma response_json_token : preserves (sent_with_token tok) (@response_json server_state).
Proof. quiet. Qed.

Lemma response_content_token :
  preserves (sent_with_token tok) (@response_content server_state).
Proof. quiet. Qed.

Lemma write_staged_token name data :
  preserves (sent_with_token tok) (@write_staged server_state locate name data).
Proof. quiet. Qed.

Lemma set_mail_token email_id m :
  preserves (sent_with_token tok) (@set_mail server_state email_id m).
Proof. quiet. Qed.

Lemma set_attachments_token email_id attachments :
  preserves (sent_with_token tok) (@set_attachments server_state email_id attachments).
Proof. quiet. Qed.

Lemma set_headers_token :
  preserves (sent_with_token tok) (@set_headers server_state "application/octet-stream").
Proof. intros st [_ H]. split; [now right | exact H]. Qed.

Lemma requests_get_token params :
  preserves (sent_with_token tok) (requests_get serve tok params).
Proof.
  intros st [Hh H]. unfold requests_get.
  destruct (serve _ _) as [[|a] net']; cbn; (split; [exact Hh|]);
    (apply Forall_app; split; [exact H|]);
    (constructor; [split; [reflexivity | exact Hh] | constructor]).
Qed.

Ltac token_step :=
  first [ apply set_url_token | apply raise_for_status_token | apply response_json_token
        | apply response_content_token | apply write_staged_token | apply set_mail_token
        | apply set_attachments_token | apply set_headers_token
        | apply requests_get_token ].

Lemma download_attachments_token email_id attachments items :
  preserves (sent_with_token tok)
            (download_attachments serve locate tok email_id attachments items).
Proof.
  revert attachments. induction items as [|item items IH]; intros attachments;
    cbn [download_attachments].
  - apply preserves_ret.
  - apply preserves_bind; [|intros a; apply IH].
    unfold download_attachment. walk_keeps token_step.
Qed.

Lemma process_message_token message :
  preserves (sent_with_token tok) (process_message serve soup_get_text locate tok message).
Proof.
  unfold process_message.
  walk_keeps ltac:(first [ apply download_attachments_token | token_step ]).
Qed.

Lemma fetch_pages_token fuel params :
  preserves (sent_with_token tok) (fetch_pages serve soup_get_text locate fuel tok params).
Proof.
  induction fuel as [|fuel IH]; cbn [fetch_pages].
  - apply preserves_raise.
  - walk_keeps
      ltac:(first [ exact IH
                  | apply preserves_for_each; intros ?; apply process_message_token
                  | token_step ]).
Qed.
End FetcherRequests.

(** X6: every request that the fetch sends, to whatever URL and however
    the run ends, carries the access token the function was given, and as
    content type either [application/json] or, from the first download of
    a PDF on, [application/octet-stream]. *)
Theorem every_request_carries_the_token :
  forall (server_state : Type)
         (serve : server_state -> request -> reply * server_state)
         (soup_get_text : string -> string)
         (locate : string -> filesystem -> target)
         (fuel : nat) (tok start_date start_time : string)
         (fs : filesystem) (net : server_state),
    Forall (fun x => req_token (ex_request x) = tok
                     /\ (req_content_type (ex_request x) = "application/json"
                         \/ req_content_type (ex_request x) = "application/octet-stream"))
           (st_trace (snd (download_office365_attachments serve soup_get_text locate fuel tok
                             start_date start_time fs net))).
Proof.
  intros server_state serve soup_get_text locate fuel tok start_date start_time fs net.
  assert (Hinit : forall fs', sent_with_token tok (@initial_state server_state fs' net))
    by (intros fs'; split; [now left | constructor]).
  unfold download_office365_attachments.
  destruct (makedirs_staging fs) as [fs'|e]; [|apply Hinit].
  pose proof (fetch_pages_token serve soup_get_text locate tok fuel
                (Some (filter_param start_date start_time, 100%Z))
                (initial_state fs' net) (Hinit fs')) as [_ H].
  destruct (fetch_pages _ _ _ _ _ _) as [[[]|e] st]; cbn [snd] in *; [exact H|].
  destruct e; exact H.
Qed.

(* ===================================================================== *)
(** ** Files that no rule matches *)
(* ===================================================================== *)

Lemma classify_unmatched mail_dict attachment key m text btext :
  dict_get mail_dict key = Some m -> subject m = JStr text -> body m = JStr btext ->
  first_subject_key text = None -> first_body_key btext = None ->
  dict_mem DocName_filter (fst (splitext attachment)) = false ->
  forall fs, classify_for_key mail_dict attachment key fs = move_unclassified attachment fs.
Proof.
  intros Hm Hs Hb Hsub Hbody Hdoc fs.
  rewrite (classify_by_tier _ _ _ m text btext Hm Hs Hb).
  unfold decide_tier. now rewrite Hsub, Hbody, Hdoc.
Qed.

(** X7: a staged entry whose only owner has a subject and a body that no
    rule matches, and whose stem is not a key of the filename-stem table,
    is moved into the [Unclassified] folder of the staging directory (made
    if it is not there): the staging directory no longer lists it, the
    folder holds it unchanged, and no destination and no configuration is
    read or written. *)
Theorem unmatched_file_moves_to_unclassified :
  forall (mail_dict : list (string * mail_info))
         (attachment_dict : list (string * list string))
         (attachment key : string) (m : mail_info) (text btext : string)
         (fs : filesystem) (entries : list (string * node)) (n : node),
    matching_keys attachment attachment_dict = [key] ->
    dict_get mail_dict key = Some m ->
    subject m = JStr text -> body m = JStr btext ->
    first_subject_key text = None -> first_body_key btext = None ->
    dict_mem DocName_filter (fst (splitext attachment)) = false ->
    staging fs = Directory entries ->
    dict_get entries attachment = Some n ->
    attachment <> "Unclassified" ->
    unclassified_free attachment entries ->
    exists fs',
      classify_attachment mail_dict attachment_dict attachment fs = (Ok tt, fs')
      /\ not_staged fs' attachment
      /\ in_unclassified attachment n fs'
      /\ portfolios fs' = portfolios fs
      /\ dests fs' = dests fs.
Proof.
  intros mail_dict attachment_dict attachment key m text btext fs entries n
         Hkeys Hm Hs Hb Hsub Hbody Hdoc Hst Hn Hne Hfree.
  unfold classify_attachment. rewrite Hkeys. cbn [for_each]. rewrite bind_ret_tt.
  rewrite (classify_unmatched _ _ _ m text btext Hm Hs Hb Hsub Hbody Hdoc).
  unfold move_unclassified, bind, makedirs_unclassified, shutil_move_unclassified.
  rewrite Hst. unfold unclassified_free in Hfree.
  destruct (dict_get entries "Unclassified") as [[c|children]|] eqn:Hu; [contradiction| |].
  - rewrite Hst, Hu.
    destruct (String.eqb_spec attachment "Unclassified"); [contradiction|].
    unfold dict_mem. rewrite Hfree, Hn.
    eexists. split; [reflexivity|]. split; [|split; [|now split]].
    + eexists. split; [reflexivity|].
      rewrite dict_get_set_other by congruence. apply dict_get_del_same.
    + eexists _, _. split; [reflexivity|].
      split; [apply dict_get_set_same | apply dict_get_set_same].
  - cbn. rewrite dict_get_set_same.
    destruct (String.eqb_spec attachment "Unclassified"); [contradiction|].
    cbn. rewrite dict_get_set_other by congruence. rewrite Hn.
    eexists. split; [reflexivity|]. split; [|split; [|now split]].
    + eexists. split; [reflexivity|].
      rewrite dict_get_set_other by congruence. apply dict_get_del_same.
    + eexists _, _. split; [reflexivity|].
      split; [apply dict_get_set_same | cbn; now rewrite String.eqb_refl].
Qed.

Lemma unmatched_file_moves_to_unclassified_witness :
  exists fs',
    classify_attachment unmatched_mail_dict unmatched_attachment_dict "notes.pdf"
      unmatched_fs = (Ok tt, fs')
    /\ not_staged fs' "notes.pdf"
    /\ in_unclassified "notes.pdf" (File [Byte.x25]) fs'
    /\ portfolios fs' = portfolios unmatched_fs
    /\ dests fs' = dests unmatched_fs.
Proof.
  apply (unmatched_file_moves_to_unclassified unmatched_mail_dict unmatched_attachment_dict
           "notes.pdf" "m1"
           (mkMail (JStr "x@example.com") (JStr "2023-06-01T10:00:00Z")
              (JStr "hello") (JStr "nothing to match"))
           "hello" "nothing to match" unmatched_fs
           [("notes.pdf", File [Byte.x25])] (File [Byte.x25]));
    try reflexivity; try discriminate; try exact I.
Defined.

(** X8: when the [Unclassified] folder already has an entry of the name
    of such a file (as after an earlier run), the move is refused: the
    turn raises and the file system is left exactly as it was, the file
    still in the staging directory. *)
Theorem unmatched_file_name_clash_raises :
  forall (mail_dict : list (string * mail_info))
         (attachment_dict : list (string * list string))
         (attachment key : string) (m : mail_info) (text btext : string)
         (fs : filesystem) (entries children : list (string * node)) (n : node)
         (rest : list string),
    matching_keys attachment attachment_dict = key :: rest ->
    dict_get mail_dict key = Some m ->
    subject m = JStr text -> body m = JStr btext ->
    first_subject_key text = None -> first_body_key btext = None ->
    dict_mem DocName_filter (fst (splitext attachment)) = false ->
    staging fs = Directory entries ->
    attachment <> "Unclassified" ->
    dict_get entries "Unclassified" = Some (Dir children) ->
    dict_get children attachment = Some n ->
    classify_attachment mail_dict attachment_dict attachment fs = (Raise ShutilError, fs).
Proof.
  intros mail_dict attachment_dict attachment key m text btext fs entries children n rest
         Hkeys Hm Hs Hb Hsub Hbody Hdoc Hst Hne Hu Hn.
  unfold classify_attachment. rewrite Hkeys. cbn [for_each]. unfold bind at 1.
  rewrite (classify_unmatched _ _ _ m text btext Hm Hs Hb Hsub Hbody Hdoc).
  unfold move_unclassified, bind, makedirs_unclassified, shutil_move_unclassified.
  rewrite Hst, Hu, Hst, Hu.
  destruct (String.eqb_spec attachment "Unclassified"); [contradiction|].
  unfold dict_mem. now rewrite Hn.
Qed.

Lemma unmatched_file_name_clash_raises_witness :
  classify_attachment unmatched_mail_dict unmatched_attachment_dict "notes.pdf"
    unmatched_fs_again = (Raise ShutilError, unmatched_fs_again).
Proof.
  apply (unmatched_file_name_clash_raises unmatched_mail_dict unmatched_attachment_dict
           "notes.pdf" "m1"
           (mkMail (JStr "x@example.com") (JStr "2023-06-01T10:00:00Z")
              (JStr "hello") (JStr "nothing to match"))
           "hello" "nothing to match" unmatched_fs_again
           [("notes.pdf", File [Byte.x25]);
            ("Unclassified", Dir [("notes.pdf", File [Byte.x26])])]
           [("notes.pdf", File [Byte.x26])] (File [Byte.x26]) []);
    try reflexivity; try discriminate.
Defined.

(* ===================================================================== *)
(** ** No staged file is lost *)
(* ===================================================================== *)

Section Kept.
Variables (attachment : string) (c : bytes).
Let K := kept_somewhere attachment c.

Lemma os_listdir_kept : preserves K os_listdir.
Proof.
  intros fs H. unfold os_listdir. destruct (staging fs); exact H.
Qed.

Lemma load_portfolios_kept : preserves K load_portfolios.
Proof.
  intros fs H. unfold load_portfolios. destruct (portfolios fs); exact H.
Qed.

Lemma makedirs_dest_kept destination_path : preserves K (makedirs_dest destination_path).
Proof.
  intros fs H. unfold makedirs_dest.
  destruct destination_path as [| | |p| |]; try exact H.
  destruct (String.eqb p ""); [exact H|].
  unfold dict_mem. destruct (dict_get (dests fs) p) eqn:Hp; [exact H|]. cbn.
  destruct H as [(es & Hst & Hget)|(Hroot & Hin)].
  - left. now exists es.
  - right. split; [exact Hroot|].
    destruct Hin as [(p' & files & Hp' & Hf)|Hu]; [left | now right].
    exists p', files. split; [|exact Hf]. cbn.
    rewrite dict_get_set_other; [exact Hp' | congruence].
Qed.

(** The copy of another file leaves this one where it is. *)
Lemma shutil_copy_other_kept other p :
  other <> attachment -> preserves K (shutil_copy other p).
Proof.
  intros Hne fs H. unfold shutil_copy.
  destruct (staging fs) as [| |es] eqn:Hst; try exact H.
  destruct (dict_get es other) as [[content|sub]|]; try exact H.
  destruct (dict_get (dests fs) p) as [files|] eqn:Hp; [|exact H]. cbn.
  destruct H as [(es' & Hst' & Hget)|(Hroot & Hin)].
  - left. now exists es'.
  - right. split; [exact Hroot|].
    destruct Hin as [(p' & files' & Hp' & Hf)|Hu]; [left | now right].
    destruct (String.eqb_spec p p') as [<-|Hpp].
    + exists p, (dict_set files other content). cbn. rewrite dict_get_set_same.
      split; [reflexivity|]. rewrite dict_get_set_other by exact Hne. congruence.
    + exists p', files'. cbn. now rewrite dict_get_set_other.
Qed.

Lemma os_remove_other_kept other :
  other <> attachment -> preserves K (os_remove other).
Proof.
  intros Hne fs H. unfold os_remove.
  destruct (staging fs) as [| |es] eqn:Hst; try exact H.
  destruct (dict_get es other) as [[content|sub]|] eqn:Ho; try exact H. cbn.
  destruct H as [(es' & Hst' & Hget)|(Hroot & Hin)].
  - left. rewrite Hst in Hst'. injection Hst' as <-.
    eexists. split; [reflexivity|]. now rewrite dict_get_del_other.
  - right. split.
    + intros es' c' [= <-]. rewrite dict_get_del_other by exact Hne. now apply Hroot.
    + destruct Hin as [Hd|(es' & ch & Hes & Hu & Hc)]; [now left | right].
      rewrite Hst in Hes. injection Hes as <-.
      eexists _, ch. split; [reflexivity|]. split; [|exact Hc].
      rewrite dict_get_del_other; [exact Hu | congruence].
Qed.

(** The copy of this file and the removal that follows: the file leaves
    the staging directory only after its content is in the destination. *)
Lemma copy_then_remove_kept p :
  preserves K (shutil_copy attachment p ;; os_remove attachment).
Proof.
  intros fs H. unfold bind, shutil_copy.
  destruct (staging fs) as [| |es] eqn:Hst; try exact H.
  destruct (dict_get es attachment) as [[content|sub]|] eqn:Ha; try exact H.
  destruct (dict_get (dests fs) p) as [files|] eqn:Hp; [|exact H].
  unfold os_remove. cbn. rewrite Hst, Ha. cbn.
  destruct H as [(es' & Hst' & Hget)|(Hroot & _)].
  - rewrite Hst in Hst'. injection Hst' as <-. rewrite Ha in Hget. injection Hget as ->.
    right. split.
    + intros es' c' [= <-]. rewrite dict_get_del_same. discriminate.
    + left. exists p, (dict_set files attachment c). cbn.
      now rewrite !dict_get_set_same.
  - exfalso. now apply (Hroot es content).
Qed.

Lemma makedirs_unclassified_kept : preserves K makedirs_unclassified.
Proof.
  intros fs H. unfold makedirs_unclassified.
  destruct (staging fs) as [| |es] eqn:Hst; try exact H.
  destruct (dict_get es "Unclassified") as [[content|sub]|] eqn:Hu; try exact H. cbn.
  destruct H as [(es' & Hst' & Hget)|(Hroot & Hin)].
  - left. rewrite Hst in Hst'. injection Hst' as <-.
    eexists. split; [reflexivity|]. rewrite dict_get_set_other; [exact Hget | congruence].
  - right. split.
    + intros es' c' [= <-].
      destruct (String.eqb_spec "Unclassified" attachment) as [<-|Hne].
      * rewrite dict_get_set_same. discriminate.
      * rewrite dict_get_set_other by exact Hne. now apply Hroot.
    + destruct Hin as [Hd|(es' & ch & Hes & Hu' & Hc)]; [now left | congruence].
Qed.

Lemma shutil_move_unclassified_kept other :
  preserves K (shutil_move_unclassified other).
Proof.
  intros fs H. unfold shutil_move_unclassified.
  destruct (staging fs) as [| |es] eqn:Hst; try exact H.
  destruct (dict_get es "Unclassified") as [[content|children]|] eqn:Hu; try exact H.
  destruct (String.eqb_spec other "Unclassified") as [->|Hou]; [exact H|].
  unfold dict_mem. destruct (dict_get children other) as [old|] eqn:Hold; [exact H|].
  destruct (dict_get es other) as [n|] eqn:Ho; [|exact H]. cbn.
  assert (Hroot' : forall name, name <> other -> name <> "Unclassified" ->
            dict_get (dict_set (dict_del es other) "Unclassified"
                        (Dir (dict_set children other n))) name = dict_get es name).
  { intros name H1 H2. rewrite dict_get_set_other by congruence.
    apply dict_get_del_other. congruence. }
  destruct (String.eqb_spec other attachment) as [->|Hne].
  - (* the file itself is moved *)
    right. destruct H as [(es' & Hst' & Hget)|(Hroot & Hin)].
    + rewrite Hst in Hst'. injection Hst' as <-. rewrite Ho in Hget. injection Hget as ->.
      split.
      * intros es' c' [= <-]. rewrite dict_get_set_other by congruence.
        rewrite dict_get_del_same. discriminate.
      * right. eexists _, _. split; [reflexivity|].
        split; apply dict_get_set_same.
    + split.
      * intros es' c' [= <-]. rewrite dict_get_set_other by congruence.
        rewrite dict_get_del_same. discriminate.
      * destruct Hin as [Hd|(es' & ch & Hes & Hu' & Hc)]; [now left|].
        rewrite Hst in Hes. injection Hes as <-. rewrite Hu in Hu'. injection Hu' as <-.
        congruence.
  - (* another entry is moved *)
    destruct H as [(es' & Hst' & Hget)|(Hroot & Hin)].
    + left. rewrite Hst in Hst'. injection Hst' as <-.
      eexists. split; [reflexivity|]. rewrite Hroot'; [exact Hget | congruence | congruence].
    + right. split.
      * intros es' c' [= <-].
        destruct (String.eqb_spec attachment "Unclassified") as [->|Hau].
        -- rewrite dict_get_set_same. discriminate.
        -- rewrite Hroot' by congruence. now apply Hroot.
      * destruct Hin as [Hd|(es' & ch & Hes & Hu' & Hc)]; [now left | right].
        rewrite Hst in Hes. injection Hes as <-. rewrite Hu in Hu'. injection Hu' as <-.
        eexists _, _. split; [reflexivity|]. split; [apply dict_get_set_same|].
        now rewrite dict_get_set_other.
Qed.

Lemma route_kept table k other : preserves K (route table k other).
Proof.
  unfold route.
  apply preserves_bind; [apply load_portfolios_kept | intros data].
  apply preserves_bind; [apply preserves_lift | intros label].
  apply preserves_bind; [apply preserves_lift | intros destination_path].
  apply preserves_bind; [apply makedirs_dest_kept | intros p].
  destruct (String.eqb_spec other attachment) as [->|Hne].
  - apply copy_then_remove_kept.
  - apply preserves_bind; [now apply shutil_copy_other_kept | intros _].
    now apply os_remove_other_kept.
Qed.

Lemma move_unclassified_kept other : preserves K (move_unclassified other).
Proof.
  unfold move_unclassified.
  apply preserves_bind; [apply makedirs_unclassified_kept | intros _].
  apply shutil_move_unclassified_kept.
Qed.

Lemma classify_for_key_kept mail_dict other key :
  preserves K (classify_for_key mail_dict other key).
Proof.
  unfold classify_for_key.
  apply preserves_bind; [apply preserves_lift | intros sub].
  destruct (truthy sub); [apply route_kept|].
  apply preserves_bind; [apply preserves_lift | intros tc].
  destruct (truthy tc); [apply route_kept|].
  destruct (dict_mem DocName_filter _); [apply route_kept | apply move_unclassified_kept].
Qed.

Lemma remove_if_empty_kept : preserves K remove_if_empty.
Proof.
  intros fs H. unfold remove_if_empty, bind, os_listdir, os_rmdir.
  destruct (staging fs) as [| |es] eqn:Hst; try exact H.
  destruct es as [|[name n] rest]; cbn; [|exact H]. rewrite Hst. cbn.
  destruct H as [(es' & Hst' & Hget)|(Hroot & Hin)].
  - rewrite Hst in Hst'. injection Hst' as <-. discriminate.
  - right. split; [intros es' c' Hes'; discriminate|].
    destruct Hin as [Hd|(es' & ch & Hes & Hu & _)]; [now left|].
    rewrite Hst in Hes. injection Hes as <-. discriminate.
Qed.

Lemma filter_kept mail_dict attachment_dict :
  preserves K (filter_office365_attachments mail_dict attachment_dict).
Proof.
  unfold filter_office365_attachments, classify_all.
  apply preserves_bind; [|intros _; apply remove_if_empty_kept].
  apply preserves_bind; [apply os_listdir_kept | intros names].
  apply preserves_for_each. intros other. unfold classify_attachment.
  apply preserves_for_each. intros key. apply classify_for_key_kept.
Qed.
End Kept.

(** X9: the classification loses no file.  Whatever the two dictionaries
    and the configuration are, and whether the classification ends
    normally or with an exception, every regular file that was in the
    staging directory when it started is, with its content, still in the
    staging directory, or in a destination directory, or in the
    [Unclassified] folder. *)
Theorem classification_loses_no_file :
  forall (mail_dict : list (string * mail_info))
         (attachment_dict : list (string * list string))
         (fs : filesystem) (attachment : string) (c : bytes),
    staged_as attachment c fs ->
    kept_somewhere attachment c
      (snd (filter_office365_attachments mail_dict attachment_dict fs)).
Proof.
  intros mail_dict attachment_dict fs attachment c H.
  apply filter_kept. now left.
Qed.

Lemma classification_loses_no_file_witness :
  staged_as "a.pdf" [Byte.x25] collision_fs
  /\ fst (filter_office365_attachments collision_mail_dict collision_attachment_dict
            collision_fs) = Raise FileNotFoundError
  /\ kept_somewhere "a.pdf" [Byte.x25]
       (snd (filter_office365_attachments collision_mail_dict collision_attachment_dict
               collision_fs)).
Proof.
  assert (H : staged_as "a.pdf" [Byte.x25] collision_fs) by (eexists; split; reflexivity).
  split; [exact H|]. split; [vm_compute; reflexivity|].
  exact (classification_loses_no_file collision_mail_dict collision_attachment_dict
           collision_fs "a.pdf" [Byte.x25] H).
Defined.

(* ===================================================================== *)
(** ** A label that the configuration does not resolve *)
(* ===================================================================== *)

Lemma route_unresolved table k label attachment fs :
  dict_get table k = Some label ->
  resolved_path fs label = None ->
  exists e, route table k attachment fs = (Raise e, fs).
Proof.
  intros Hk Hres. unfold resolved_path in Hres.
  unfold route, bind, load_portfolios, lift, table_item, makedirs_dest. rewrite Hk.
  destruct (portfolios fs) as [| |data]; [now eexists | now eexists |].
  destruct (getitem data label) as [[| | |p| |]|e]; try now eexists.
  destruct (String.eqb p ""); [now eexists | discriminate].
Qed.

(** X10: once a tier has matched, a label that the configuration does not
    resolve to a directory (no configuration file, an unreadable one, no
    entry for the label, an entry that is not a non-empty string) is
    fatal: the turn raises, nothing falls back to [Unclassified], and the
    file system is exactly as it was. *)
Theorem unresolved_label_is_fatal :
  forall (mail_dict : list (string * mail_info)) (attachment key : string)
         (m : mail_info) (text btext label : string) (fs : filesystem),
    dict_get mail_dict key = Some m ->
    subject m = JStr text -> body m = JStr btext ->
    tier_label (decide_tier text btext attachment) = Some label ->
    resolved_path fs label = None ->
    exists e, classify_for_key mail_dict attachment key fs = (Raise e, fs).
Proof.
  intros mail_dict attachment key m text btext label fs Hm Hs Hb Hlabel Hres.
  rewrite (classify_by_tier _ _ _ m text btext Hm Hs Hb).
  destruct (decide_tier text btext attachment) as [k|t|doc|]; cbn in Hlabel;
    [| | |discriminate]; cbn [act]; now apply (route_unresolved _ _ label).
Qed.

Lemma unresolved_label_is_fatal_witness :
  classify_for_key precedence_mail_dict "stmt.pdf" "m1" precedence_fs_no_config
    = (Raise FileNotFoundError, precedence_fs_no_config)
  /\ exists e, classify_for_key precedence_mail_dict "stmt.pdf" "m1" precedence_fs_no_config
               = (Raise e, precedence_fs_no_config).
Proof.
  split; [vm_compute; reflexivity|].
  apply (unresolved_label_is_fatal precedence_mail_dict "stmt.pdf" "m1" precedence_mail
           "FW: [Not Virus Scanned] WOQOD - Fahes - Account Statement & Portfolio"
           "OQIC statement for May" "Fahes" precedence_fs_no_config); reflexivity.
Defined.

(* ===================================================================== *)
(** ** A run that fetches nothing *)
(* ===================================================================== *)

(** X11: started without a staging directory, a run of [main] whose first
    request fails, or whose first page lists no message and carries no
    cursor, ends normally and leaves the file system as it found it: the
    staging directory that the fetch made is removed again by the
    classification. *)
Theorem empty_run_leaves_no_trace :
  forall (server_state : Type)
         (serve : server_state -> request -> reply * server_state)
         (soup_get_text : string -> string)
         (locate : string -> filesystem -> target)
         (fuel : nat) (tok start_date start_time : string)
         (fs : filesystem) (net : server_state),
    staging fs = NoEntry ->
    (let first := fst (serve net (mkReq messages_url tok "application/json"
                                    (Some (filter_param start_date start_time, 100%Z)))) in
     reply_failed first = true
     \/ exists a fields,
          first = Answer a /\ status_ok a = true /\ json_body a = Some (JObj fields)
          /\ dict_get fields "value" = Some (JArr [])
          /\ dict_get fields "@odata.nextLink" = None) ->
    main serve soup_get_text locate (S fuel) tok start_date start_time fs net = (Ok tt, fs).
Proof.
  intros server_state serve soup_get_text locate fuel tok start_date start_time
         [s p d] net Hst Hfirst. cbn in Hst. subst s.
  unfold main, download_office365_attachments, makedirs_staging. cbn [staging set_staging].
  cbn [fetch_pages]. unfold bind at 1. unfold requests_get. cbv zeta.
  cbn [initial_state st_url st_headers st_net st_mail_dict st_attachment_dict st_response
       st_fs st_trace st_processed portfolios dests].
  destruct (serve net _) as [[|[ok body' content']] net'] eqn:Hserve; cbn [fst] in Hfirst.
  - reflexivity.
  - destruct Hfirst as [Hfail|(a' & fields & [= <-] & Hok & Hbody & Hvalue & Hnext)].
    + cbn in Hfail. apply negb_true_iff in Hfail. subst ok. reflexivity.
    + cbn in Hok, Hbody. subst ok body'.
      cbv -[dict_get filter_param messages_url]. rewrite Hvalue.
      cbv -[dict_get filter_param messages_url]. rewrite Hnext. reflexivity.
Qed.

Lemma empty_run_leaves_no_trace_witness :
  main dead_server plain_text posix_locate 1 "tok" "2023-06-01" "00:00:00" empty_fs tt = (Ok tt, empty_fs)
  /\ main empty_mailbox_server plain_text posix_locate 1 "tok" "2023-06-01" "00:00:00" empty_fs tt
     = (Ok tt, empty_fs).
Proof.
  split.
  - apply (empty_run_leaves_no_trace unit dead_server plain_text posix_locate 0 "tok" "2023-06-01"
             "00:00:00" empty_fs tt); [reflexivity | left; reflexivity].
  - apply (empty_run_leaves_no_trace unit empty_mailbox_server plain_text posix_locate 0 "tok"
             "2023-06-01" "00:00:00" empty_fs tt); [reflexivity | right].
    exists (mkResp true (Some (JObj [("value", JArr [])])) []), [("value", JArr [])].
    repeat split; reflexivity.
Defined.

(* ===================================================================== *)
(** ** The text that [extract_text_from_html] returns *)
(* ===================================================================== *)

Lemma space2_not_ascii c1 c2 : is_space2 c1 c2 = true -> is_ascii_space c1 = false.
Proof.
  unfold is_space2, is_ascii_space. intros H.
  apply andb_true_iff in H. destruct H as [H _].
  apply Nat.eqb_eq in H. rewrite H. reflexivity.
Qed.

Lemma space3_lead c1 c2 c3 :
  is_space3 c1 c2 c3 = true ->
  is_ascii_space c1 = false /\ forall c, is_space2 c1 c = false.
Proof.
  unfold is_space3, is_space2, is_ascii_space. intros H.
  assert (Hc : nat_of_ascii c1 = 225 \/ nat_of_ascii c1 = 226 \/ nat_of_ascii c1 = 227).
  { repeat (apply orb_true_iff in H; destruct H as [H|H]);
      repeat (apply andb_true_iff in H; destruct H as [H ?]);
      apply Nat.eqb_eq in H; auto. }
  destruct Hc as [-> | [-> | ->]]; split; reflexivity.
Qed.

(** One step of [lstrip]: the text starts with a whitespace character,
    which is dropped, or it is returned as it is. *)
Lemma lstrip_cases s :
  (lstrip s = s /\ forall w rest, is_space_char w = true -> s <> w ++ rest)
  \/ (exists w rest, is_space_char w = true /\ s = w ++ rest /\ lstrip s = lstrip rest).
Proof.
  destruct s as [|c1 s1]; cbn [lstrip].
  - left. split; [reflexivity|]. intros w rest Hw H.
    destruct w as [|a w]; cbn in *; discriminate.
  - destruct (is_ascii_space c1) eqn:E1.
    { right. exists (String c1 ""), s1. repeat split; assumption. }
    destruct s1 as [|c2 s2].
    { left. split; [reflexivity|]. intros w rest Hw H.
      destruct w as [|a [|b w]]; cbn in Hw, H; try discriminate.
      injection H as <- _. congruence. }
    destruct (is_space2 c1 c2) eqn:E2.
    { right. exists (String c1 (String c2 "")), s2. repeat split; assumption. }
    destruct s2 as [|c3 s3].
    { left. split; [reflexivity|]. intros w rest Hw H.
      destruct w as [|a [|b [|d w]]]; cbn in Hw, H; try discriminate.
      - injection H as <- _. congruence.
      - injection H as <- <- _. congruence. }
    destruct (is_space3 c1 c2 c3) eqn:E3.
    { right. exists (String c1 (String c2 (String c3 ""))), s3. repeat split; assumption. }
    left. split; [reflexivity|]. intros w rest Hw H.
    destruct w as [|a [|b [|d [|e w]]]]; cbn in Hw, H; try discriminate.
    + injection H as <- _. congruence.
    + injection H as <- <- _. congruence.
    + injection H as <- <- <- _. congruence.
Qed.

Lemma space_char_length w : is_space_char w = true -> 0 < String.length w.
Proof. destruct w; cbn; [discriminate | lia]. Qed.

Lemma str_length_app (a b : string) : String.length (a ++ b) = String.length a + String.length b.
Proof. induction a as [|c a IH]; cbn; [reflexivity | now rewrite IH]. Qed.

Lemma str_app_assoc (a b c : string) : (a ++ b) ++ c = a ++ (b ++ c).
Proof. induction a as [|x a IH]; cbn; [reflexivity | now rewrite IH]. Qed.

Lemma str_app_empty_r (a : string) : a ++ "" = a.
Proof. induction a as [|x a IH]; cbn; [reflexivity | now rewrite IH]. Qed.

(** Dropping a whitespace character from the front does not change what
    [lstrip] returns. *)
Lemma lstrip_space w rest : is_space_char w = true -> lstrip (w ++ rest) = lstrip rest.
Proof.
  intros Hw. destruct w as [|a [|b [|d [|e w]]]]; cbn in Hw; try discriminate; cbn [append lstrip].
  - now rewrite Hw.
  - now rewrite (space2_not_ascii _ _ Hw), Hw.
  - destruct (space3_lead _ _ _ Hw) as [H1 H2]. now rewrite H1, H2, Hw.
Qed.

(** What [lstrip] returns is the text without a front made of whitespace
    characters, and it does not start with one. *)
Lemma lstrip_spec s :
  (exists front, s = front ++ lstrip s /\ all_space front = true)
  /\ forall w rest, is_space_char w = true -> lstrip s <> w ++ rest.
Proof.
  remember (String.length s) as n eqn:Hn. revert s Hn.
  induction n as [n IH] using lt_wf_ind. intros s Hn.
  destruct (lstrip_cases s) as [[Hfix Hno] | (w & rest & Hw & -> & Hstep)].
  - rewrite Hfix. split; [exists ""; split; reflexivity | exact Hno].
  - rewrite Hstep.
    destruct (IH (String.length rest)) with (s := rest) as [(front & Hf & Ha) Hno];
      [rewrite Hn, str_length_app; pose proof (space_char_length _ Hw); lia | reflexivity |].
    split; [|exact Hno].
    exists (w ++ front). split.
    + rewrite str_app_assoc. now rewrite <- Hf.
    + unfold all_space in *. now rewrite lstrip_space.
Qed.

Lemma lstrip_fixed s :
  (forall w rest, is_space_char w = true -> s <> w ++ rest) -> lstrip s = s.
Proof.
  intros Hno. destruct (lstrip_cases s) as [[Hfix _] | (w & rest & Hw & Hs & _)];
    [exact Hfix | now destruct (Hno w rest Hw)].
Qed.

Lemma all_space_app w t : is_space_char w = true -> all_space (w ++ t) = all_space t.
Proof. intros Hw. unfold all_space. now rewrite lstrip_space. Qed.

(** What [rstrip] cuts off is whitespace only. *)
Lemma rstrip_split s : exists t, s = rstrip s ++ t /\ all_space t = true.
Proof.
  induction s as [|c s (t & Hs & Ht)].
  - exists "". split; reflexivity.
  - cbn [rstrip]. destruct (all_space (String c s)) eqn:E.
    + exists (String c s). split; [reflexivity | exact E].
    + exists t. split; [cbn; now rewrite <- Hs | exact Ht].
Qed.

(** What [rstrip] returns does not end with a whitespace character. *)
Lemma rstrip_last s pre w : is_space_char w = true -> rstrip s <> pre ++ w.
Proof.
  intros Hw. revert pre. induction s as [|c s IH]; intros pre; cbn [rstrip].
  - intros H. destruct pre; [|discriminate]. cbn in H. subst w. discriminate.
  - destruct (all_space (String c s)) eqn:E.
    + intros H. destruct pre; [|discriminate]. cbn in H. subst w. discriminate.
    + destruct pre as [|b pre]; cbn [append].
      * intros H. destruct (rstrip_split s) as (t & Hs & Ht).
        assert (Hall : all_space (String c s) = true).
        { rewrite Hs. change (String c (rstrip s ++ t)) with (String c (rstrip s) ++ t).
          rewrite H. now rewrite all_space_app. }
        congruence.
      * intros [= _ H]. exact (IH pre H).
Qed.

(** A text made of whitespace only, unless empty, ends with a whitespace
    character. *)
Lemma all_space_last s :
  all_space s = true -> s <> "" -> exists pre w, is_space_char w = true /\ s = pre ++ w.
Proof.
  remember (String.length s) as n eqn:Hn. revert s Hn.
  induction n as [n IH] using lt_wf_ind. intros s Hn Hall Hne.
  destruct (lstrip_cases s) as [[Hfix _] | (w & rest & Hw & -> & Hstep)].
  - unfold all_space in Hall. rewrite Hfix in Hall.
    apply String.eqb_eq in Hall. contradiction.
  - destruct rest as [|r rest'].
    + exists "", w. split; [exact Hw | now rewrite str_app_empty_r].
    + destruct (IH (String.length (String r rest'))) with (s := String r rest')
        as (pre & w' & Hw' & Hr);
        [rewrite Hn, str_length_app; pose proof (space_char_length _ Hw); lia
        | reflexivity | now rewrite all_space_app in Hall | discriminate |].
      exists (w ++ pre), w'. split; [exact Hw'|]. now rewrite Hr, str_app_assoc.
Qed.

Lemma rstrip_fixed s :
  (forall pre w, is_space_char w = true -> s <> pre ++ w) -> rstrip s = s.
Proof.
  induction s as [|c s IH]; intros Hno; [reflexivity|]. cbn [rstrip].
  destruct (all_space (String c s)) eqn:E.
  - destruct (all_space_last _ E) as (pre & w & Hw & Hs); [discriminate|].
    now destruct (Hno pre w Hw).
  - f_equal. apply IH. intros pre w Hw Hs. apply (Hno (String c pre) w Hw).
    cbn. now rewrite Hs.
Qed.

(** X12: whatever the markup parser yields, the text that
    [extract_text_from_html] returns neither begins nor ends with a
    whitespace character (one of the characters that [str.strip()]
    removes, ASCII or not), and stripping it again changes nothing. *)
Theorem extracted_text_is_stripped :
  forall (soup_get_text : string -> string) (html : string),
    (forall w rest, is_space_char w = true ->
                    extract_text_from_html soup_get_text html <> w ++ rest)
    /\ (forall pre w, is_space_char w = true ->
                      extract_text_from_html soup_get_text html <> pre ++ w)
    /\ strip (extract_text_from_html soup_get_text html)
       = extract_text_from_html soup_get_text html.
Proof.
  intros soup_get_text html. unfold extract_text_from_html, strip.
  set (t := lstrip (soup_get_text html)).
  assert (Hhead : forall w rest, is_space_char w = true -> rstrip t <> w ++ rest).
  { intros w rest Hw H. destruct (rstrip_split t) as (tail & Ht & _).
    rewrite H, str_app_assoc in Ht.
    exact (proj2 (lstrip_spec (soup_get_text html)) w (rest ++ tail) Hw Ht). }
  assert (Hlast : forall pre w, is_space_char w = true -> rstrip t <> pre ++ w).
  { intros pre w. apply rstrip_last. }
  split; [exact Hhead|]. split; [exact Hlast|].
  rewrite (lstrip_fixed _ Hhead). now apply rstrip_fixed.
Qed.

(* ===================================================================== *)
(** ** What the classification leaves alone *)
(* ===================================================================== *)

Section DestFrame.
Variables (p attachment : string) (c : bytes).
Let D := dest_holds p attachment c.

Lemma os_listdir_dest : preserves D os_listdir.
Proof. intros fs H. unfold os_listdir. destruct (staging fs); exact H. Qed.

Lemma load_portfolios_dest : preserves D load_portfolios.
Proof. intros fs H. unfold load_portfolios. destruct (portfolios fs); exact H. Qed.

Lemma makedirs_dest_dest destination_path : preserves D (makedirs_dest destination_path).
Proof.
  intros fs H. unfold makedirs_dest.
  destruct destination_path as [| | |p'| |]; try exact H.
  destruct (String.eqb p' ""); [exact H|].
  unfold dict_mem. destruct (dict_get (dests fs) p') eqn:Hp; [exact H|]. cbn.
  destruct H as (Hroot & files & Hf & Hc). split; [exact Hroot|].
  exists files. split; [|exact Hc]. cbn. rewrite dict_get_set_other; [exact Hf | congruence].
Qed.

Lemma shutil_copy_dest other p' : preserves D (shutil_copy other p').
Proof.
  intros fs H. unfold shutil_copy.
  destruct (staging fs) as [| |es] eqn:Hst; try exact H.
  destruct (dict_get es other) as [[content|sub]|] eqn:Ho; try exact H.
  destruct (dict_get (dests fs) p') as [files'|] eqn:Hp; [|exact H]. cbn.
  destruct H as (Hroot & files & Hf & Hc).
  assert (Hne : other <> attachment).
  { intros ->. now apply (Hroot es content). }
  split; [exact Hroot|].
  destruct (String.eqb_spec p' p) as [->|Hpp].
  - exists (dict_set files' other content). cbn. rewrite dict_get_set_same.
    split; [reflexivity|]. rewrite dict_get_set_other by exact Hne. congruence.
  - exists files. cbn. now rewrite dict_get_set_other.
Qed.

Lemma os_remove_dest other : preserves D (os_remove other).
Proof.
  intros fs H. unfold os_remove.
  destruct (staging fs) as [| |es] eqn:Hst; try exact H.
  destruct (dict_get es other) as [[content|sub]|] eqn:Ho; try exact H. cbn.
  destruct H as (Hroot & Hin). split; [|exact Hin].
  intros es' c' [= <-]. destruct (String.eqb_spec other attachment) as [->|Hne].
  - rewrite dict_get_del_same. discriminate.
  - rewrite dict_get_del_other by exact Hne. now apply Hroot.
Qed.

Lemma makedirs_unclassified_dest : preserves D makedirs_unclassified.
Proof.
  intros fs H. unfold makedirs_unclassified.
  destruct (staging fs) as [| |es] eqn:Hst; try exact H.
  destruct (dict_get es "Unclassified") as [[content|sub]|] eqn:Hu; try exact H. cbn.
  destruct H as (Hroot & Hin). split; [|exact Hin].
  intros es' c' [= <-]. destruct (String.eqb_spec "Unclassified" attachment) as [<-|Hne].
  - rewrite dict_get_set_same. discriminate.
  - rewrite dict_get_set_other by exact Hne. now apply Hroot.
Qed.

Lemma shutil_move_unclassified_dest other : preserves D (shutil_move_unclassified other).
Proof.
  intros fs H. unfold shutil_move_unclassified.
  destruct (staging fs) as [| |es] eqn:Hst; try exact H.
  destruct (dict_get es "Unclassified") as [[content|children]|] eqn:Hu; try exact H.
  destruct (String.eqb other "Unclassified"); [exact H|].
  destruct (dict_mem children other); [exact H|].
  destruct (dict_get es other) as [n|] eqn:Ho; [|exact H]. cbn.
  destruct H as (Hroot & Hin). split; [|exact Hin].
  intros es' c' [= <-]. destruct (String.eqb_spec "Unclassified" attachment) as [<-|Hau].
  - rewrite dict_get_set_same. discriminate.
  - rewrite dict_get_set_other by exact Hau.
    destruct (String.eqb_spec other attachment) as [->|Hne].
    + rewrite dict_get_del_same. discriminate.
    + rewrite dict_get_del_other by exact Hne. now apply Hroot.
Qed.

Lemma remove_if_empty_dest : preserves D remove_if_empty.
Proof.
  intros fs H. unfold remove_if_empty, bind, os_listdir, os_rmdir.
  destruct (staging fs) as [| |es] eqn:Hst; try exact H.
  destruct es as [|[name n] rest]; cbn; [|exact H]. rewrite Hst. cbn.
  destruct H as (_ & Hin). split; [|exact Hin]. intros es' c' Hes'. discriminate.
Qed.

Lemma filter_dest mail_dict attachment_dict :
  preserves D (filter_office365_attachments mail_dict attachment_dict).
Proof.
  unfold filter_office365_attachments, classify_all.
  apply preserves_bind; [|intros _; apply remove_if_empty_dest].
  apply preserves_bind; [apply os_listdir_dest | intros names].
  apply preserves_for_each. intros other. unfold classify_attachment.
  apply preserves_for_each. intros key. unfold classify_for_key, route, move_unclassified.
  walk_keeps ltac:(first [ apply load_portfolios_dest | apply makedirs_dest_dest
                         | apply shutil_copy_dest | apply os_remove_dest
                         | apply makedirs_unclassified_dest
                         | apply shutil_move_unclassified_dest ]).
Qed.
End DestFrame.

Lemma filter_keeps_portfolios mail_dict attachment_dict cfg :
  preserves (fun fs => portfolios fs = cfg)
            (filter_office365_attachments mail_dict attachment_dict).
Proof.
  assert (Hstep : forall A (m : M filesystem A),
            (forall fs, portfolios (snd (m fs)) = portfolios fs) ->
            preserves (fun fs => portfolios fs = cfg) m).
  { intros A m H fs Hfs. now rewrite H. }
  unfold filter_office365_attachments, classify_all, remove_if_empty.
  apply preserves_bind; [|intros _].
  - apply preserves_bind; [apply Hstep; intros fs; unfold os_listdir;
                            now destruct (staging fs) | intros names].
    apply preserves_for_each. intros other. unfold classify_attachment.
    apply preserves_for_each. intros key.
    unfold classify_for_key, route, move_unclassified.
    walk_keeps ltac:(apply Hstep; intros fs;
                     unfold load_portfolios, makedirs_dest, shutil_copy, os_remove,
                            makedirs_unclassified, shutil_move_unclassified;
                     repeat match goal with
                       | |- context [match ?x with _ => _ end] => destruct x eqn:?
                       end; cbn; congruence).
  - apply preserves_bind; [apply Hstep; intros fs; unfold os_listdir;
                            now destruct (staging fs) | intros names].
    destruct names; [|apply preserves_ret].
    apply Hstep. intros fs. unfold os_rmdir.
    repeat match goal with
      | |- context [match ?x with _ => _ end] => destruct x
      end; reflexivity.
Qed.

(** X13: the classification never changes the configuration, and it never
    removes or overwrites a file of a destination directory unless a
    staged file has the same name: a file of a destination directory whose
    name is not that of a regular file of the staging directory is still
    there, with its content, however the classification ends. *)
Theorem classification_keeps_destination_files :
  forall (mail_dict : list (string * mail_info))
         (attachment_dict : list (string * list string))
         (fs : filesystem) (p name : string) (files : list (string * bytes)) (c : bytes),
    dict_get (dests fs) p = Some files ->
    dict_get files name = Some c ->
    not_root_file name fs ->
    portfolios (snd (filter_office365_attachments mail_dict attachment_dict fs))
      = portfolios fs
    /\ exists files',
         dict_get (dests (snd (filter_office365_attachments mail_dict attachment_dict fs))) p
           = Some files'
         /\ dict_get files' name = Some c.
Proof.
  intros mail_dict attachment_dict fs p name files c Hp Hc Hroot. split.
  - now apply (filter_keeps_portfolios mail_dict attachment_dict (portfolios fs)).
  - apply (filter_dest p name c mail_dict attachment_dict fs).
    split; [exact Hroot|]. now exists files.
Qed.

Lemma classification_keeps_destination_files_witness :
  dests (snd (filter_office365_attachments precedence_mail_dict precedence_attachment_dict
                precedence_fs_with_old))
    = [("/portfolios/fahes", [("old.pdf", [Byte.x4f]); ("stmt.pdf", [Byte.x25; Byte.x50])])]
  /\ (portfolios (snd (filter_office365_attachments precedence_mail_dict
                         precedence_attachment_dict precedence_fs_with_old))
        = portfolios precedence_fs_with_old
      /\ exists files',
           dict_get (dests (snd (filter_office365_attachments precedence_mail_dict
                                   precedence_attachment_dict precedence_fs_with_old)))
                    "/portfolios/fahes" = Some files'
           /\ dict_get files' "old.pdf" = Some [Byte.x4f]).
Proof.
  split; [vm_compute; reflexivity|].
  apply (classification_keeps_destination_files precedence_mail_dict
           precedence_attachment_dict precedence_fs_with_old "/portfolios/fahes" "old.pdf"
           [("old.pdf", [Byte.x4f])] [Byte.x4f]).
  - reflexivity.
  - reflexivity.
  - intros entries c' [= <-]. discriminate.
Defined.

(* ===================================================================== *)
(** ** The token *)
(* ===================================================================== *)



